(** * Pet clinic event processor: the SQS consumers and their delete discipline

    The repository holds three versions of the queue consumer:
    - [Part001]   (src/unnamed/part_001): the first consumer;
    - [Part002]   (src/unnamed/part_002): the consumer with the inline report
                  mapping and a per-message try/catch in the poll loop;
    - [Processor] (src/src/PetClinicReportProcessor.js): the consumer with the
                  dead-letter queue.

    The program is embedded as functions in a monad that carries the state of
    the outside world (queue service, clock, random source), collects the
    observable events of a run (console lines, SQS requests, timers) and
    distinguishes a normal return, a thrown error and the end of the
    process. *)

From Stdlib Require Import String Ascii List Bool Arith ZArith Lia DecimalString.
Import ListNotations.
Local Open Scope string_scope.
Set Warnings "-register-all".

(** ** JavaScript values *)

(** Numbers are IEEE doubles in the engine.  The program only ever tests a
    number for truthiness and converts it to a string, so the number type is
    kept abstract behind these two operations. *)
Class Number (num : Type) : Type := {
  (** ToBoolean is false: the number is +0, -0 or NaN. *)
  num_is_falsy : num -> bool;
  (** Number::toString. *)
  num_to_string : num -> string
}.

(** The values [JSON.parse] can return, and [undefined] (the value of a
    property that is not there).  An object keeps its own properties as an
    association list; a read takes the first binding of a key. *)
Inductive JsVal (num : Type) : Type :=
| JUndefined
| JNull
| JBool (b : bool)
| JNum (n : num)
| JStr (s : string)
| JArr (elems : list (JsVal num))
| JObj (props : list (string * JsVal num)).

Arguments JUndefined {num}.
Arguments JNull {num}.
Arguments JBool {num} b.
Arguments JNum {num} n.
Arguments JStr {num} s.
Arguments JArr {num} elems.
Arguments JObj {num} props.

(** Errors: the [name] and [message] of an [Error] object. *)
Record Error : Type := mkError { error_name : string; error_message : string }.

(** Error.prototype.toString, used when an error is concatenated to a string. *)
Definition Error_toString (e : Error) : string :=
  if String.eqb (error_message e) "" then error_name e
  else if String.eqb (error_name e) "" then error_message e
  else error_name e ++ ": " ++ error_message e.

Fixpoint assoc {A : Type} (key : string) (l : list (string * A)) : option A :=
  match l with
  | [] => None
  | (k, v) :: rest => if String.eqb k key then Some v else assoc key rest
  end.

Fixpoint join (sep : string) (l : list string) : string :=
  match l with
  | [] => ""
  | [s] => s
  | s :: rest => s ++ sep ++ join sep rest
  end.

(** All [Some], in order; [None] as soon as one element is [None]. *)
Fixpoint sequence_option {A : Type} (l : list (option A)) : option (list A) :=
  match l with
  | [] => Some []
  | None :: _ => None
  | Some a :: rest =>
      match sequence_option rest with
      | Some r => Some (a :: r)
      | None => None
      end
  end.

Section Values.
Context {num : Type} `{Number num}.

(** ToBoolean. *)
Definition truthy (v : JsVal num) : bool :=
  match v with
  | JUndefined => false
  | JNull => false
  | JBool b => b
  | JNum n => negb (num_is_falsy n)
  | JStr s => negb (String.eqb s "")
  | JArr _ => true
  | JObj _ => true
  end.

(** The property read [o[key]] (or [o.key]) for a value [o] that is neither
    null nor undefined: every read in the program sits behind a truthiness
    test of [o].  The program reads only the thirteen field names, which no
    built-in prototype defines, so a read that finds no own property gives
    [undefined]; primitives and arrays have no such own property. *)
Definition get (o : JsVal num) (key : string) : JsVal num :=
  match o with
  | JObj props =>
      match assoc key props with
      | Some v => v
      | None => JUndefined
      end
  | _ => JUndefined
  end.

(** ToString, as a template literal applies it; [None] is the TypeError
    "Cannot convert object to primitive value".
    - An array is joined with commas (Array.prototype.join), null and
      undefined elements giving the empty string.
    - A parsed object is converted by Object.prototype.toString unless it
      has an own property named toString: that property holds a JSON value,
      which is not callable, valueOf then returns the object itself, and the
      conversion throws. *)
Fixpoint ToString (v : JsVal num) : option string :=
  match v with
  | JUndefined => Some "undefined"
  | JNull => Some "null"
  | JBool true => Some "true"
  | JBool false => Some "false"
  | JNum n => Some (num_to_string n)
  | JStr s => Some s
  | JArr elems =>
      let element (e : JsVal num) : option string :=
        match e with
        | JUndefined => Some ""
        | JNull => Some ""
        | _ => ToString e
        end in
      match sequence_option (map element elems) with
      | Some parts => Some (join "," parts)
      | None => None
      end
  | JObj props =>
      match assoc "toString" props with
      | Some _ => None
      | None => Some "[object Object]"
      end
  end.

(** [a && b]. *)
Definition js_and (a b : JsVal num) : JsVal num := if truthy a then b else a.
End Values.

(** [a || b] on an environment variable: a variable of [process.env] is a
    string or undefined. *)
Definition or_default (a : option string) (b : string) : string :=
  match a with
  | Some s => if String.eqb s "" then b else s
  | None => b
  end.

(** [!url] for a string or undefined. *)
Definition not_set (url : option string) : bool :=
  match url with
  | Some s => String.eqb s ""
  | None => true
  end.

(** ToString of a string or undefined. *)
Definition string_or_undefined (a : option string) : string :=
  match a with
  | Some s => s
  | None => "undefined"
  end.

(** The decimal text of a length. *)
Definition decimal (n : nat) : string := NilEmpty.string_of_uint (Nat.to_uint n).

(** The TypeError of a failed ToString. *)
Definition TypeError_primitive : Error :=
  mkError "TypeError" "Cannot convert object to primitive value".

(** The thirteen fields both validating consumers test, in the order they
    test them. *)
Definition requiredFields : list string :=
  ["petId"; "petName"; "petType"; "ownerId"; "ownerName";
   "ownerSurname"; "vetId"; "vetName"; "vetSurname";
   "appointmentDate"; "appointmentTime"; "appointmentType";
   "appointmentDescription"].

(** ** The outside world *)

(** An SQS message as [ReceiveMessage] returns it. *)
Record Message : Type := mkMessage { Body : string; ReceiptHandle : string }.

(** The parameters of a [ReceiveMessageCommand]. *)
Record ReceiveParams : Type := mkReceiveParams {
  rp_QueueUrl : option string;
  MaxNumberOfMessages : nat;
  WaitTimeSeconds : nat;
  VisibilityTimeout : nat
}.

(** The parameters of a [DeleteMessageCommand].  A queue URL that comes
    straight from [process.env] can be undefined: [None]. *)
Record DeleteParams : Type := mkDeleteParams {
  dp_QueueUrl : option string;
  dp_ReceiptHandle : string
}.

(** What a run does that can be seen from outside.  Console lines are recorded
    by their text (the first argument of the call); a value printed after the
    text is not part of the record.  [Concurrent] holds the events of calls
    that were started together and not awaited one after the other (the
    argument of [Promise.all]): one list per call, each in its own program
    order, with no order imposed between the lists. *)
Inductive Event : Type :=
| ConsoleLog (text : string)
| ConsoleError (text : string)
| SqsReceive (params : ReceiveParams)
| SqsDelete (params : DeleteParams)
| SetTimeout (callback : string) (delay : nat)
| Uncaught (e : Error)
| Concurrent (tasks : list (list Event)).

(** How a piece of code ends: it returns, it throws, or the process ends
    ([process.exit], or an exception nobody catches, which ends a Node
    process with status 1). *)
Inductive Res (A : Type) : Type :=
| Ret (a : A)
| Throw (e : Error)
| Exit (code : nat).

Arguments Ret {A} a.
Arguments Throw {A} e.
Arguments Exit {A} code.

(** The host of the program: the JSON parser of the engine, the environment
    variables of the process, and the state of everything the program talks
    to, with one transition per kind of interaction. *)
Record Host (num : Type) : Type := mkHost {
  world : Type;
  (** [JSON.parse]: a value, or the SyntaxError it throws. *)
  JSON_parse : string -> Error + JsVal num;
  (** [process.env].  The program never assigns to it: it is the same in
      every state of the world. *)
  env : string -> option string;
  (** [sqsClient.send(new ReceiveMessageCommand(params))]: the error of a
      rejected call, or the [Messages] property of the answer ([None] when
      the answer has no such property). *)
  sqs_receive : ReceiveParams -> world -> (Error + option (list Message)) * world;
  (** [sqsClient.send(new DeleteMessageCommand(params))]: [Some] error when
      the call is rejected. *)
  sqs_delete : DeleteParams -> world -> option Error * world;
  (** [new Date().toISOString()]. *)
  Date_toISOString : world -> string * world;
  (** [Math.random() < 0.1]. *)
  Math_random_lt_tenth : world -> bool * world
}.

Arguments world {num} h.
Arguments JSON_parse {num} h _.
Arguments env {num} h _.
Arguments sqs_receive {num} h _ _.
Arguments sqs_delete {num} h _ _.
Arguments Date_toISOString {num} h _.
Arguments Math_random_lt_tenth {num} h _.

(** ** The monad of the embedding *)

Section Monad.
Context {num : Type} (host : Host num).

(** A computation starts in a state of the world and gives its result, the
    state it leaves and the events it produced, oldest first. *)
Definition M (A : Type) : Type := world host -> Res A * world host * list Event.

Definition ret {A} (a : A) : M A := fun w => (Ret a, w, []).

Definition bind {A B} (c : M A) (k : A -> M B) : M B :=
  fun w =>
    match c w with
    | (Ret a, w1, t1) => let '(r, w2, t2) := k a w1 in (r, w2, (t1 ++ t2)%list)
    | (Throw e, w1, t1) => (Throw e, w1, t1)
    | (Exit n, w1, t1) => (Exit n, w1, t1)
    end.

(** [throw e]. *)
Definition throw {A} (e : Error) : M A := fun w => (Throw e, w, []).

(** [process.exit(code)]. *)
Definition process_exit {A} (code : nat) : M A := fun w => (Exit code, w, []).

(** [try { c } catch (error) { handler error }].  Only a thrown error is
    caught; the end of the process is not. *)
Definition try_catch {A} (c : M A) (handler : Error -> M A) : M A :=
  fun w =>
    match c w with
    | (Throw e, w1, t1) => let '(r, w2, t2) := handler e w1 in (r, w2, (t1 ++ t2)%list)
    | other => other
    end.

Definition emit (e : Event) : M unit := fun w => (Ret tt, w, [e]).

Definition console_log (text : string) : M unit := emit (ConsoleLog text).
Definition console_error (text : string) : M unit := emit (ConsoleError text).
Definition setTimeout (callback : string) (delay : nat) : M unit :=
  emit (SetTimeout callback delay).

(** An error thrown where nothing can catch it (inside a timer callback):
    Node reports it and ends the process with status 1. *)
Definition uncaught {A} (e : Error) : M A := fun w => (Exit 1, w, [Uncaught e]).

(** A value or an error of the engine, as a computation. *)
Definition lift {A} (r : Error + A) : M A :=
  match r with
  | inl e => throw e
  | inr a => ret a
  end.

(** [await sqsClient.send(new ReceiveMessageCommand(params))]. *)
Definition send_receive (params : ReceiveParams) : M (option (list Message)) :=
  fun w =>
    match sqs_receive host params w with
    | (inl e, w1) => (Throw e, w1, [SqsReceive params])
    | (inr msgs, w1) => (Ret msgs, w1, [SqsReceive params])
    end.

(** [await sqsClient.send(new DeleteMessageCommand(params))]. *)
Definition send_delete (params : DeleteParams) : M unit :=
  fun w =>
    match sqs_delete host params w with
    | (Some e, w1) => (Throw e, w1, [SqsDelete params])
    | (None, w1) => (Ret tt, w1, [SqsDelete params])
    end.

Definition now_iso : M string :=
  fun w => let '(s, w1) := Date_toISOString host w in (Ret s, w1, []).

Definition random_lt_tenth : M bool :=
  fun w => let '(b, w1) := Math_random_lt_tenth host w in (Ret b, w1, []).

(** [for (const x of l) { await body x }]: stops at the first iteration
    that does not return. *)
Fixpoint for_of {A} (l : list A) (body : A -> M unit) : M unit :=
  match l with
  | [] => ret tt
  | x :: rest => bind (body x) (fun _ => for_of rest body)
  end.

(** The calls [l.map(x => task x)] starts, in the order of the array: each
    call runs whatever the others do, and the requests reach the world in
    the order the calls were started (each call of this program sends at
    most one).  The result is the settlement and the events of every call.
    The end of the process in a call ends everything: no later call is
    started. *)
Fixpoint start_all {A} (l : list A) (task : A -> M unit)
  (w : world host) : list (Res unit * list Event) * world host :=
  match l with
  | [] => ([], w)
  | x :: rest =>
      match task x w with
      | (Exit n, w1, t) => ([(Exit n, t)], w1)
      | (r, w1, t) =>
          let '(rs, w2) := start_all rest task w1 in
          ((r, t) :: rs, w2)
      end
  end.

(** How the promise of [Promise.all] settles: it rejects when a call has
    thrown, with the error of the first call, in array order, that threw
    (exact when the calls throw before their first [await]). *)
Fixpoint settle_all (rs : list (Res unit)) : Res unit :=
  match rs with
  | [] => Ret tt
  | Ret _ :: rest => settle_all rest
  | Throw e :: rest =>
      match settle_all rest with
      | Exit n => Exit n
      | _ => Throw e
      end
  | Exit n :: _ => Exit n
  end.

(** [await Promise.all(l.map(x => task x))].  The events of the calls go to
    one [Concurrent] event; a call that is still waiting for its answer when
    the promise rejects goes on while the caller continues, so its last
    events can fall behind events recorded after the block. *)
Definition Promise_all_map {A} (l : list A) (task : A -> M unit) : M unit :=
  fun w =>
    let '(rs, w1) := start_all l task w in
    (settle_all (map fst rs), w1, [Concurrent (map snd rs)]).

End Monad.

Arguments bind {num host A B} c k.
Arguments try_catch {num host A} c handler.
Arguments for_of {num host A} l body.
Arguments Promise_all_map {num host A} l task.
Arguments start_all {num host A} l task w.

Declare Scope js_scope.
Delimit Scope js_scope with js.
Notation "x <- c ;; k" := (bind c (fun x => k))
  (at level 61, c at next level, right associativity) : js_scope.
Notation "c ;; k" := (bind c (fun _ => k))
  (at level 61, right associativity) : js_scope.
Local Open Scope js_scope.

(** ** src/unnamed/part_002: the consumer with the inline report mapping *)

Module Part002.

(** The report object of lines 32-54. *)
Record PetInfo (num : Type) : Type := mkPetInfo {
  pet_name : JsVal num;
  pet_type : JsVal num
}.
Record OwnerInfo (num : Type) : Type := mkOwnerInfo {
  owner_id : JsVal num;
  owner_name : string
}.
Record VetInfo (num : Type) : Type := mkVetInfo {
  vet_id : JsVal num;
  vet_name : string
}.
Record Appointment (num : Type) : Type := mkAppointment {
  appt_date : JsVal num;
  appt_time : JsVal num;
  appt_type : JsVal num;
  appt_description : JsVal num
}.
Record Report (num : Type) : Type := mkReport {
  id : JsVal num;
  petInfo : PetInfo num;
  ownerInfo : OwnerInfo num;
  vetInfo : VetInfo num;
  appointment : Appointment num;
  processedAt : string;
  environment : string
}.

Arguments pet_name {num} p.
Arguments pet_type {num} p.
Arguments owner_id {num} o.
Arguments owner_name {num} o.
Arguments vet_id {num} v.
Arguments vet_name {num} v.
Arguments appt_date {num} a.
Arguments appt_time {num} a.
Arguments appt_type {num} a.
Arguments appt_description {num} a.
Arguments id {num} r.
Arguments petInfo {num} r.
Arguments ownerInfo {num} r.
Arguments vetInfo {num} r.
Arguments appointment {num} r.
Arguments processedAt {num} r.
Arguments environment {num} r.

Section Program.
Context {num : Type} `{Number num} (host : Host num).

Definition region : string := or_default (env host "AWS_REGION") "us-east-1".

Definition queueUrl : string :=
  or_default (env host "SQS_QUEUE_URL")
    "https://sqs.us-east-1.amazonaws.com/123456789012/pet-clinic-reports".

(** Line 29: [requiredFields.every(field => messageBody && messageBody[field])]. *)
Definition isValid (messageBody : JsVal num) : bool :=
  forallb (fun field => truthy (js_and messageBody (get messageBody field)))
    requiredFields.

(** The template literal [`${a} ${b}`]. *)
Definition template_name (a b : JsVal num) : M host string :=
  match ToString a with
  | None => throw host TypeError_primitive
  | Some x =>
      match ToString b with
      | None => throw host TypeError_primitive
      | Some y => ret host (x ++ " " ++ y)
      end
  end.

(** Lines 32-54: the object literal, its properties evaluated in order. *)
Definition make_report (messageBody : JsVal num) : M host (Report num) :=
  ownerName <- template_name (get messageBody "ownerName")
                 (get messageBody "ownerSurname");;
  vetName <- template_name (get messageBody "vetName")
               (get messageBody "vetSurname");;
  now <- now_iso host;;
  ret host
    {| id := get messageBody "petId";
       petInfo := {| pet_name := get messageBody "petName";
                     pet_type := get messageBody "petType" |};
       ownerInfo := {| owner_id := get messageBody "ownerId";
                       owner_name := ownerName |};
       vetInfo := {| vet_id := get messageBody "vetId";
                     vet_name := vetName |};
       appointment := {| appt_date := get messageBody "appointmentDate";
                         appt_time := get messageBody "appointmentTime";
                         appt_type := get messageBody "appointmentType";
                         appt_description :=
                           get messageBody "appointmentDescription" |};
       processedAt := now;
       environment := or_default (env host "NODE_ENV") "production" |}.

(** Lines 78-86.  The promise resolves from a timer callback that first
    prints a template literal over [report.id]; when that conversion
    throws, the error is thrown inside the callback, where nothing
    catches it.  The 100 ms timer itself is not recorded. *)
Definition processReportData (report : Report num) : M host unit :=
  match ToString (id report) with
  | Some s =>
      console_log host
        ("Report " ++ s ++ " processed in " ++ environment report
         ++ " environment")
  | None => uncaught host TypeError_primitive
  end.

(** Lines 92-104. *)
Definition deleteMessage (receiptHandle : string) : M host unit :=
  let deleteParams :=
    {| dp_QueueUrl := Some queueUrl; dp_ReceiptHandle := receiptHandle |} in
  try_catch (send_delete host deleteParams)
    (fun error =>
       console_error host "Error deleting message:";;
       throw host error).

(** Lines 21-63: parse, validate and map; the report is what the block
    hands to [processReportData]. *)
Definition validate_and_map (message : Message) : M host (Report num) :=
  messageBody <- lift host (JSON_parse host (Body message));;
  console_log host "Processing report message:";;
  if isValid messageBody then
    report <- make_report messageBody;;
    console_log host "Successfully processed report:";;
    ret host report
  else
    console_error host "Invalid message format - missing required fields";;
    throw host
      (mkError "Error" "Invalid message format - missing required fields").

(** Lines 18-72. *)
Definition processMessage (message : Message) : M host unit :=
  try_catch
    (report <- validate_and_map message;;
     processReportData report;;
     deleteMessage (ReceiptHandle message);;
     console_log host "Message processed and removed from queue")
    (fun error =>
       console_error host "Error processing message:";;
       throw host
         (mkError "Error"
            ("Message processing failed: " ++ error_message error))).

(** Lines 130-134: the body of the loop over the received messages. *)
Definition attempt (message : Message) : M host unit :=
  try_catch (processMessage message)
    (fun error =>
       console_error host
         ("Failed to process message: " ++ error_message error)).

(** Lines 129-135: the loop over the received messages. *)
Definition process_batch (Messages : list Message) : M host unit :=
  for_of Messages attempt.

(** Lines 109-145: one cycle of the poll loop. *)
Definition pollQueue : M host unit :=
  if String.eqb queueUrl "" then
    console_error host "SQS_QUEUE_URL environment variable is not set"
  else
    let params :=
      {| rp_QueueUrl := Some queueUrl;
         MaxNumberOfMessages := 10;
         WaitTimeSeconds := 20;
         VisibilityTimeout := 300 |} in
    try_catch
      (data_Messages <- send_receive host params;;
       match data_Messages with
       | Some (m :: rest) =>
           console_log host
             ("Received " ++ decimal (length (m :: rest))
              ++ " messages from pet-clinic-reports queue");;
           process_batch (m :: rest)
       | _ => console_log host "No messages available in queue"
       end)
      (fun error => console_error host "Error receiving messages from queue:");;
    setTimeout host "pollQueue" 1000.

(** Lines 150-156. *)
Definition main : M host unit :=
  console_log host ("Starting enhanced SQS consumer for queue: " ++ queueUrl);;
  console_log host
    ("Running in " ++ or_default (env host "NODE_ENV") "production"
     ++ " environment");;
  pollQueue.

(** Lines 170-173: the script starts [main] and ends the process with
    status 1 when it rejects. *)
Definition start : M host unit :=
  try_catch main
    (fun error =>
       console_error host "Fatal error in event processor:";;
       process_exit host 1).

End Program.
End Part002.

(** ** The call [PetClinicReport.from(message.body)] *)

(** Two consumers evaluate [PetClinicReport.from(message.body)].  What the
    expression [PetClinicReport.from] denotes is a matter of the module it
    is evaluated in, so the consumers take it as a parameter: [Some f] when
    it evaluates to a function [f] (given the argument, [f] throws or
    returns), [None] when evaluating or calling it throws. *)
Definition StaticFrom (num : Type) : Type := option (JsVal num -> Error + unit).

(** The binding in the files as they are: neither consumer declares or
    requires a [PetClinicReport], and the class of src/src/PetClinicReport.js
    has the static method [fromJson] and no [from]. *)
Definition as_written {num : Type} : StaticFrom num := None.

(** [message.body]: a message has the properties [Body] and [ReceiptHandle];
    a read of [body] finds nothing. *)
Definition message_body {num : Type} (message : Message) : JsVal num := JUndefined.

Definition call_PetClinicReport_from {num : Type} (host : Host num)
    (binding : StaticFrom num) (arg : JsVal num) : M host unit :=
  match binding with
  | None => throw host (mkError "ReferenceError" "PetClinicReport is not defined")
  | Some f => lift host (f arg)
  end.

(** ** src/unnamed/part_001: the first consumer *)

Module Part001.
Section Program.
Context {num : Type} `{Number num} (host : Host num).
Variable PetClinicReport_from : StaticFrom num.

Definition region : string := or_default (env host "AWS_REGION") "us-east-1".

Definition queueUrl : option string := env host "SQS_QUEUE_URL".

(** Lines 37-49. *)
Definition deleteMessage (receiptHandle : string) : M host unit :=
  let deleteParams :=
    {| dp_QueueUrl := queueUrl; dp_ReceiptHandle := receiptHandle |} in
  try_catch (send_delete host deleteParams)
    (fun error =>
       console_error host "Error deleting message:";;
       throw host error).

(** Lines 14-31: the handler logs the error and does not throw again. *)
Definition processMessage (message : Message) : M host unit :=
  try_catch
    (call_PetClinicReport_from host PetClinicReport_from (message_body message);;
     messageBody <- lift host (JSON_parse host (Body message));;
     console_log host "Received message:";;
     deleteMessage (ReceiptHandle message);;
     console_log host "Message processed and deleted from queue")
    (fun error => console_error host "Error processing message:").

(** Lines 54-85: one cycle of the poll loop. *)
Definition pollQueue : M host unit :=
  (if not_set queueUrl then
     console_error host "SQS_QUEUE_URL environment variable is not set";;
     process_exit host 1
   else ret host tt);;
  let params :=
    {| rp_QueueUrl := queueUrl;
       MaxNumberOfMessages := 10;
       WaitTimeSeconds := 20;
       VisibilityTimeout := 30 |} in
  try_catch
    (data_Messages <- send_receive host params;;
     match data_Messages with
     | Some (m :: rest) =>
         console_log host
           ("Received " ++ decimal (length (m :: rest)) ++ " messages");;
         Promise_all_map (m :: rest) (fun message => processMessage message)
     | _ => console_log host "No messages received"
     end)
    (fun error => console_error host "Error receiving messages:");;
  setTimeout host "pollQueue" 100.

(** Lines 90-95. *)
Definition main : M host unit :=
  console_log host
    ("Starting SQS consumer for queue: " ++ string_or_undefined queueUrl);;
  pollQueue.

(** Lines 104-107. *)
Definition start : M host unit :=
  try_catch main
    (fun error =>
       console_error host "Fatal error:";;
       process_exit host 1).

End Program.
End Part001.

(** ** src/src/PetClinicReportProcessor.js: the consumer with the DLQ *)

Module Processor.
Section Program.
Context {num : Type} `{Number num} (host : Host num).
Variable PetClinicReport_from : StaticFrom num.

Definition region : string := or_default (env host "AWS_REGION") "us-east-1".

Definition queueUrl : option string := env host "SQS_QUEUE_URL".

(** Line 6: [+] binds tighter than [||]. *)
Definition dlqUrl : string :=
  or_default (env host "SQS_DLQ_URL")
    (string_or_undefined (env host "SQS_QUEUE_URL") ++ "-dlq").

(** Lines 89-101; the default value of [targetQueue] replaces an
    undefined argument. *)
Definition deleteMessage (receiptHandle : string)
    (targetQueue : option string) : M host unit :=
  let targetQueue :=
    match targetQueue with
    | None => queueUrl
    | Some q => Some q
    end in
  let deleteParams :=
    {| dp_QueueUrl := targetQueue; dp_ReceiptHandle := receiptHandle |} in
  try_catch (send_delete host deleteParams)
    (fun error =>
       console_error host "Error deleting message:";;
       throw host error).

(** Lines 60-64: the condition
    [messageBody && messageBody.petId && ... && messageBody.appointmentDescription]. *)
Definition fields_present (messageBody : JsVal num) : JsVal num :=
  fold_left js_and (map (get messageBody) requiredFields) messageBody.

(** Lines 55-72: parse, validate and map. *)
Definition validate_and_map (message : Message) : M host unit :=
  messageBody <- lift host (JSON_parse host (Body message));;
  console_log host "Received message:";;
  if truthy (fields_present messageBody) then
    call_PetClinicReport_from host PetClinicReport_from (message_body message);;
    console_log host "Processed report:"
  else
    console_log host "Invalid message format. Skipping processing.";;
    throw host (mkError "Error" "Invalid message format. Skipping processing.").

(** Lines 52-82. *)
Definition processMessage (message : Message) (isRetry : bool) : M host unit :=
  try_catch
    (validate_and_map message;;
     let targetQueue := if isRetry then Some dlqUrl else queueUrl in
     deleteMessage (ReceiptHandle message) targetQueue;;
     console_log host "Message processed and deleted from queue")
    (fun error =>
       console_error host "Error processing message:";;
       throw host
         (mkError "Error" ("Error processing message:" ++ Error_toString error))).

(** Lines 28-40: what the DLQ loop does with one message. *)
Definition reprocess (message : Message) : M host unit :=
  try_catch
    (processMessage message true;;
     deleteMessage (ReceiptHandle message) (Some dlqUrl);;
     console_log host "Successfully reprocessed message from DLQ")
    (fun error => console_error host "Failed to reprocess DLQ message:").

(** Lines 14-45. *)
Definition processDeadLetterQueue : M host unit :=
  let params :=
    {| rp_QueueUrl := Some dlqUrl;
       MaxNumberOfMessages := 10;
       WaitTimeSeconds := 5;
       VisibilityTimeout := 30 |} in
  try_catch
    (data_Messages <- send_receive host params;;
     match data_Messages with
     | Some (m :: rest) =>
         console_log host
           ("Processing " ++ decimal (length (m :: rest))
            ++ " messages from DLQ");;
         for_of (m :: rest) reprocess
     | _ => ret host tt
     end)
    (fun error => console_error host "Error processing DLQ:").

(** Lines 106-142: one cycle of the poll loop. *)
Definition pollQueue : M host unit :=
  if not_set queueUrl then
    console_error host "SQS_QUEUE_URL environment variable is not set"
  else
    let params :=
      {| rp_QueueUrl := queueUrl;
         MaxNumberOfMessages := 10;
         WaitTimeSeconds := 20;
         VisibilityTimeout := 30 |} in
    try_catch
      (data_Messages <- send_receive host params;;
       match data_Messages with
       | Some (m :: rest) =>
           console_log host
             ("Received " ++ decimal (length (m :: rest)) ++ " messages");;
           Promise_all_map (m :: rest)
             (fun message => processMessage message false)
       | _ => console_log host "No messages received"
       end)
      (fun error => console_error host "Error receiving messages:");;
    (check <- random_lt_tenth host;;
     if check then processDeadLetterQueue else ret host tt);;
    setTimeout host "pollQueue" 100.

(** Lines 147-153. *)
Definition main : M host unit :=
  console_log host
    ("Starting SQS consumer for queue: " ++ string_or_undefined queueUrl);;
  console_log host ("DLQ configured at: " ++ dlqUrl);;
  pollQueue.

(** Lines 162-165. *)
Definition start : M host unit :=
  try_catch main
    (fun error =>
       console_error host "Fatal error:";;
       process_exit host 1).

End Program.
End Processor.

(** ** Reading a run *)

Definition res_of {A W : Type} (x : Res A * W * list Event) : Res A := fst (fst x).
Definition world_of {A W : Type} (x : Res A * W * list Event) : W := snd (fst x).
Definition events_of {A W : Type} (x : Res A * W * list Event) : list Event := snd x.

Definition returned {A : Type} (r : Res A) : bool :=
  match r with
  | Ret _ => true
  | _ => false
  end.

(** The delete requests among some events, those of concurrent calls
    included, call by call. *)
Fixpoint event_deletes (e : Event) : list DeleteParams :=
  match e with
  | SqsDelete p => [p]
  | Concurrent tasks => flat_map (flat_map event_deletes) tasks
  | _ => []
  end.

Definition deletes (t : list Event) : list DeleteParams := flat_map event_deletes t.

(** The queue every SQS request among some events is addressed to. *)
Fixpoint event_targets (e : Event) : list (option string) :=
  match e with
  | SqsReceive p => [rp_QueueUrl p]
  | SqsDelete p => [dp_QueueUrl p]
  | Concurrent tasks => flat_map (flat_map event_targets) tasks
  | _ => []
  end.

Definition targets (t : list Event) : list (option string) := flat_map event_targets t.

(** ** A concrete host, to run the consumers on

    Numbers are integers; the clock counts its readings; a receive returns
    the messages the host was built with ([dlq] for a request to [dlq_url],
    [primary] for any other); a delete is rejected for the receipt handles
    listed in [rejected]. *)

#[local] Instance Number_Z : Number Z := {
  num_is_falsy := Z.eqb 0;
  num_to_string := fun z => NilZero.string_of_int (Z.to_int z)
}.

Module Demo.

Definition quote : string := String (Ascii.ascii_of_nat 34) EmptyString.

(** The JSON text of an object whose values are strings, numbers, booleans
    or null (no character of the sample strings needs an escape). *)
Definition json_value (v : JsVal Z) : string :=
  match v with
  | JStr s => quote ++ s ++ quote
  | JNum n => num_to_string n
  | JBool true => "true"
  | JBool false => "false"
  | JObj [] => "{}"
  | JObj [(k, JNum n)] => "{" ++ quote ++ k ++ quote ++ ":" ++ num_to_string n ++ "}"
  | _ => "null"
  end.

Definition json_member (kv : string * JsVal Z) : string :=
  quote ++ fst kv ++ quote ++ ":" ++ json_value (snd kv).

Definition json_object (props : list (string * JsVal Z)) : string :=
  "{" ++ join "," (map json_member props) ++ "}".

(** A complete payload. *)
Definition rex : list (string * JsVal Z) :=
  [("petId", JStr "p-17"); ("petName", JStr "Rex"); ("petType", JStr "dog");
   ("ownerId", JStr "o-3"); ("ownerName", JStr "Ana"); ("ownerSurname", JStr "Silva");
   ("vetId", JStr "v-9"); ("vetName", JStr "Joe"); ("vetSurname", JStr "Doe");
   ("appointmentDate", JStr "2024-05-01"); ("appointmentTime", JStr "10:30");
   ("appointmentType", JStr "checkup");
   ("appointmentDescription", JStr "yearly visit")].

(** [rex] with one field replaced. *)
Fixpoint with_field (key : string) (v : JsVal Z) (props : list (string * JsVal Z))
  : list (string * JsVal Z) :=
  match props with
  | [] => []
  | (k, x) :: rest =>
      if String.eqb k key then (k, v) :: rest
      else (k, x) :: with_field key v rest
  end.

(** [rex] without one field. *)
Definition without_field (key : string) (props : list (string * JsVal Z))
  : list (string * JsVal Z) :=
  filter (fun kv => negb (String.eqb (fst kv) key)) props.

(** The payloads the sample parser knows. *)
Definition samples : list (list (string * JsVal Z)) :=
  [rex;
   without_field "vetName" rex;
   without_field "ownerId" rex;
   with_field "vetName" JNull rex;
   with_field "vetName" (JStr "") rex;
   with_field "ownerId" (JNum 0%Z) rex;
   with_field "ownerId" (JBool false) rex;
   with_field "ownerId" (JNum 7%Z) rex;
   with_field "ownerName" (JObj [("toString", JNum 1%Z)]) rex;
   with_field "petId" (JObj [("toString", JNum 1%Z)]) rex].

(** [JSON.parse] on the texts of the samples; any other text is taken to be
    malformed. *)
Definition parse (text : string) : Error + JsVal Z :=
  match find (fun props => String.eqb (json_object props) text) samples with
  | Some props => inr (JObj props)
  | None => inl (mkError "SyntaxError" "Unexpected token in JSON")
  end.

Definition vars (QUEUE DLQ NODE_ENV : option string) (key : string) : option string :=
  if String.eqb key "SQS_QUEUE_URL" then QUEUE
  else if String.eqb key "SQS_DLQ_URL" then DLQ
  else if String.eqb key "NODE_ENV" then NODE_ENV
  else None.

Definition timestamp (n : nat) : string :=
  "2024-05-01T10:30:0" ++ decimal n ++ ".000Z".

Definition host (variables : string -> option string) (dlq_url : string)
    (primary dlq : list Message) (rejected : list string) (random : bool)
    : Host Z :=
  {| world := nat;
     JSON_parse := parse;
     env := variables;
     sqs_receive := fun p w =>
       (inr (Some (if String.eqb (string_or_undefined (rp_QueueUrl p)) dlq_url
                   then dlq else primary)), w);
     sqs_delete := fun p w =>
       (if existsb (String.eqb (dp_ReceiptHandle p)) rejected
        then Some (mkError "ReceiptHandleIsInvalid" "The receipt handle has expired")
        else None, w);
     Date_toISOString := fun w => (timestamp w, S w);
     Math_random_lt_tenth := fun w => (random, w) |}.

Definition msg (handle : string) (props : list (string * JsVal Z)) : Message :=
  {| Body := json_object props; ReceiptHandle := handle |}.

Definition queue : string := "https://sqs.example/clinic".

(** The usual host: primary queue URL set, nothing rejected. *)
Definition configured (primary dlq : list Message) (random : bool) : Host Z :=
  host (vars (Some queue) None None) (queue ++ "-dlq") primary dlq [] random.

(** A host with no environment variable set. *)
Definition unconfigured : Host Z :=
  host (vars None None None) "undefined-dlq" [] [] [] false.

(** A binding of [PetClinicReport.from] that returns. *)
Definition returning : StaticFrom Z := Some (fun _ => inr tt).

End Demo.

(** ** Vocabulary of the statements *)

Section Vocabulary.
Context {num : Type} `{Number num}.

(** What a field holds when it is absent, null or the empty string. *)
Definition absent_null_or_empty (v : JsVal num) : Prop :=
  v = JUndefined \/ v = JNull \/ v = JStr "".

(** The same, or one of the two other values a parsed payload can hold
    that convert to false: the boolean false and a zero number. *)
Definition falsy (v : JsVal num) : Prop :=
  absent_null_or_empty v \/ v = JBool false
  \/ exists n, v = JNum n /\ num_is_falsy n = true.

(** A display name: the two parts, converted to strings, with one space
    between them; nothing when a conversion throws. *)
Definition display_name (a b : JsVal num) : option string :=
  match ToString a, ToString b with
  | Some x, Some y => Some (x ++ " " ++ y)
  | _, _ => None
  end.
End Vocabulary.

(** The record the mapping of [Part002] is expected to build from a payload:
    the fields copied, the two display names given, the time stamp given. *)
Definition expected_report {num : Type} (host : Host num)
    (messageBody : JsVal num) (ownerName vetName now : string)
    : Part002.Report num :=
  {| Part002.id := get messageBody "petId";
     Part002.petInfo :=
       {| Part002.pet_name := get messageBody "petName";
          Part002.pet_type := get messageBody "petType" |};
     Part002.ownerInfo :=
       {| Part002.owner_id := get messageBody "ownerId";
          Part002.owner_name := ownerName |};
     Part002.vetInfo :=
       {| Part002.vet_id := get messageBody "vetId";
          Part002.vet_name := vetName |};
     Part002.appointment :=
       {| Part002.appt_date := get messageBody "appointmentDate";
          Part002.appt_time := get messageBody "appointmentTime";
          Part002.appt_type := get messageBody "appointmentType";
          Part002.appt_description := get messageBody "appointmentDescription" |};
     Part002.processedAt := now;
     Part002.environment := or_default (env host "NODE_ENV") "production" |}.

(** Two reports that differ at most in [processedAt]. *)
Definition same_except_processedAt {num : Type} (r1 r2 : Part002.Report num) : Prop :=
  Part002.id r2 = Part002.id r1
  /\ Part002.petInfo r2 = Part002.petInfo r1
  /\ Part002.ownerInfo r2 = Part002.ownerInfo r1
  /\ Part002.vetInfo r2 = Part002.vetInfo r1
  /\ Part002.appointment r2 = Part002.appointment r1
  /\ Part002.environment r2 = Part002.environment r1.

(** The error [Processor.processMessage] throws in place of the error [e] it
    caught. *)
Definition rethrown_by_processor (e : Error) : Error :=
  mkError "Error" ("Error processing message:" ++ Error_toString e).

(** The error [Part002.processMessage] throws in place of the error [e] it
    caught. *)
Definition rethrown_by_002 (e : Error) : Error :=
  mkError "Error" ("Message processing failed: " ++ error_message e).

(** The delete request for a message on a queue. *)
Definition delete_of (queue : option string) (message : Message) : DeleteParams :=
  {| dp_QueueUrl := queue; dp_ReceiptHandle := ReceiptHandle message |}.

Section RunVocabulary.
Context {num : Type} {host : Host num}.

(** Calls none of which ends the process. *)
Definition never_exits {A : Type} (task : A -> M host unit) : Prop :=
  forall x w n, res_of (task x w) <> Exit n.

(** A run that ends the process only after the event [u]. *)
Definition exits_by (u : Event) {A : Type}
    (x : Res A * world host * list Event) : Prop :=
  forall n, res_of x = Exit n -> In u (events_of x).
End RunVocabulary.

(** Every request among the events [t] is addressed to the queue [q]. *)
Definition all_to (q : option string) (t : list Event) : Prop :=
  Forall (fun x => x = q) (targets t).

(** The queue [Processor.processMessage] deletes from. *)
Definition target_of {num : Type} (host : Host num) (isRetry : bool) : option string :=
  if isRetry then Some (Processor.dlqUrl host) else Processor.queueUrl host.

(** The errors the two validating consumers throw for an incomplete payload. *)
Definition invalid_format_002 : Error :=
  mkError "Error" "Invalid message format - missing required fields".

Definition invalid_format_processor : Error :=
  mkError "Error" "Invalid message format. Skipping processing.".

(** ** src/wasabi-toolbag/tools/TestRunnerTool.ts: the Jest command *)

(** The double quote, as a string. *)
Definition double_quote : string := String (Ascii.ascii_of_nat 34) EmptyString.

Module TestRunnerTool.

(** The characters of the class [[.*+?^${}()|[\]\\]] of line 64. *)
Definition special (c : Ascii.ascii) : bool :=
  existsb (Ascii.eqb c)
    ["."; "*"; "+"; "?"; "^"; "$"; "{"; "}"; "("; ")"; "|"; "["; "]";
     Ascii.ascii_of_nat 92]%char.

(** Line 64: [testPattern.replace(/[.*+?^${}()|[\]\\]/g, '\\$&')], every
    character of the class gets a backslash in front of it.  The characters
    of the class are ASCII, so going through the bytes of the string gives
    what going through its code units gives. *)
Fixpoint escapePattern (testPattern : string) : string :=
  match testPattern with
  | EmptyString => EmptyString
  | String c rest =>
      if special c
      then String (Ascii.ascii_of_nat 92) (String c (escapePattern rest))
      else String c (escapePattern rest)
  end.

(** Lines 59-70: the command [execute] runs, for the pattern and the
    coverage flag of its parameters (an absent pattern is the empty string,
    an absent flag is false). *)
Definition jestCommand (testPattern : string) (coverage : bool) : string :=
  let jestCommand := "npx jest" in
  let jestCommand :=
    if String.eqb testPattern "" then jestCommand
    else jestCommand ++ " --testPathPattern=" ++ double_quote
         ++ escapePattern testPattern ++ double_quote in
  if coverage then jestCommand ++ " --coverage" else jestCommand.

End TestRunnerTool.

(** How a reader of regular expressions takes an escaped pattern back: a
    backslash stands for the character after it. *)
Fixpoint unescapePattern (s : string) : string :=
  match s with
  | EmptyString => EmptyString
  | String c tail =>
      if Ascii.eqb c (Ascii.ascii_of_nat 92) then
        match tail with
        | EmptyString => String c EmptyString
        | String d rest => String d (unescapePattern rest)
        end
      else String c (unescapePattern tail)
  end.

(** ** src/wasabi-toolbag/tools/SQSLocalTool.ts: the local SQS container *)

Module SQSLocalTool.

(** The port of the parameters: absent (the default, 9324) or a number. *)
Inductive Port (num : Type) : Type :=
| DefaultPort
| GivenPort (n : num).

Arguments DefaultPort {num}.
Arguments GivenPort {num} n.

(** The parameters of [execute]. *)
Record Params (num : Type) : Type := mkParams {
  action : string;
  queueName : option string;
  port : Port num
}.

Arguments action {num} p.
Arguments queueName {num} p.
Arguments port {num} p.

(** The object [execute] resolves with; a property the object does not have
    is [None]. *)
Record Result (num : Type) : Type := mkResult {
  status : string;
  message : string;
  error : option string;
  res_port : option (Port num);
  endpoint : option string;
  running : option bool;
  containerStatus : option string;
  queues : option (JsVal num)
}.

Arguments status {num} r.
Arguments message {num} r.
Arguments error {num} r.
Arguments res_port {num} r.
Arguments endpoint {num} r.
Arguments running {num} r.
Arguments containerStatus {num} r.
Arguments queues {num} r.

(** What the tool runs on: the shell behind [exec] (a command fails with an
    error or gives its standard output), and the engine's
    [String.prototype.trim] and [JSON.parse]. *)
Record ToolHost (num : Type) : Type := mkToolHost {
  shell : Type;
  exec : string -> shell -> (Error + string) * shell;
  trim : string -> string;
  parse : string -> Error + JsVal num
}.

Arguments shell {num} t.
Arguments exec {num} t _ _.
Arguments trim {num} t _.
Arguments parse {num} t _.

Section Program.
Context {num : Type} `{Number num} (tool : ToolHost num).

(** A computation of the tool: its value or the error it throws, the state
    of the shell it leaves, and the commands it ran, oldest first. *)
Definition T (A : Type) : Type :=
  shell tool -> (Error + A) * shell tool * list string.

Definition t_ret {A} (a : A) : T A := fun w => (inr a, w, []).

Definition t_bind {A B} (c : T A) (k : A -> T B) : T B :=
  fun w =>
    match c w with
    | (inr a, w1, c1) => let '(r, w2, c2) := k a w1 in (r, w2, (c1 ++ c2)%list)
    | (inl e, w1, c1) => (inl e, w1, c1)
    end.

Definition t_try {A} (c : T A) (handler : Error -> T A) : T A :=
  fun w =>
    match c w with
    | (inl e, w1, c1) => let '(r, w2, c2) := handler e w1 in (r, w2, (c1 ++ c2)%list)
    | other => other
    end.

Definition t_lift {A} (r : Error + A) : T A := fun w => (r, w, []).

(** Lines 245-255. *)
Definition execCommand (command : string) : T string :=
  fun w => let '(r, w1) := exec tool command w in (r, w1, [command]).

Definition plain (status message : string) : Result num :=
  {| status := status; message := message; error := None; res_port := None;
     endpoint := None; running := None; containerStatus := None;
     queues := None |}.

(** An error answer that carries [error.message]. *)
Definition failed (message : string) (e : Error) : Result num :=
  {| status := "error"; message := message; error := Some (error_message e);
     res_port := None; endpoint := None; running := None;
     containerStatus := None; queues := None |}.

Definition containerName : string := "pet-clinic-sqs-local".

(** The template literal [`${port}`]. *)
Definition port_text (port : Port num) : string :=
  match port with
  | DefaultPort => "9324"
  | GivenPort n => num_to_string n
  end.

Definition ps_all : string :=
  "docker ps -a --filter " ++ double_quote ++ "name=" ++ containerName
  ++ double_quote ++ " --format " ++ double_quote ++ "{{.Status}}" ++ double_quote.

Definition ps_running : string :=
  "docker ps --filter " ++ double_quote ++ "name=" ++ containerName
  ++ double_quote ++ " --format " ++ double_quote ++ "{{.Status}}" ++ double_quote.

Definition docker_run (port : Port num) : string :=
  "docker run -d --name " ++ containerName ++ " -p " ++ port_text port
  ++ ":9324 -p 9325:9325 softwaremill/elasticmq".

Definition started (message : string) (port : Port num) : Result num :=
  {| status := "success"; message := message; error := None;
     res_port := Some port;
     endpoint := Some ("http://localhost:" ++ port_text port);
     running := None; containerStatus := None; queues := None |}.

(** Lines 91-131. *)
Definition startLocalSQS (port : Port num) : T (Result num) :=
  let dockerCommand := docker_run port in
  t_try
    (t_bind (execCommand ps_all) (fun stdout =>
       if negb (String.eqb (trim tool stdout) "") && String.prefix "Up" stdout
       then t_ret (started "Local SQS is already running" port)
       else
         t_bind
           (if negb (String.eqb (trim tool stdout) "")
            then t_bind (execCommand ("docker rm " ++ containerName))
                   (fun _ => t_ret tt)
            else t_ret tt)
           (fun _ =>
              t_bind (execCommand dockerCommand) (fun _ =>
                t_ret (started "Local SQS started successfully" port)))))
    (fun error => t_ret (failed "Failed to start local SQS" error)).

(** Lines 133-151. *)
Definition stopLocalSQS : T (Result num) :=
  t_try
    (t_bind (execCommand ("docker stop " ++ containerName)) (fun _ =>
     t_bind (execCommand ("docker rm " ++ containerName)) (fun _ =>
     t_ret (plain "success" "Local SQS stopped and removed successfully"))))
    (fun error => t_ret (failed "Failed to stop local SQS" error)).

(** Lines 153-176. *)
Definition getSQSStatus : T (Result num) :=
  t_try
    (t_bind (execCommand ps_running) (fun stdout =>
       let up := negb (String.eqb (trim tool stdout) "") in
       t_ret
         {| status := "success";
            message := if up then "Local SQS is running"
                       else "Local SQS is not running";
            error := None; res_port := None; endpoint := None;
            running := Some up;
            containerStatus :=
              Some (if up then trim tool stdout else "Not running");
            queues := None |}))
    (fun error => t_ret (failed "Failed to get SQS status" error)).

(** The read [JSON.parse(stdout).QueueUrls] of line 198: reading a property
    of null throws. *)
Definition read_QueueUrls (v : JsVal num) : Error + JsVal num :=
  match v with
  | JNull | JUndefined =>
      inl (mkError "TypeError"
             "Cannot read properties of null (reading 'QueueUrls')")
  | _ => inr (get v "QueueUrls")
  end.

(** Lines 178-212. *)
Definition listQueues : T (Result num) :=
  t_try
    (t_bind (execCommand ps_running) (fun containerStatus =>
       if String.eqb (trim tool containerStatus) ""
       then t_ret (plain "error" "Local SQS is not running")
       else
         t_bind (execCommand
                   "aws sqs list-queues --endpoint-url http://localhost:9324")
           (fun stdout =>
              t_bind (t_lift (parse tool stdout)) (fun data =>
              t_bind (t_lift (read_QueueUrls data)) (fun urls =>
                let queues := if truthy urls then urls else JArr [] in
                t_ret
                  {| status := "success";
                     message := "Retrieved queue list successfully";
                     error := None; res_port := None; endpoint := None;
                     running := None; containerStatus := None;
                     queues := Some queues |})))))
    (fun error => t_ret (failed "Failed to list queues" error)).

Definition purge_command (queueName : string) : string :=
  "aws sqs purge-queue --queue-url http://localhost:9324/queue/" ++ queueName
  ++ " --endpoint-url http://localhost:9324".

(** Lines 214-243. *)
Definition purgeQueue (queueName : string) : T (Result num) :=
  t_try
    (t_bind (execCommand ps_running) (fun containerStatus =>
       if String.eqb (trim tool containerStatus) ""
       then t_ret (plain "error" "Local SQS is not running")
       else
         t_bind (execCommand (purge_command queueName)) (fun _ =>
           t_ret (plain "success"
                    ("Queue " ++ queueName ++ " purged successfully")))))
    (fun error => t_ret (failed ("Failed to purge queue " ++ queueName) error)).

(** Lines 66-88: the [switch] over the action. *)
Definition dispatch (params : Params num) : T (Result num) :=
  if String.eqb (action params) "start" then startLocalSQS (port params)
  else if String.eqb (action params) "stop" then stopLocalSQS
  else if String.eqb (action params) "status" then getSQSStatus
  else if String.eqb (action params) "list" then listQueues
  else if String.eqb (action params) "purge" then
    match queueName params with
    | Some q =>
        if String.eqb q ""
        then t_ret (plain "error" "queueName is required for purge action")
        else purgeQueue q
    | None => t_ret (plain "error" "queueName is required for purge action")
    end
  else t_ret (plain "error" ("Invalid action: " ++ action params)).

(** Lines 53-89. *)
Definition execute (params : Params num) : T (Result num) :=
  t_bind
    (t_try
       (t_bind (execCommand "docker --version") (fun _ => t_ret None))
       (fun error =>
          t_ret
            (Some (plain "error"
                     "Docker is not installed or not running. Please install Docker to use this tool."))))
    (fun early =>
       match early with
       | Some answer => t_ret answer
       | None => dispatch params
       end).

End Program.
End SQSLocalTool.

(** ** A concrete shell, to run the tool on *)

Module DemoTool.

Definition whitespace (c : Ascii.ascii) : bool :=
  existsb (Nat.eqb (Ascii.nat_of_ascii c)) [9; 10; 11; 12; 13; 32].

Fixpoint drop_leading (l : list Ascii.ascii) : list Ascii.ascii :=
  match l with
  | [] => []
  | c :: rest => if whitespace c then drop_leading rest else l
  end.

(** [trim] on ASCII text. *)
Definition trim (s : string) : string :=
  string_of_list_ascii
    (rev (drop_leading (rev (drop_leading (list_ascii_of_string s))))).

Definition newline : string := String (Ascii.ascii_of_nat 10) EmptyString.

(** A shell that answers each command from a table, by the text of the
    command; a command that is not in the table fails. *)
Definition tool (answers : list (string * (Error + string)))
    : SQSLocalTool.ToolHost Z :=
  {| SQSLocalTool.shell := unit;
     SQSLocalTool.exec := fun command w =>
       (match assoc command answers with
        | Some answer => answer
        | None => inl (mkError "Error" ("Command failed: " ++ command))
        end, w);
     SQSLocalTool.trim := trim;
     SQSLocalTool.parse := fun text =>
       if String.eqb text "{}" then inr (JObj []) else Demo.parse text |}.

Definition docker_ok : string * (Error + string) :=
  ("docker --version", inr ("Docker version 24.0.7" ++ newline)).

End DemoTool.

(** ** Vocabulary of the further properties *)

Definition is_some {A : Type} (o : option A) : bool :=
  match o with
  | Some _ => true
  | None => false
  end.

Section Outcomes.
Context {num : Type} `{Number num} (host : Host num).

(** The message is one the block of [Part002] returns a report for: its body
    parses, the payload passes validation and both display names convert. *)
Definition maps_002 (message : Message) : bool :=
  match JSON_parse host (Body message) with
  | inl _ => false
  | inr messageBody =>
      Part002.isValid messageBody
      && is_some (display_name (get messageBody "ownerName")
                    (get messageBody "ownerSurname"))
      && is_some (display_name (get messageBody "vetName")
                    (get messageBody "vetSurname"))
  end.

(** The report of the message can also be printed by [processReportData]:
    its [petId] converts to a string. *)
Definition completes_002 (message : Message) : bool :=
  maps_002 message
  && match JSON_parse host (Body message) with
     | inl _ => false
     | inr messageBody => is_some (ToString (get messageBody "petId"))
     end.

(** The message is one the block of [Processor] returns for, under a binding
    of [PetClinicReport.from]. *)
Definition maps_processor (binding : StaticFrom num) (message : Message) : bool :=
  match JSON_parse host (Body message) with
  | inl _ => false
  | inr messageBody =>
      truthy (Processor.fields_present messageBody)
      && match binding with
         | None => false
         | Some f =>
             match f JUndefined with
             | inl _ => false
             | inr _ => true
             end
         end
  end.

(** The answer of a receive holds no message: the call was rejected, the
    answer has no [Messages], or [Messages] is empty. *)
Definition nothing_received (params : ReceiveParams) (w : world host) : Prop :=
  match fst (sqs_receive host params w) with
  | inr (Some (_ :: _)) => False
  | _ => True
  end.
End Outcomes.

(** ** Tactics and general lemmas *)

Ltac run_monad :=
  cbv [bind try_catch ret throw lift console_log console_error emit
       setTimeout process_exit uncaught send_delete send_receive now_iso
       random_lt_tenth] in *.

Ltac run_tool :=
  cbv [SQSLocalTool.execute SQSLocalTool.dispatch SQSLocalTool.startLocalSQS
       SQSLocalTool.stopLocalSQS SQSLocalTool.getSQSStatus
       SQSLocalTool.listQueues SQSLocalTool.purgeQueue
       SQSLocalTool.t_bind SQSLocalTool.t_try SQSLocalTool.t_ret
       SQSLocalTool.t_lift SQSLocalTool.execCommand
       SQSLocalTool.action SQSLocalTool.queueName SQSLocalTool.port] in *.

Ltac tool_cases :=
  repeat match goal with
         | |- context [SQSLocalTool.exec ?t ?c ?w] =>
             destruct (SQSLocalTool.exec t c w) as [[?|?] ?]
         | |- context [SQSLocalTool.parse ?t ?s] =>
             destruct (SQSLocalTool.parse t s)
         | |- context [SQSLocalTool.read_QueueUrls ?v] =>
             destruct (SQSLocalTool.read_QueueUrls v)
         | |- context [match ?b with true => _ | false => _ end] => destruct b
         end.

Ltac unfold_monad :=
  unfold bind, try_catch, ret, throw, lift, console_log, console_error, emit,
    setTimeout, process_exit, uncaught, send_delete, send_receive, now_iso,
    random_lt_tenth in *.

Lemma deletes_app (t1 t2 : list Event) :
  deletes (t1 ++ t2) = (deletes t1 ++ deletes t2)%list.
Proof. unfold deletes. apply flat_map_app. Qed.

Lemma targets_app (t1 t2 : list Event) :
  targets (t1 ++ t2) = (targets t1 ++ targets t2)%list.
Proof. unfold targets. apply flat_map_app. Qed.

Section Validation.
Context {num : Type} `{Number num}.

Lemma truthy_false_iff (v : JsVal num) : truthy v = false <-> falsy v.
Proof.
  unfold falsy, absent_null_or_empty. split.
  - destruct v as [| |b|n|s|l|l]; simpl; intro E; try discriminate; auto.
    + subst b. auto.
    + right. right. exists n. split; [reflexivity|].
      now apply negb_false_iff in E.
    + apply negb_false_iff, String.eqb_eq in E. subst s. auto 6.
  - intros [[E|[E|E]]|[E|[n [E Hn]]]]; subst v; simpl; auto.
    now rewrite Hn.
Qed.

Lemma truthy_js_and (a b : JsVal num) :
  truthy (js_and a b) = truthy a && truthy b.
Proof. unfold js_and. destruct (truthy a) eqn:E; simpl; auto. Qed.

Lemma truthy_fold_js_and (l : list (JsVal num)) (a : JsVal num) :
  truthy (fold_left js_and l a) = truthy a && forallb truthy l.
Proof.
  revert a. induction l as [|b l IH]; intro a; simpl.
  - now rewrite andb_true_r.
  - rewrite IH, truthy_js_and. now rewrite andb_assoc.
Qed.

(** The two consumers that validate accept the same payloads. *)
Lemma fields_present_isValid (messageBody : JsVal num) :
  truthy (Processor.fields_present messageBody) = Part002.isValid messageBody.
Proof.
  unfold Processor.fields_present, Part002.isValid.
  rewrite truthy_fold_js_and.
  unfold requiredFields. cbn [map forallb].
  repeat rewrite truthy_js_and.
  destruct (truthy messageBody); simpl; [|reflexivity].
  reflexivity.
Qed.

Lemma isValid_true_iff (messageBody : JsVal num) :
  Part002.isValid messageBody = true <->
  forall field, In field requiredFields -> truthy (get messageBody field) = true.
Proof.
  unfold Part002.isValid. rewrite forallb_forall. split.
  - intros Hall field Hin. specialize (Hall field Hin).
    rewrite truthy_js_and in Hall. now apply andb_true_iff in Hall.
  - intros Hall field Hin. rewrite truthy_js_and, (Hall field Hin), andb_true_r.
    destruct messageBody; try reflexivity;
      specialize (Hall "petId" (or_introl eq_refl)); discriminate.
Qed.

Lemma isValid_false (messageBody : JsVal num) (field : string) :
  In field requiredFields ->
  truthy (get messageBody field) = false ->
  Part002.isValid messageBody = false.
Proof.
  intros Hin Hfalse. apply not_true_is_false. intro Hvalid.
  rewrite isValid_true_iff in Hvalid. rewrite (Hvalid field Hin) in Hfalse.
  discriminate.
Qed.

Variable host : Host num.

Lemma Part002_invalid_validate (message : Message) (messageBody : JsVal num)
    (w : world host) :
  JSON_parse host (Body message) = inr messageBody ->
  Part002.isValid messageBody = false ->
  Part002.validate_and_map host message w =
    (Throw invalid_format_002, w,
     [ConsoleLog "Processing report message:";
      ConsoleError "Invalid message format - missing required fields"]).
Proof.
  intros Hparse Hvalid. unfold Part002.validate_and_map. unfold_monad.
  rewrite Hparse. cbn -[Part002.isValid]. rewrite Hvalid. reflexivity.
Qed.

Lemma Part002_invalid_processMessage (message : Message)
    (messageBody : JsVal num) (w : world host) :
  JSON_parse host (Body message) = inr messageBody ->
  Part002.isValid messageBody = false ->
  Part002.processMessage host message w =
    (Throw (mkError "Error"
              "Message processing failed: Invalid message format - missing required fields"),
     w,
     [ConsoleLog "Processing report message:";
      ConsoleError "Invalid message format - missing required fields";
      ConsoleError "Error processing message:"]).
Proof.
  intros Hparse Hvalid. unfold Part002.processMessage.
  unfold bind at 1. unfold try_catch.
  rewrite (Part002_invalid_validate message _ w Hparse Hvalid).
  reflexivity.
Qed.

Lemma Processor_invalid_validate (binding : StaticFrom num) (message : Message)
    (messageBody : JsVal num) (w : world host) :
  JSON_parse host (Body message) = inr messageBody ->
  Part002.isValid messageBody = false ->
  Processor.validate_and_map host binding message w =
    (Throw invalid_format_processor, w,
     [ConsoleLog "Received message:";
      ConsoleLog "Invalid message format. Skipping processing."]).
Proof.
  intros Hparse Hvalid. unfold Processor.validate_and_map. unfold_monad.
  rewrite Hparse. cbn -[Processor.fields_present truthy].
  rewrite fields_present_isValid, Hvalid. reflexivity.
Qed.

Lemma Processor_invalid_processMessage (binding : StaticFrom num)
    (message : Message) (isRetry : bool) (messageBody : JsVal num)
    (w : world host) :
  JSON_parse host (Body message) = inr messageBody ->
  Part002.isValid messageBody = false ->
  Processor.processMessage host binding message isRetry w =
    (Throw (mkError "Error"
              "Error processing message:Error: Invalid message format. Skipping processing."),
     w,
     [ConsoleLog "Received message:";
      ConsoleLog "Invalid message format. Skipping processing.";
      ConsoleError "Error processing message:"]).
Proof.
  intros Hparse Hvalid. unfold Processor.processMessage.
  unfold bind at 1. unfold try_catch.
  rewrite (Processor_invalid_validate binding message _ w Hparse Hvalid).
  reflexivity.
Qed.
End Validation.

(** ** The mapping of [Part002] *)

Section Mapping.
Context {num : Type} `{Number num} (host : Host num).

Lemma template_name_run (a b : JsVal num) (w : world host) :
  Part002.template_name host a b w =
    match display_name a b with
    | Some s => (Ret s, w, [])
    | None => (Throw TypeError_primitive, w, [])
    end.
Proof.
  unfold Part002.template_name, display_name.
  destruct (ToString a); [destruct (ToString b)|]; reflexivity.
Qed.

Lemma make_report_run (messageBody : JsVal num) (w : world host) :
  Part002.make_report host messageBody w =
    match display_name (get messageBody "ownerName") (get messageBody "ownerSurname"),
          display_name (get messageBody "vetName") (get messageBody "vetSurname") with
    | Some ownerName, Some vetName =>
        (Ret (expected_report host messageBody ownerName vetName
                (fst (Date_toISOString host w))),
         snd (Date_toISOString host w), [])
    | _, _ => (Throw TypeError_primitive, w, [])
    end.
Proof.
  unfold Part002.make_report. unfold bind at 1. rewrite template_name_run.
  destruct (display_name (get messageBody "ownerName") _) as [ownerName|];
    [|reflexivity].
  unfold bind at 1. rewrite template_name_run.
  destruct (display_name (get messageBody "vetName") _) as [vetName|];
    [|reflexivity].
  unfold_monad. destruct (Date_toISOString host w) as [now w1]. reflexivity.
Qed.

(** The parse-validate-map block on a payload that passes validation. *)
Lemma Part002_valid_validate (message : Message) (messageBody : JsVal num)
    (w : world host) :
  JSON_parse host (Body message) = inr messageBody ->
  Part002.isValid messageBody = true ->
  Part002.validate_and_map host message w =
    match display_name (get messageBody "ownerName") (get messageBody "ownerSurname"),
          display_name (get messageBody "vetName") (get messageBody "vetSurname") with
    | Some ownerName, Some vetName =>
        (Ret (expected_report host messageBody ownerName vetName
                (fst (Date_toISOString host w))),
         snd (Date_toISOString host w),
         [ConsoleLog "Processing report message:";
          ConsoleLog "Successfully processed report:"])
    | _, _ =>
        (Throw TypeError_primitive, w, [ConsoleLog "Processing report message:"])
    end.
Proof.
  intros Hparse Hvalid. unfold Part002.validate_and_map.
  unfold bind at 1. rewrite Hparse. cbn [lift ret].
  unfold bind at 1. cbn [console_log emit].
  rewrite Hvalid. unfold bind at 1. rewrite make_report_run.
  destruct (display_name (get messageBody "ownerName") _);
    [destruct (display_name (get messageBody "vetName") _)|]; reflexivity.
Qed.

(** A report comes out of the block only for a parsed, valid payload whose
    display names convert. *)
Lemma Part002_validate_returns (message : Message) (w w' : world host)
    (r : Part002.Report num) (t : list Event) :
  Part002.validate_and_map host message w = (Ret r, w', t) ->
  exists messageBody ownerName vetName,
    JSON_parse host (Body message) = inr messageBody
    /\ Part002.isValid messageBody = true
    /\ display_name (get messageBody "ownerName") (get messageBody "ownerSurname")
       = Some ownerName
    /\ display_name (get messageBody "vetName") (get messageBody "vetSurname")
       = Some vetName
    /\ r = expected_report host messageBody ownerName vetName
             (fst (Date_toISOString host w))
    /\ w' = snd (Date_toISOString host w)
    /\ t = [ConsoleLog "Processing report message:";
            ConsoleLog "Successfully processed report:"].
Proof.
  intro Hrun.
  destruct (JSON_parse host (Body message)) as [e|messageBody] eqn:Hparse.
  - unfold Part002.validate_and_map in Hrun. unfold bind at 1 in Hrun.
    rewrite Hparse in Hrun. discriminate.
  - destruct (Part002.isValid messageBody) eqn:Hvalid.
    + rewrite (Part002_valid_validate message messageBody w Hparse Hvalid) in Hrun.
      destruct (display_name (get messageBody "ownerName") _) as [ownerName|] eqn:Ho;
        [|discriminate].
      destruct (display_name (get messageBody "vetName") _) as [vetName|] eqn:Hv;
        [|discriminate].
      inversion Hrun; subst. exists messageBody, ownerName, vetName. auto 10.
    + rewrite (Part002_invalid_validate host message messageBody w Hparse Hvalid)
        in Hrun.
      discriminate.
Qed.

(** The block fails without touching the world. *)
Lemma Part002_validate_throws (message : Message) (w w' : world host)
    (e : Error) (t : list Event) :
  Part002.validate_and_map host message w = (Throw e, w', t) ->
  w' = w /\ deletes t = [].
Proof.
  intro Hrun.
  destruct (JSON_parse host (Body message)) as [e0|messageBody] eqn:Hparse.
  - unfold Part002.validate_and_map in Hrun. unfold bind at 1 in Hrun.
    rewrite Hparse in Hrun. cbn in Hrun. inversion Hrun; subst. auto.
  - destruct (Part002.isValid messageBody) eqn:Hvalid.
    + rewrite (Part002_valid_validate message messageBody w Hparse Hvalid) in Hrun.
      destruct (display_name (get messageBody "ownerName") _);
        [destruct (display_name (get messageBody "vetName") _)|];
        inversion Hrun; subst; auto.
    + rewrite (Part002_invalid_validate host message messageBody w Hparse Hvalid)
        in Hrun.
      inversion Hrun; subst; auto.
Qed.

(** The block never ends the process. *)
Lemma Part002_validate_no_exit (message : Message) (w w' : world host)
    (n : nat) (t : list Event) :
  Part002.validate_and_map host message w <> (Exit n, w', t).
Proof.
  intro Hrun.
  destruct (JSON_parse host (Body message)) as [e0|messageBody] eqn:Hparse.
  - unfold Part002.validate_and_map in Hrun. unfold bind at 1 in Hrun.
    rewrite Hparse in Hrun. discriminate.
  - destruct (Part002.isValid messageBody) eqn:Hvalid.
    + rewrite (Part002_valid_validate message messageBody w Hparse Hvalid) in Hrun.
      destruct (display_name (get messageBody "ownerName") _);
        [destruct (display_name (get messageBody "vetName") _)|];
        discriminate.
    + rewrite (Part002_invalid_validate host message messageBody w Hparse Hvalid)
        in Hrun.
      discriminate.
Qed.
End Mapping.

(** ** Validation (claims C3 and C9) *)

(** C3. A payload in which one of the thirteen required fields is absent,
    null or the empty string does not pass validation, in either validating
    consumer: the validity test is false, and the parse-validate-map block
    throws the consumer's invalid-format error having built no report (the
    world is untouched and the only events are the two console lines). *)
Theorem missing_field_is_rejected
    {num : Type} `{Number num} (host : Host num) (binding : StaticFrom num)
    (message : Message) (messageBody : JsVal num) (field : string)
    (w : world host) :
  JSON_parse host (Body message) = inr messageBody ->
  In field requiredFields ->
  absent_null_or_empty (get messageBody field) ->
  Part002.isValid messageBody = false
  /\ Part002.validate_and_map host message w =
       (Throw invalid_format_002, w,
        [ConsoleLog "Processing report message:";
         ConsoleError "Invalid message format - missing required fields"])
  /\ truthy (Processor.fields_present messageBody) = false
  /\ Processor.validate_and_map host binding message w =
       (Throw invalid_format_processor, w,
        [ConsoleLog "Received message:";
         ConsoleLog "Invalid message format. Skipping processing."]).
Proof.
  intros Hparse Hin Habsent.
  assert (Hvalid : Part002.isValid messageBody = false).
  { apply (isValid_false messageBody field Hin).
    apply truthy_false_iff. left. exact Habsent. }
  repeat split.
  - exact Hvalid.
  - now apply Part002_invalid_validate with (messageBody := messageBody).
  - now rewrite fields_present_isValid.
  - now apply Processor_invalid_validate with (messageBody := messageBody).
Qed.

Lemma missing_field_is_rejected_witness :
  let host := Demo.configured [] [] false in
  let message := Demo.msg "rh-2" (Demo.without_field "vetName" Demo.rex) in
  let messageBody := JObj (Demo.without_field "vetName" Demo.rex) in
  (JSON_parse host (Body message) = inr messageBody
   /\ In "vetName" requiredFields
   /\ absent_null_or_empty (get messageBody "vetName"))
  /\ (Part002.isValid messageBody = false
      /\ Part002.validate_and_map host message 0 =
           (Throw invalid_format_002, 0,
            [ConsoleLog "Processing report message:";
             ConsoleError "Invalid message format - missing required fields"])
      /\ truthy (Processor.fields_present messageBody) = false
      /\ Processor.validate_and_map host as_written message 0 =
           (Throw invalid_format_processor, 0,
            [ConsoleLog "Received message:";
             ConsoleLog "Invalid message format. Skipping processing."])).
Proof.
  intros host message messageBody.
  assert (Hparse : JSON_parse host (Body message) = inr messageBody)
    by (vm_compute; reflexivity).
  assert (Hin : In "vetName" requiredFields) by (simpl; tauto).
  assert (Habsent : absent_null_or_empty (get messageBody "vetName"))
    by (left; vm_compute; reflexivity).
  split; [auto|].
  exact (missing_field_is_rejected host as_written message messageBody
           "vetName" 0 Hparse Hin Habsent).
Defined.

(** C9. The validity test is a truthiness test: a payload in which a
    required field is present but holds a falsy value (null, the empty
    string, false or a zero number) is rejected, and the consumer behaves
    exactly as it does for a payload ([missing]) that lacks the field: same
    result, same events, same world, for the parse-validate-map block and
    for all of [processMessage]. *)
Theorem falsy_field_is_rejected_like_missing
    {num : Type} `{Number num} (host : Host num) (binding : StaticFrom num)
    (message missing : Message) (messageBody missingBody : JsVal num)
    (field : string) (isRetry : bool) (w : world host) :
  JSON_parse host (Body message) = inr messageBody ->
  In field requiredFields ->
  falsy (get messageBody field) ->
  JSON_parse host (Body missing) = inr missingBody ->
  get missingBody field = JUndefined ->
  Part002.isValid messageBody = false
  /\ truthy (Processor.fields_present messageBody) = false
  /\ Part002.validate_and_map host message w =
       Part002.validate_and_map host missing w
  /\ Part002.processMessage host message w =
       Part002.processMessage host missing w
  /\ Processor.validate_and_map host binding message w =
       Processor.validate_and_map host binding missing w
  /\ Processor.processMessage host binding message isRetry w =
       Processor.processMessage host binding missing isRetry w.
Proof.
  intros Hparse Hin Hfalsy Hparse' Hmissing.
  assert (Hvalid : Part002.isValid messageBody = false).
  { apply (isValid_false messageBody field Hin).
    now apply truthy_false_iff. }
  assert (Hvalid' : Part002.isValid missingBody = false).
  { apply (isValid_false missingBody field Hin). now rewrite Hmissing. }
  repeat split.
  - exact Hvalid.
  - now rewrite fields_present_isValid.
  - rewrite (Part002_invalid_validate host message messageBody w Hparse Hvalid).
    now rewrite (Part002_invalid_validate host missing missingBody w Hparse' Hvalid').
  - rewrite (Part002_invalid_processMessage host message messageBody w Hparse Hvalid).
    now rewrite (Part002_invalid_processMessage host missing missingBody w Hparse' Hvalid').
  - rewrite (Processor_invalid_validate host binding message messageBody w Hparse Hvalid).
    now rewrite (Processor_invalid_validate host binding missing missingBody w Hparse' Hvalid').
  - rewrite (Processor_invalid_processMessage host binding message isRetry messageBody w
               Hparse Hvalid).
    now rewrite (Processor_invalid_processMessage host binding missing isRetry missingBody w
                   Hparse' Hvalid').
Qed.

Lemma falsy_field_is_rejected_like_missing_witness :
  let host := Demo.configured [] [] false in
  let zero := Demo.with_field "ownerId" (JNum 0%Z) Demo.rex in
  let gone := Demo.without_field "ownerId" Demo.rex in
  (JSON_parse host (Body (Demo.msg "rh-1" zero)) = inr (JObj zero)
   /\ In "ownerId" requiredFields
   /\ falsy (get (JObj zero) "ownerId")
   /\ JSON_parse host (Body (Demo.msg "rh-2" gone)) = inr (JObj gone)
   /\ get (JObj gone) "ownerId" = JUndefined)
  /\ Part002.processMessage host (Demo.msg "rh-1" zero) 0 =
       Part002.processMessage host (Demo.msg "rh-2" gone) 0.
Proof.
  intros host zero gone.
  assert (Hparse : JSON_parse host (Body (Demo.msg "rh-1" zero)) = inr (JObj zero))
    by (vm_compute; reflexivity).
  assert (Hin : In "ownerId" requiredFields) by (simpl; tauto).
  assert (Hfalsy : falsy (get (JObj zero) "ownerId")).
  { right. right. exists 0%Z. split; vm_compute; reflexivity. }
  assert (Hparse' : JSON_parse host (Body (Demo.msg "rh-2" gone)) = inr (JObj gone))
    by (vm_compute; reflexivity).
  assert (Hgone : get (JObj gone) "ownerId" = JUndefined)
    by (vm_compute; reflexivity).
  split; [auto 6|].
  exact (proj1 (proj2 (proj2 (proj2
           (falsy_field_is_rejected_like_missing host as_written
              (Demo.msg "rh-1" zero) (Demo.msg "rh-2" gone) (JObj zero) (JObj gone)
              "ownerId" false 0 Hparse Hin Hfalsy Hparse' Hgone))))).
Defined.

(** ** The report (claims C8 and C5) *)

(** C8. Whenever the parse-validate-map block of [Part002] produces a
    report, the message body parsed to a payload that passed validation and
    the report has the shape of the specification: [id] is the payload's
    [petId] as it is; the owner's name is the payload's [ownerName] and
    [ownerSurname] (as strings) with exactly one space between them, and
    likewise the vet's; the other fields are copied; [processedAt] is the
    clock's reading and [environment] is [NODE_ENV] or "production". *)
Theorem report_has_the_specified_shape
    {num : Type} `{Number num} (host : Host num) (message : Message)
    (w w' : world host) (r : Part002.Report num) (t : list Event) :
  Part002.validate_and_map host message w = (Ret r, w', t) ->
  exists messageBody ownerName ownerSurname vetName vetSurname,
    JSON_parse host (Body message) = inr messageBody
    /\ Part002.isValid messageBody = true
    /\ ToString (get messageBody "ownerName") = Some ownerName
    /\ ToString (get messageBody "ownerSurname") = Some ownerSurname
    /\ ToString (get messageBody "vetName") = Some vetName
    /\ ToString (get messageBody "vetSurname") = Some vetSurname
    /\ r = {| Part002.id := get messageBody "petId";
              Part002.petInfo :=
                {| Part002.pet_name := get messageBody "petName";
                   Part002.pet_type := get messageBody "petType" |};
              Part002.ownerInfo :=
                {| Part002.owner_id := get messageBody "ownerId";
                   Part002.owner_name := ownerName ++ " " ++ ownerSurname |};
              Part002.vetInfo :=
                {| Part002.vet_id := get messageBody "vetId";
                   Part002.vet_name := vetName ++ " " ++ vetSurname |};
              Part002.appointment :=
                {| Part002.appt_date := get messageBody "appointmentDate";
                   Part002.appt_time := get messageBody "appointmentTime";
                   Part002.appt_type := get messageBody "appointmentType";
                   Part002.appt_description :=
                     get messageBody "appointmentDescription" |};
              Part002.processedAt := fst (Date_toISOString host w);
              Part002.environment := or_default (env host "NODE_ENV") "production" |}.
Proof.
  intro Hrun.
  destruct (Part002_validate_returns host message w _ _ _ Hrun)
    as (messageBody & on & vn & Hparse & Hvalid & Ho & Hv & Hr & _ & _).
  unfold display_name in Ho, Hv.
  destruct (ToString (get messageBody "ownerName")) as [a|] eqn:Ha; [|discriminate].
  destruct (ToString (get messageBody "ownerSurname")) as [b|] eqn:Hb; [|discriminate].
  destruct (ToString (get messageBody "vetName")) as [c|] eqn:Hc; [|discriminate].
  destruct (ToString (get messageBody "vetSurname")) as [d|] eqn:Hd; [|discriminate].
  inversion Ho; inversion Hv; subst on vn.
  exists messageBody, a, b, c, d. repeat split; auto.
Qed.

Lemma report_has_the_specified_shape_witness :
  let host := Demo.configured [] [] false in
  let r := expected_report host (JObj Demo.rex) "Ana Silva" "Joe Doe"
             "2024-05-01T10:30:00.000Z" in
  Part002.validate_and_map host (Demo.msg "rh-1" Demo.rex) 0 =
    (Ret r, 1,
     [ConsoleLog "Processing report message:";
      ConsoleLog "Successfully processed report:"])
  /\ exists messageBody ownerName ownerSurname vetName vetSurname,
       JSON_parse host (Body (Demo.msg "rh-1" Demo.rex)) = inr messageBody
       /\ Part002.isValid messageBody = true
       /\ ToString (get messageBody "ownerName") = Some ownerName
       /\ ToString (get messageBody "ownerSurname") = Some ownerSurname
       /\ ToString (get messageBody "vetName") = Some vetName
       /\ ToString (get messageBody "vetSurname") = Some vetSurname
       /\ Part002.owner_name (Part002.ownerInfo r) = ownerName ++ " " ++ ownerSurname
       /\ Part002.vet_name (Part002.vetInfo r) = vetName ++ " " ++ vetSurname
       /\ Part002.id r = get messageBody "petId".
Proof.
  intros host r.
  assert (Hrun : Part002.validate_and_map host (Demo.msg "rh-1" Demo.rex) 0 =
                   (Ret r, 1,
                    [ConsoleLog "Processing report message:";
                     ConsoleLog "Successfully processed report:"]))
    by (vm_compute; reflexivity).
  split; [exact Hrun|].
  destruct (report_has_the_specified_shape host (Demo.msg "rh-1" Demo.rex) 0 _ _ _ Hrun)
    as (messageBody & a & b & c & d & Hparse & Hvalid & Ha & Hb & Hc & Hd & Hr).
  exists messageBody, a, b, c, d.
  repeat split; auto; rewrite Hr; reflexivity.
Defined.

(** A payload whose required fields are all non-empty strings always maps:
    the block returns a report. *)
Lemma Part002_strings_always_map
    {num : Type} `{Number num} (host : Host num) (message : Message)
    (messageBody : JsVal num) (w : world host) :
  JSON_parse host (Body message) = inr messageBody ->
  (forall field, In field requiredFields ->
     exists s, get messageBody field = JStr s /\ s <> "") ->
  exists r, Part002.validate_and_map host message w =
              (Ret r, snd (Date_toISOString host w),
               [ConsoleLog "Processing report message:";
                ConsoleLog "Successfully processed report:"]).
Proof.
  intros Hparse Hstrings.
  assert (Hvalid : Part002.isValid messageBody = true).
  { apply isValid_true_iff. intros field Hin.
    destruct (Hstrings field Hin) as (s & Hs & Hne). rewrite Hs. simpl.
    apply negb_true_iff. now apply String.eqb_neq. }
  rewrite (Part002_valid_validate host message messageBody w Hparse Hvalid).
  unfold display_name.
  destruct (Hstrings "ownerName") as (a & Ha & _); [simpl; tauto|].
  destruct (Hstrings "ownerSurname") as (b & Hb & _); [simpl; tauto|].
  destruct (Hstrings "vetName") as (c & Hc & _); [simpl; tauto|].
  destruct (Hstrings "vetSurname") as (d & Hd & _); [simpl; tauto|].
  rewrite Ha, Hb, Hc, Hd. cbn [ToString]. eexists. reflexivity.
Qed.

(** C5. Processing a message a second time, in whatever state the world is
    then: when the first attempt produced a report, the second attempt's
    parse-validate-map block does not fail, it logs the same lines and
    produces a report that differs from the first at most in [processedAt];
    the [environment] of the two reports is the same.  And when the first
    call of [processMessage] returned, the second returns as well provided
    the queue accepts its delete request. *)
Theorem second_attempt_gives_the_same_report
    {num : Type} `{Number num} (host : Host num) (message : Message)
    (w1 w2 : world host) :
  (forall r1 w1' t1,
     Part002.validate_and_map host message w1 = (Ret r1, w1', t1) ->
     exists r2 w2',
       Part002.validate_and_map host message w2 = (Ret r2, w2', t1)
       /\ same_except_processedAt r1 r2
       /\ Part002.environment r2 = Part002.environment r1)
  /\ (res_of (Part002.processMessage host message w1) = Ret tt ->
      fst (sqs_delete host
             {| dp_QueueUrl := Some (Part002.queueUrl host);
                dp_ReceiptHandle := ReceiptHandle message |}
             (snd (Date_toISOString host w2))) = None ->
      res_of (Part002.processMessage host message w2) = Ret tt).
Proof.
  split.
  - intros r1 w1' t1 Hrun.
    destruct (Part002_validate_returns host message w1 _ _ _ Hrun)
      as (messageBody & on & vn & Hparse & Hvalid & Ho & Hv & Hr & _ & Ht).
    rewrite (Part002_valid_validate host message messageBody w2 Hparse Hvalid).
    rewrite Ho, Hv. eexists. eexists. subst t1.
    split; [reflexivity|]. subst r1. unfold same_except_processedAt. cbn. auto 10.
  - intros Hfirst Haccept.
    destruct (Part002.validate_and_map host message w1) as [[r w1'] t1] eqn:Hrun.
    destruct r as [r1|e|n].
    + destruct (Part002_validate_returns host message w1 _ _ _ Hrun)
        as (messageBody & on & vn & Hparse & Hvalid & Ho & Hv & Hr & _ & Ht).
      unfold Part002.processMessage, res_of in *.
      unfold try_catch in *. unfold bind at 1 in Hfirst. unfold bind at 1.
      rewrite Hrun in Hfirst.
      rewrite (Part002_valid_validate host message messageBody w2 Hparse Hvalid).
      rewrite Ho, Hv.
      unfold bind at 1 in Hfirst. unfold bind at 1.
      unfold Part002.processReportData in *.
      subst r1. cbn [Part002.id expected_report Part002.environment] in *.
      destruct (ToString (get messageBody "petId")) as [s|].
      * cbn [console_log emit].
        unfold Part002.deleteMessage. unfold_monad.
        destruct (sqs_delete host _ (snd (Date_toISOString host w2))) as [[e|] w3].
        -- discriminate.
        -- reflexivity.
      * cbn in Hfirst. discriminate.
    + unfold Part002.processMessage, res_of in Hfirst.
      unfold try_catch in Hfirst. unfold bind at 1 in Hfirst.
      rewrite Hrun in Hfirst. cbn in Hfirst. discriminate.
    + exfalso. exact (Part002_validate_no_exit host message w1 _ _ _ Hrun).
Qed.

Lemma second_attempt_gives_the_same_report_witness :
  let host := Demo.configured [] [] false in
  let message := Demo.msg "rh-1" Demo.rex in
  let t := [ConsoleLog "Processing report message:";
            ConsoleLog "Successfully processed report:"] in
  let r1 := expected_report host (JObj Demo.rex) "Ana Silva" "Joe Doe"
              "2024-05-01T10:30:00.000Z" in
  (Part002.validate_and_map host message 0 = (Ret r1, 1, t)
   /\ res_of (Part002.processMessage host message 0) = Ret tt
   /\ fst (sqs_delete host
             {| dp_QueueUrl := Some (Part002.queueUrl host);
                dp_ReceiptHandle := ReceiptHandle message |}
             (snd (Date_toISOString host 5))) = None)
  /\ (exists r2 w2',
        Part002.validate_and_map host message 5 = (Ret r2, w2', t)
        /\ same_except_processedAt r1 r2
        /\ Part002.environment r2 = Part002.environment r1)
  /\ res_of (Part002.processMessage host message 5) = Ret tt.
Proof.
  intros host message t r1.
  assert (Hrun : Part002.validate_and_map host message 0 = (Ret r1, 1, t))
    by (vm_compute; reflexivity).
  assert (Hfirst : res_of (Part002.processMessage host message 0) = Ret tt)
    by (vm_compute; reflexivity).
  assert (Haccept : fst (sqs_delete host
             {| dp_QueueUrl := Some (Part002.queueUrl host);
                dp_ReceiptHandle := ReceiptHandle message |}
             (snd (Date_toISOString host 5))) = None)
    by (vm_compute; reflexivity).
  split; [auto|].
  split.
  - exact (proj1 (second_attempt_gives_the_same_report host message 0 5) r1 1 t Hrun).
  - exact (proj2 (second_attempt_gives_the_same_report host message 0 5) Hfirst Haccept).
Defined.

(** ** Loops and concurrent calls *)

Section Combinators.
Context {num : Type} (host : Host num).

Lemma for_of_app {A : Type} (l1 l2 : list A) (body : A -> M host unit)
    (w : world host) :
  for_of (l1 ++ l2) body w =
    match for_of l1 body w with
    | (Ret _, w1, t1) =>
        let '(r, w2, t2) := for_of l2 body w1 in (r, w2, (t1 ++ t2)%list)
    | other => other
    end.
Proof.
  revert w. induction l1 as [|x l1 IH]; intro w.
  - cbn. destruct (for_of l2 body w) as [[r w2] t2]. reflexivity.
  - cbn [app for_of]. unfold bind.
    destruct (body x w) as [[[[]|e|n] wx] tx]; try reflexivity.
    rewrite IH.
    destruct (for_of l1 body wx) as [[[[]|e|n] w1] t1]; try reflexivity.
    destruct (for_of l2 body w1) as [[r w2] t2].
    now rewrite app_assoc.
Qed.

Lemma start_all_cons {A : Type} (x : A) (rest : list A)
    (task : A -> M host unit) (w : world host) :
  never_exits task ->
  start_all (x :: rest) task w =
    let '(rs, w2) := start_all rest task (world_of (task x w)) in
    ((res_of (task x w), events_of (task x w)) :: rs, w2).
Proof.
  intro Hne. cbn [start_all]. specialize (Hne x w).
  unfold res_of, world_of, events_of in *.
  destruct (task x w) as [[[[]|e|n] w1] t]; cbn in *; try reflexivity.
  exfalso. exact (Hne n eq_refl).
Qed.

Lemma start_all_app {A : Type} (l1 l2 : list A) (task : A -> M host unit)
    (w : world host) :
  never_exits task ->
  start_all (l1 ++ l2) task w =
    let '(rs1, w1) := start_all l1 task w in
    let '(rs2, w2) := start_all l2 task w1 in
    ((rs1 ++ rs2)%list, w2).
Proof.
  intro Hne. revert w. induction l1 as [|x l1 IH]; intro w.
  - cbn. destruct (start_all l2 task w). reflexivity.
  - cbn [app]. rewrite !start_all_cons by exact Hne. rewrite IH.
    destruct (start_all l1 task (world_of (task x w))) as [rs1 w1].
    destruct (start_all l2 task w1) as [rs2 w2]. reflexivity.
Qed.

Lemma start_all_length {A : Type} (l : list A) (task : A -> M host unit)
    (w : world host) :
  never_exits task ->
  length (fst (start_all l task w)) = length l.
Proof.
  intro Hne. revert w. induction l as [|x l IH]; intro w; [reflexivity|].
  rewrite start_all_cons by exact Hne.
  specialize (IH (world_of (task x w))).
  destruct (start_all l task (world_of (task x w))). cbn in *. now rewrite IH.
Qed.

Lemma settle_all_no_exit (rs : list (Res unit)) :
  (forall n, ~ In (Exit n) rs) -> forall n, settle_all rs <> Exit n.
Proof.
  induction rs as [|r rs IH]; intros Hno n; [discriminate|].
  assert (Hrest : forall n, settle_all rs <> Exit n).
  { apply IH. intros m Hin. apply (Hno m). now right. }
  destruct r as [[]|e|m]; cbn.
  - apply Hrest.
  - destruct (settle_all rs) eqn:E; try discriminate.
    exfalso. eapply Hrest; eauto.
  - exfalso. apply (Hno m). now left.
Qed.

Lemma start_all_no_exit {A : Type} (l : list A) (task : A -> M host unit)
    (w : world host) :
  never_exits task ->
  forall n, ~ In (Exit n) (map fst (fst (start_all l task w))).
Proof.
  intro Hne. revert w. induction l as [|x l IH]; intros w n; [cbn; tauto|].
  rewrite start_all_cons by exact Hne.
  specialize (IH (world_of (task x w)) n).
  destruct (start_all l task (world_of (task x w))) as [rs w2]. cbn in *.
  intros [Hx|Hin]; [exact (Hne x w n Hx)|exact (IH Hin)].
Qed.

(** Awaiting concurrent calls that never end the process does not end the
    process, and records one list of events per call. *)
Lemma Promise_all_map_run {A : Type} (l : list A) (task : A -> M host unit)
    (w : world host) :
  never_exits task ->
  exists r tasks w1,
    Promise_all_map l task w = (r, w1, [Concurrent tasks])
    /\ length tasks = length l
    /\ (forall n, r <> Exit n).
Proof.
  intro Hne. unfold Promise_all_map.
  pose proof (start_all_length l task w Hne) as Hlen.
  pose proof (start_all_no_exit l task w Hne) as Hno.
  destruct (start_all l task w) as [rs w1]. cbn in *.
  exists (settle_all (map fst rs)), (map snd rs), w1.
  split; [reflexivity|]. split; [now rewrite length_map|].
  now apply settle_all_no_exit.
Qed.

(** A property of event lists that holds of the empty list and of a
    concatenation when it holds of the parts carries over from the pieces
    of a computation to the whole. *)
Section Events.
Variable Q : list Event -> Prop.
Hypothesis Q_nil : Q [].
Hypothesis Q_app : forall a b, Q a -> Q b -> Q (a ++ b)%list.

Lemma bind_events {A B : Type} (c : M host A) (k : A -> M host B) :
  (forall w, Q (events_of (c w))) ->
  (forall a w, Q (events_of (k a w))) ->
  forall w, Q (events_of (bind c k w)).
Proof.
  intros Hc Hk w. unfold bind. specialize (Hc w).
  destruct (c w) as [[[a|e|n] w1] t1]; unfold events_of in *; cbn [snd] in *;
    try exact Hc.
  specialize (Hk a w1). destruct (k a w1) as [[r w2] t2]. cbn [snd] in *.
  now apply Q_app.
Qed.

Lemma try_catch_events {A : Type} (c : M host A) (handler : Error -> M host A) :
  (forall w, Q (events_of (c w))) ->
  (forall e w, Q (events_of (handler e w))) ->
  forall w, Q (events_of (try_catch c handler w)).
Proof.
  intros Hc Hh w. unfold try_catch. specialize (Hc w).
  destruct (c w) as [[[a|e|n] w1] t1]; unfold events_of in *; cbn [snd] in *;
    try exact Hc.
  specialize (Hh e w1). destruct (handler e w1) as [[r w2] t2]. cbn [snd] in *.
  now apply Q_app.
Qed.

Lemma for_of_events {A : Type} (l : list A) (body : A -> M host unit) :
  (forall x w, Q (events_of (body x w))) ->
  forall w, Q (events_of (for_of l body w)).
Proof.
  intro Hbody. induction l as [|x l IH]; intro w; [exact Q_nil|].
  cbn [for_of]. apply bind_events; auto.
Qed.
End Events.

Lemma bind_no_exit {A B : Type} (c : M host A) (k : A -> M host B) :
  (forall w n, res_of (c w) <> Exit n) ->
  (forall a w n, res_of (k a w) <> Exit n) ->
  forall w n, res_of (bind c k w) <> Exit n.
Proof.
  intros Hc Hk w n. unfold bind. specialize (Hc w).
  destruct (c w) as [[[a|e|m] w1] t1]; unfold res_of in *; cbn [fst] in *.
  - specialize (Hk a w1 n). destruct (k a w1) as [[r w2] t2]. exact Hk.
  - discriminate.
  - exfalso. exact (Hc m eq_refl).
Qed.

Lemma for_of_no_exit {A : Type} (l : list A) (body : A -> M host unit) :
  (forall x w n, res_of (body x w) <> Exit n) ->
  forall w n, res_of (for_of l body w) <> Exit n.
Proof.
  intro Hbody. induction l as [|x l IH]; intros w n; [discriminate|].
  cbn [for_of]. apply bind_no_exit; auto.
Qed.

Lemma for_of_no_throw {A : Type} (l : list A) (body : A -> M host unit) :
  (forall x w e, res_of (body x w) <> Throw e) ->
  forall w e, res_of (for_of l body w) <> Throw e.
Proof.
  intro Hbody. induction l as [|x l IH]; intros w e; [discriminate|].
  cbn [for_of]. unfold bind. specialize (Hbody x w).
  destruct (body x w) as [[[[]|e'|m] w1] t1]; unfold res_of in *; cbn [fst] in *.
  - specialize (IH w1 e). destruct (for_of l body w1) as [[r w2] t2]. exact IH.
  - exfalso. exact (Hbody e' eq_refl).
  - discriminate.
Qed.

(** A try/catch whose handler returns, around code that never ends the
    process, returns. *)
Lemma try_catch_returns (c : M host unit) (handler : Error -> M host unit) :
  (forall w n, res_of (c w) <> Exit n) ->
  (forall e w, res_of (handler e w) = Ret tt) ->
  forall w, res_of (try_catch c handler w) = Ret tt.
Proof.
  intros Hc Hh w. unfold try_catch. specialize (Hc w).
  destruct (c w) as [[[[]|e|m] w1] t1]; unfold res_of in *; cbn [fst] in *.
  - reflexivity.
  - specialize (Hh e w1). destruct (handler e w1) as [[r w2] t2]. exact Hh.
  - exfalso. exact (Hc m eq_refl).
Qed.

(** A receive, whatever is done with its answer, is the first event. *)
Lemma receive_comes_first {A : Type} (params : ReceiveParams)
    (k : option (list Message) -> M host A) (handler : Error -> M host A)
    (w : world host) :
  exists t,
    events_of (try_catch (bind (send_receive host params) k) handler w) =
      SqsReceive params :: t.
Proof.
  unfold try_catch, bind, send_receive, events_of.
  destruct (sqs_receive host params w) as [[e|msgs] w1].
  - destruct (handler e w1) as [[r w2] t2]. eexists. reflexivity.
  - destruct (k msgs w1) as [[[a|e|n] w2] t2]; try (eexists; reflexivity).
    destruct (handler e w2) as [[r w3] t3]. eexists. reflexivity.
Qed.

(** The events of a computation that returns, followed by a timer. *)
Lemma then_setTimeout (c : M host unit) (callback : string) (delay : nat)
    (w : world host) :
  res_of (c w) = Ret tt ->
  bind c (fun _ => setTimeout host callback delay) w =
    (Ret tt, world_of (c w), (events_of (c w) ++ [SetTimeout callback delay])%list).
Proof.
  unfold bind, res_of, world_of, events_of.
  destruct (c w) as [[[[]|e|m] w1] t1]; cbn; intro E; try discriminate.
  reflexivity.
Qed.
End Combinators.

(** ** Runs of [Processor] *)

Section ProcessorRuns.
Context {num : Type} `{Number num} (host : Host num).
Variable binding : StaticFrom num.

Lemma Processor_validate_run (message : Message) (w : world host) :
  Processor.validate_and_map host binding message w =
    match JSON_parse host (Body message) with
    | inl e => (Throw e, w, [])
    | inr messageBody =>
        if Part002.isValid messageBody then
          match binding with
          | None =>
              (Throw (mkError "ReferenceError" "PetClinicReport is not defined"),
               w, [ConsoleLog "Received message:"])
          | Some f =>
              match f JUndefined with
              | inl e => (Throw e, w, [ConsoleLog "Received message:"])
              | inr _ =>
                  (Ret tt, w,
                   [ConsoleLog "Received message:"; ConsoleLog "Processed report:"])
              end
          end
        else
          (Throw invalid_format_processor, w,
           [ConsoleLog "Received message:";
            ConsoleLog "Invalid message format. Skipping processing."])
    end.
Proof.
  unfold Processor.validate_and_map. unfold bind at 1.
  destruct (JSON_parse host (Body message)) as [e|messageBody]; [reflexivity|].
  cbn [lift ret]. unfold bind at 1. cbn [console_log emit].
  rewrite fields_present_isValid.
  destruct (Part002.isValid messageBody); [|reflexivity].
  unfold call_PetClinicReport_from, message_body.
  destruct binding as [f|]; [|reflexivity].
  unfold bind. destruct (f JUndefined) as [e|[]]; reflexivity.
Qed.

(** The block sends nothing, leaves the world as it is and never ends the
    process. *)
Lemma Processor_validate_quiet (message : Message) (w : world host) :
  world_of (Processor.validate_and_map host binding message w) = w
  /\ deletes (events_of (Processor.validate_and_map host binding message w)) = []
  /\ targets (events_of (Processor.validate_and_map host binding message w)) = []
  /\ forall n, res_of (Processor.validate_and_map host binding message w) <> Exit n.
Proof.
  rewrite Processor_validate_run.
  destruct (JSON_parse host (Body message)) as [e|messageBody].
  - cbn. repeat split; discriminate.
  - destruct (Part002.isValid messageBody).
    + destruct binding as [f|]; [destruct (f JUndefined)|];
        cbn; repeat split; discriminate.
    + cbn. repeat split; discriminate.
Qed.

Lemma Processor_deleteMessage_run (receiptHandle : string)
    (targetQueue : option string) (w : world host) :
  let p := {| dp_QueueUrl := match targetQueue with
                             | None => Processor.queueUrl host
                             | Some q => Some q
                             end;
              dp_ReceiptHandle := receiptHandle |} in
  Processor.deleteMessage host receiptHandle targetQueue w =
    match sqs_delete host p w with
    | (None, w1) => (Ret tt, w1, [SqsDelete p])
    | (Some e, w1) =>
        (Throw e, w1, [SqsDelete p; ConsoleError "Error deleting message:"])
    end.
Proof.
  intro p. unfold Processor.deleteMessage. fold p. unfold_monad.
  destruct (sqs_delete host p w) as [[e|] w1]; reflexivity.
Qed.

Lemma Processor_processMessage_run (message : Message) (isRetry : bool)
    (w : world host) :
  let p := delete_of (target_of host isRetry) message in
  Processor.processMessage host binding message isRetry w =
    match Processor.validate_and_map host binding message w with
    | (Ret _, _, t1) =>
        match sqs_delete host p w with
        | (None, w1) =>
            (Ret tt, w1,
             (t1 ++ [SqsDelete p;
                     ConsoleLog "Message processed and deleted from queue"])%list)
        | (Some e, w1) =>
            (Throw (rethrown_by_processor e), w1,
             (t1 ++ [SqsDelete p; ConsoleError "Error deleting message:";
                     ConsoleError "Error processing message:"])%list)
        end
    | (Throw e, _, t1) =>
        (Throw (rethrown_by_processor e), w,
         (t1 ++ [ConsoleError "Error processing message:"])%list)
    | (Exit n, w1, t1) => (Exit n, w1, t1)
    end.
Proof.
  intro p. unfold Processor.processMessage. unfold try_catch. unfold bind at 1.
  destruct (Processor_validate_quiet message w) as (Hw & _ & _ & _).
  destruct (Processor.validate_and_map host binding message w)
    as [[[[]|e|n] w1] t1]; cbn in Hw; subst w1; try reflexivity.
  unfold bind at 1. rewrite Processor_deleteMessage_run.
  assert (Hp : {| dp_QueueUrl :=
                    match (if isRetry then Some (Processor.dlqUrl host)
                           else Processor.queueUrl host) with
                    | None => Processor.queueUrl host
                    | Some q => Some q
                    end;
                  dp_ReceiptHandle := ReceiptHandle message |} = p).
  { unfold p, delete_of, target_of.
    destruct isRetry; [reflexivity|].
    destruct (Processor.queueUrl host); reflexivity. }
  rewrite Hp.
  destruct (sqs_delete host p w) as [[e|] w1]; cbn; try reflexivity.
  now rewrite <- app_assoc.
Qed.

Lemma Processor_processMessage_never_exits (isRetry : bool) :
  never_exits
    (fun message => Processor.processMessage host binding message isRetry).
Proof.
  intros message w n. rewrite Processor_processMessage_run.
  destruct (Processor_validate_quiet message w) as (_ & _ & _ & Hne).
  destruct (Processor.validate_and_map host binding message w)
    as [[[[]|e|m] w1] t1]; cbn in *.
  - destruct (sqs_delete host _ w) as [[e|] w1']; discriminate.
  - discriminate.
  - exfalso. exact (Hne m eq_refl).
Qed.

(** The delete requests of one call of [processMessage]: one, for the
    message's own handle on the queue the call is for, when the block
    returned; none when it did not. *)
Lemma Processor_processMessage_deletes (message : Message) (isRetry : bool)
    (w : world host) :
  deletes (events_of (Processor.processMessage host binding message isRetry w)) =
    if returned (res_of (Processor.validate_and_map host binding message w))
    then [delete_of (target_of host isRetry) message]
    else [].
Proof.
  rewrite Processor_processMessage_run.
  destruct (Processor_validate_quiet message w) as (_ & Hd & _ & Hne).
  destruct (Processor.validate_and_map host binding message w)
    as [[[[]|e|m] w1] t1];
    unfold events_of, res_of in *; cbn [fst snd returned] in *.
  - destruct (sqs_delete host _ w) as [[e|] w1'];
      cbn [snd]; rewrite deletes_app, Hd; reflexivity.
  - rewrite deletes_app, Hd. reflexivity.
  - exact Hd.
Qed.

(** What the DLQ loop does with one message. *)
Lemma Processor_reprocess_run (message : Message) (w : world host) :
  let p := delete_of (Some (Processor.dlqUrl host)) message in
  Processor.reprocess host binding message w =
    match Processor.processMessage host binding message true w with
    | (Ret _, w1, t1) =>
        match sqs_delete host p w1 with
        | (None, w2) =>
            (Ret tt, w2,
             (t1 ++ [SqsDelete p;
                     ConsoleLog "Successfully reprocessed message from DLQ"])%list)
        | (Some e, w2) =>
            (Ret tt, w2,
             (t1 ++ [SqsDelete p; ConsoleError "Error deleting message:";
                     ConsoleError "Failed to reprocess DLQ message:"])%list)
        end
    | (Throw e, w1, t1) =>
        (Ret tt, w1, (t1 ++ [ConsoleError "Failed to reprocess DLQ message:"])%list)
    | (Exit n, w1, t1) => (Exit n, w1, t1)
    end.
Proof.
  intro p. unfold Processor.reprocess. unfold try_catch. unfold bind at 1.
  destruct (Processor.processMessage host binding message true w)
    as [[[[]|e|n] w1] t1]; try reflexivity.
  unfold bind at 1. rewrite Processor_deleteMessage_run. fold (delete_of (Some (Processor.dlqUrl host)) message). fold p.
  destruct (sqs_delete host p w1) as [[e|] w2]; cbn; try reflexivity.
  now rewrite <- app_assoc.
Qed.

(** Reprocessing a message never throws and never ends the process. *)
Lemma Processor_reprocess_returns (message : Message) (w : world host) :
  res_of (Processor.reprocess host binding message w) = Ret tt.
Proof.
  rewrite Processor_reprocess_run.
  pose proof (Processor_processMessage_never_exits true message w) as Hne.
  cbv beta in Hne.
  destruct (Processor.processMessage host binding message true w)
    as [[[[]|e|n] w1] t1]; cbn in *.
  - destruct (sqs_delete host _ w1) as [[e|] w2]; reflexivity.
  - reflexivity.
  - exfalso. exact (Hne n eq_refl).
Qed.
End ProcessorRuns.

(** ** Runs of [Part002] *)

Section Part002Runs.
Context {num : Type} `{Number num} (host : Host num).

Lemma Part002_validate_quiet (message : Message) (w : world host) :
  deletes (events_of (Part002.validate_and_map host message w)) = []
  /\ targets (events_of (Part002.validate_and_map host message w)) = [].
Proof.
  destruct (JSON_parse host (Body message)) as [e|messageBody] eqn:Hparse.
  - unfold Part002.validate_and_map. unfold bind at 1. rewrite Hparse.
    cbn. auto.
  - destruct (Part002.isValid messageBody) eqn:Hvalid.
    + rewrite (Part002_valid_validate host message messageBody w Hparse Hvalid).
      destruct (display_name (get messageBody "ownerName") _);
        [destruct (display_name (get messageBody "vetName") _)|]; cbn; auto.
    + rewrite (Part002_invalid_validate host message messageBody w Hparse Hvalid).
      cbn. auto.
Qed.

Lemma Part002_deleteMessage_run (receiptHandle : string) (w : world host) :
  let p := {| dp_QueueUrl := Some (Part002.queueUrl host);
              dp_ReceiptHandle := receiptHandle |} in
  Part002.deleteMessage host receiptHandle w =
    match sqs_delete host p w with
    | (None, w1) => (Ret tt, w1, [SqsDelete p])
    | (Some e, w1) =>
        (Throw e, w1, [SqsDelete p; ConsoleError "Error deleting message:"])
    end.
Proof.
  intro p. unfold Part002.deleteMessage. fold p. unfold_monad.
  destruct (sqs_delete host p w) as [[e|] w1]; reflexivity.
Qed.

Lemma Part002_processMessage_run (message : Message) (w : world host) :
  let p := delete_of (Some (Part002.queueUrl host)) message in
  Part002.processMessage host message w =
    match Part002.validate_and_map host message w with
    | (Ret r, w1, t1) =>
        match ToString (Part002.id r) with
        | None => (Exit 1, w1, (t1 ++ [Uncaught TypeError_primitive])%list)
        | Some s =>
            let line :=
              ConsoleLog ("Report " ++ s ++ " processed in "
                          ++ Part002.environment r ++ " environment") in
            match sqs_delete host p w1 with
            | (None, w2) =>
                (Ret tt, w2,
                 (t1 ++ [line; SqsDelete p;
                         ConsoleLog "Message processed and removed from queue"])%list)
            | (Some e, w2) =>
                (Throw (rethrown_by_002 e), w2,
                 (t1 ++ [line; SqsDelete p;
                         ConsoleError "Error deleting message:";
                         ConsoleError "Error processing message:"])%list)
            end
        end
    | (Throw e, w1, t1) =>
        (Throw (rethrown_by_002 e), w1,
         (t1 ++ [ConsoleError "Error processing message:"])%list)
    | (Exit n, w1, t1) => (Exit n, w1, t1)
    end.
Proof.
  intro p. unfold Part002.processMessage. unfold try_catch. unfold bind at 1.
  destruct (Part002.validate_and_map host message w)
    as [[[r|e|n] w1] t1]; try reflexivity.
  unfold bind at 1. unfold Part002.processReportData.
  destruct (ToString (Part002.id r)) as [s|]; [|reflexivity].
  cbn [console_log emit]. unfold bind at 1.
  rewrite Part002_deleteMessage_run.
  fold (delete_of (Some (Part002.queueUrl host)) message). fold p.
  destruct (sqs_delete host p w1) as [[e|] w2].
  - unfold_monad. cbn [app]. rewrite <- app_assoc. reflexivity.
  - unfold_monad. cbn [app]. reflexivity.
Qed.

(** The delete requests of one call of [processMessage]: exactly one, for
    the message's own handle on the queue the consumer polls, when the
    block returned a report and the report was processed; none when the
    block did not return. *)
Lemma Part002_processMessage_deletes (message : Message) (w : world host) :
  deletes (events_of (Part002.processMessage host message w)) =
    match Part002.validate_and_map host message w with
    | (Ret r, _, _) =>
        match ToString (Part002.id r) with
        | Some _ => [delete_of (Some (Part002.queueUrl host)) message]
        | None => []
        end
    | _ => []
    end.
Proof.
  rewrite Part002_processMessage_run.
  destruct (Part002_validate_quiet message w) as (Hd & _).
  destruct (Part002.validate_and_map host message w) as [[[r|e|n] w1] t1];
    unfold events_of in *; cbn [snd] in *.
  - destruct (ToString (Part002.id r)) as [s|].
    + destruct (sqs_delete host _ w1) as [[e|] w2];
        cbn [snd]; rewrite deletes_app, Hd; reflexivity.
    + cbn [snd]. rewrite deletes_app, Hd. reflexivity.
  - rewrite deletes_app, Hd. reflexivity.
  - exact Hd.
Qed.

Lemma Part002_attempt_run (message : Message) (w : world host) :
  Part002.attempt host message w =
    match Part002.processMessage host message w with
    | (Throw e, w1, t1) =>
        (Ret tt, w1,
         (t1 ++ [ConsoleError ("Failed to process message: " ++ error_message e)])%list)
    | other => other
    end.
Proof.
  unfold Part002.attempt, try_catch.
  destruct (Part002.processMessage host message w) as [[[[]|e|n] w1] t1];
    reflexivity.
Qed.

(** The loop body catches whatever [processMessage] throws. *)
Lemma Part002_attempt_never_throws (message : Message) (w : world host)
    (e : Error) :
  res_of (Part002.attempt host message w) <> Throw e.
Proof.
  rewrite Part002_attempt_run.
  destruct (Part002.processMessage host message w) as [[[[]|e'|n] w1] t1];
    discriminate.
Qed.

Lemma Part002_attempt_deletes (message : Message) (w : world host) :
  deletes (events_of (Part002.attempt host message w)) =
  deletes (events_of (Part002.processMessage host message w)).
Proof.
  rewrite Part002_attempt_run.
  destruct (Part002.processMessage host message w) as [[[[]|e'|n] w1] t1];
    try reflexivity.
  unfold events_of. cbn [snd]. rewrite deletes_app. cbn. now rewrite app_nil_r.
Qed.

(** A failed validation or mapping, seen from the loop: the body returns,
    the world is as before, and the events are the block's own followed by
    the two error lines. *)
Lemma Part002_attempt_after_failure (message : Message) (w w' : world host)
    (e : Error) (t : list Event) :
  Part002.validate_and_map host message w = (Throw e, w', t) ->
  Part002.attempt host message w =
    (Ret tt, w,
     (t ++ [ConsoleError "Error processing message:";
            ConsoleError ("Failed to process message: Message processing failed: "
                          ++ error_message e)])%list).
Proof.
  intro Hrun.
  destruct (Part002_validate_throws host message w _ _ _ Hrun) as (Hw & _).
  subst w'.
  rewrite Part002_attempt_run, Part002_processMessage_run, Hrun.
  cbn. now rewrite <- app_assoc.
Qed.
End Part002Runs.

(** ** Runs of [Part001] *)

Section Part001Runs.
Context {num : Type} `{Number num} (host : Host num).
Variable binding : StaticFrom num.

Lemma Part001_processMessage_run (message : Message) (w : world host) :
  let p := delete_of (Part001.queueUrl host) message in
  let failed := (Ret tt, w, [ConsoleError "Error processing message:"]) in
  Part001.processMessage host binding message w =
    match binding with
    | None => failed
    | Some f =>
        match f JUndefined with
        | inl _ => failed
        | inr _ =>
            match JSON_parse host (Body message) with
            | inl _ => failed
            | inr _ =>
                match sqs_delete host p w with
                | (None, w1) =>
                    (Ret tt, w1,
                     [ConsoleLog "Received message:"; SqsDelete p;
                      ConsoleLog "Message processed and deleted from queue"])
                | (Some _, w1) =>
                    (Ret tt, w1,
                     [ConsoleLog "Received message:"; SqsDelete p;
                      ConsoleError "Error deleting message:";
                      ConsoleError "Error processing message:"])
                end
            end
        end
    end.
Proof.
  intros p failed. unfold Part001.processMessage, call_PetClinicReport_from,
    message_body, Part001.deleteMessage.
  fold (delete_of (Part001.queueUrl host) message). fold p.
  destruct binding as [f|]; [|reflexivity].
  destruct (f JUndefined) as [e|[]]; [reflexivity|].
  destruct (JSON_parse host (Body message)) as [e|messageBody]; [reflexivity|].
  run_monad.
  destruct (sqs_delete host p w) as [[e|] w1]; reflexivity.
Qed.

(** [processMessage] logs what it catches and always returns. *)
Lemma Part001_processMessage_returns (message : Message) (w : world host) :
  res_of (Part001.processMessage host binding message w) = Ret tt.
Proof.
  rewrite Part001_processMessage_run.
  destruct binding as [f|]; [|reflexivity].
  destruct (f JUndefined) as [e|[]]; [reflexivity|].
  destruct (JSON_parse host (Body message)) as [e|messageBody]; [reflexivity|].
  destruct (sqs_delete host _ w) as [[e|] w1]; reflexivity.
Qed.

Lemma Part001_processMessage_never_exits :
  never_exits (Part001.processMessage host binding).
Proof.
  intros message w n. rewrite Part001_processMessage_returns. discriminate.
Qed.
End Part001Runs.

(** ** Deleting (claims C4, C1 and C2) *)

Section ProcessorDeletes.
Context {num : Type} `{Number num} (host : Host num).
Variable binding : StaticFrom num.

(** The delete requests of the DLQ loop for one message: none when the
    block did not return, one when the delete of [processMessage] was
    rejected, and two, both for the same handle on the DLQ, when it was
    accepted: [processMessage] has deleted the message, and the loop
    deletes it again. *)
Lemma Processor_reprocess_deletes (message : Message) (w : world host) :
  let p := delete_of (Some (Processor.dlqUrl host)) message in
  deletes (events_of (Processor.reprocess host binding message w)) =
    if returned (res_of (Processor.validate_and_map host binding message w))
    then match fst (sqs_delete host p w) with
         | None => [p; p]
         | Some _ => [p]
         end
    else [].
Proof.
  intro p. rewrite Processor_reprocess_run.
  pose proof (Processor_processMessage_deletes host binding message true w) as Hd.
  rewrite Processor_processMessage_run in *.
  destruct (Processor_validate_quiet host binding message w) as (_ & _ & _ & Hne).
  change (delete_of (target_of host true) message) with p in *.
  change (delete_of (Some (Processor.dlqUrl host)) message) with p.
  destruct (Processor.validate_and_map host binding message w)
    as [[[[]|e|n] w1] t1]; unfold res_of, events_of in *;
    cbn [fst snd returned] in *.
  - destruct (sqs_delete host p w) as [[e|] w2]; cbn [fst snd] in *.
    + rewrite deletes_app, Hd. reflexivity.
    + destruct (sqs_delete host p w2) as [[e|] w3]; cbn [snd];
        rewrite deletes_app, Hd; reflexivity.
  - rewrite deletes_app, Hd. reflexivity.
  - exfalso. exact (Hne n eq_refl).
Qed.
End ProcessorDeletes.

(** C4. When the parse-validate-map block of a message fails, no delete
    request is made for it: not by [processMessage], not by the loop that
    called it; in [Part002] (primary queue) and in [Processor] (primary queue
    and DLQ). *)
Theorem no_delete_after_failure
    {num : Type} `{Number num} (host : Host num) (binding : StaticFrom num)
    (message : Message) (isRetry : bool) (w : world host) :
  (returned (res_of (Part002.validate_and_map host message w)) = false ->
   deletes (events_of (Part002.processMessage host message w)) = []
   /\ deletes (events_of (Part002.attempt host message w)) = [])
  /\ (returned (res_of (Processor.validate_and_map host binding message w)) = false ->
      deletes (events_of (Processor.processMessage host binding message isRetry w)) = []
      /\ deletes (events_of (Processor.reprocess host binding message w)) = []).
Proof.
  split.
  - intro Hfail. rewrite Part002_attempt_deletes, Part002_processMessage_deletes.
    destruct (Part002.validate_and_map host message w) as [[[r|e|n] w1] t1];
      cbn in Hfail; try discriminate; auto.
  - intro Hfail.
    rewrite Processor_processMessage_deletes, Processor_reprocess_deletes, Hfail.
    auto.
Qed.

Lemma no_delete_after_failure_witness :
  let host := Demo.configured [] [] false in
  let message := Demo.msg "rh-2" (Demo.without_field "vetName" Demo.rex) in
  (returned (res_of (Part002.validate_and_map host message 0)) = false
   /\ returned (res_of (Processor.validate_and_map host Demo.returning message 0)) = false)
  /\ (deletes (events_of (Part002.processMessage host message 0)) = []
      /\ deletes (events_of (Part002.attempt host message 0)) = [])
  /\ (deletes (events_of (Processor.processMessage host Demo.returning message true 0)) = []
      /\ deletes (events_of (Processor.reprocess host Demo.returning message 0)) = []).
Proof.
  intros host message.
  assert (H2 : returned (res_of (Part002.validate_and_map host message 0)) = false)
    by (vm_compute; reflexivity).
  assert (HP : returned (res_of (Processor.validate_and_map host Demo.returning message 0))
               = false)
    by (vm_compute; reflexivity).
  split; [auto|]. split.
  - exact (proj1 (no_delete_after_failure host Demo.returning message true 0) H2).
  - exact (proj2 (no_delete_after_failure host Demo.returning message true 0) HP).
Defined.

(** In [Part002], a message whose block returned a report that was then
    processed gets exactly one delete request, for its own receipt handle,
    on the queue the consumer polls. *)
Lemma Part002_one_delete_after_success
    {num : Type} `{Number num} (host : Host num) (message : Message)
    (w w1 : world host) (r : Part002.Report num) (t : list Event) (s : string) :
  Part002.validate_and_map host message w = (Ret r, w1, t) ->
  ToString (Part002.id r) = Some s ->
  deletes (events_of (Part002.processMessage host message w)) =
    [{| dp_QueueUrl := Some (Part002.queueUrl host);
        dp_ReceiptHandle := ReceiptHandle message |}].
Proof.
  intros Hrun Hid. rewrite Part002_processMessage_deletes, Hrun, Hid. reflexivity.
Qed.

(** On the primary queue of [Processor], the one delete request of a message
    whose block returned is for the primary queue. *)
Lemma Processor_one_delete_on_primary
    {num : Type} `{Number num} (host : Host num) (binding : StaticFrom num)
    (message : Message) (w : world host) :
  res_of (Processor.validate_and_map host binding message w) = Ret tt ->
  deletes (events_of (Processor.processMessage host binding message false w)) =
    [{| dp_QueueUrl := Processor.queueUrl host;
        dp_ReceiptHandle := ReceiptHandle message |}].
Proof.
  intro Hrun. rewrite Processor_processMessage_deletes, Hrun. reflexivity.
Qed.

(** On the DLQ of [Processor], whatever [PetClinicReport.from] is bound to, a
    message never gets exactly one delete request when the queue accepts
    deletes.  It gets none when the block fails, and two when it returns. *)
Lemma Processor_dlq_never_one_delete
    {num : Type} `{Number num} (host : Host num) (binding : StaticFrom num)
    (message : Message) (w : world host) :
  (forall p w0, fst (sqs_delete host p w0) = None) ->
  length (deletes (events_of (Processor.reprocess host binding message w))) <> 1.
Proof.
  intro Haccept. rewrite Processor_reprocess_deletes, Haccept.
  destruct (returned _); discriminate.
Qed.

(** C1. In part_002 a message whose parse-validate-map block returned a
    report does not always get its delete request.  It gets exactly one, for
    its own receipt handle on the queue the consumer polls, when the id of
    the report converts to a string; when it does not, the timer callback of
    [processReportData] throws, the process ends with status 1, and no
    delete request is made for the message.  In PetClinicReportProcessor.js,
    whatever [PetClinicReport.from] is bound to, every delete request made
    for a message carries that message's receipt handle and is addressed to
    the primary queue on the primary path and to the DLQ on the DLQ path. *)
Theorem delete_after_success_needs_a_printable_id
    {num : Type} `{Number num} (host : Host num) (binding : StaticFrom num)
    (message : Message) (w : world host) :
  (forall (r : Part002.Report num) (w1 : world host) (t : list Event),
     Part002.validate_and_map host message w = (Ret r, w1, t) ->
     deletes (events_of (Part002.processMessage host message w)) =
       match ToString (Part002.id r) with
       | Some _ =>
           [{| dp_QueueUrl := Some (Part002.queueUrl host);
               dp_ReceiptHandle := ReceiptHandle message |}]
       | None => []
       end
     /\ (ToString (Part002.id r) = None ->
         res_of (Part002.processMessage host message w) = Exit 1))
  /\ Forall (eq {| dp_QueueUrl := Processor.queueUrl host;
                   dp_ReceiptHandle := ReceiptHandle message |})
       (deletes (events_of (Processor.processMessage host binding message false w)))
  /\ Forall (eq {| dp_QueueUrl := Some (Processor.dlqUrl host);
                   dp_ReceiptHandle := ReceiptHandle message |})
       (deletes (events_of (Processor.processMessage host binding message true w)))
  /\ Forall (eq {| dp_QueueUrl := Some (Processor.dlqUrl host);
                   dp_ReceiptHandle := ReceiptHandle message |})
       (deletes (events_of (Processor.reprocess host binding message w))).
Proof.
  split; [|split; [|split]].
  - intros r w1 t Hrun. split.
    + rewrite Part002_processMessage_deletes, Hrun. reflexivity.
    + intro Hid. rewrite Part002_processMessage_run, Hrun, Hid. reflexivity.
  - rewrite Processor_processMessage_deletes.
    destruct (returned _); repeat constructor.
  - rewrite Processor_processMessage_deletes.
    destruct (returned _); repeat constructor.
  - rewrite Processor_reprocess_deletes.
    destruct (returned _); [|constructor].
    destruct (fst _); repeat constructor.
Qed.

Lemma delete_after_success_needs_a_printable_id_witness :
  let odd := Demo.msg "rh-2"
               (Demo.with_field "petId" (JObj [("toString", JNum 1%Z)]) Demo.rex) in
  let host := Demo.configured [odd] [] false in
  let run := Part002.validate_and_map host odd 0 in
  (exists r, run = (Ret r, 1, events_of run) /\ ToString (Part002.id r) = None)
  /\ deletes (events_of (Part002.processMessage host odd 0)) = []
  /\ res_of (Part002.processMessage host odd 0) = Exit 1.
Proof.
  intros odd host run.
  destruct run as [[[r|e|n] w1] t] eqn:Hrun;
    try (exfalso; vm_compute in Hrun; discriminate).
  assert (Hw : w1 = 1) by (vm_compute in Hrun; congruence).
  subst w1.
  assert (Hid : ToString (Part002.id r) = None).
  { vm_compute in Hrun. injection Hrun as Hr _. subst r. reflexivity. }
  destruct (proj1 (delete_after_success_needs_a_printable_id host as_written odd 0)
              r 1 t Hrun) as (Hdel & Hexit).
  split; [exists r; split; [reflexivity|exact Hid]|].
  split.
  - rewrite Hdel, Hid. reflexivity.
  - exact (Hexit Hid).
Defined.

(** C2. In [Processor] as it is written, the mapping step fails for every
    payload that passed validation: [PetClinicReport.from] cannot be
    evaluated, the block throws the ReferenceError having logged the
    received message, and no report exists. *)
Theorem mapping_throws_for_every_valid_payload
    {num : Type} `{Number num} (host : Host num) (message : Message)
    (messageBody : JsVal num) (w : world host) :
  JSON_parse host (Body message) = inr messageBody ->
  truthy (Processor.fields_present messageBody) = true ->
  Processor.validate_and_map host as_written message w =
    (Throw (mkError "ReferenceError" "PetClinicReport is not defined"), w,
     [ConsoleLog "Received message:"]).
Proof.
  intros Hparse Hvalid. rewrite fields_present_isValid in Hvalid.
  rewrite Processor_validate_run, Hparse, Hvalid. reflexivity.
Qed.

Lemma mapping_throws_for_every_valid_payload_witness :
  let host := Demo.configured [] [] false in
  let message := Demo.msg "rh-1" Demo.rex in
  (JSON_parse host (Body message) = inr (JObj Demo.rex)
   /\ truthy (Processor.fields_present (JObj Demo.rex)) = true)
  /\ Processor.validate_and_map host as_written message 0 =
       (Throw (mkError "ReferenceError" "PetClinicReport is not defined"), 0,
        [ConsoleLog "Received message:"]).
Proof.
  intros host message.
  assert (Hparse : JSON_parse host (Body message) = inr (JObj Demo.rex))
    by (vm_compute; reflexivity).
  assert (Hvalid : truthy (Processor.fields_present (JObj Demo.rex)) = true)
    by (vm_compute; reflexivity).
  split; [auto|].
  exact (mapping_throws_for_every_valid_payload host message (JObj Demo.rex) 0
           Hparse Hvalid).
Defined.

(** The inline mapping of [Part002] can throw as well, for a payload that
    passes validation with an object under [ownerName] that has an own
    property named toString. *)
Lemma Part002_mapping_can_throw :
  let host := Demo.configured [] [] false in
  let payload := Demo.with_field "ownerName" (JObj [("toString", JNum 1%Z)]) Demo.rex in
  Part002.isValid (JObj payload) = true
  /\ Part002.validate_and_map host (Demo.msg "rh-1" payload) 0 =
       (Throw TypeError_primitive, 0, [ConsoleLog "Processing report message:"]).
Proof. vm_compute. auto. Qed.

(** ** Start-up without a queue URL (claims C7 and C10) *)

Lemma or_default_not_empty (a : option string) (b : string) :
  b <> "" -> String.eqb (or_default a b) "" = false.
Proof.
  intro Hb. unfold or_default. destruct a as [s|].
  - destruct (String.eqb s "") eqn:E; [now apply String.eqb_neq|exact E].
  - now apply String.eqb_neq.
Qed.

Lemma Part002_queueUrl_not_empty {num : Type} (host : Host num) :
  String.eqb (Part002.queueUrl host) "" = false.
Proof. unfold Part002.queueUrl. apply or_default_not_empty. discriminate. Qed.

(** C7. The three consumers started with [SQS_QUEUE_URL] absent.
    [Part001] logs the error and ends the process with status 1.
    [Processor] logs the same error and returns from [pollQueue]: [main]
    resolves, [process.exit] is not called, nothing was sent and no timer is
    set.  [Part002] never sees the variable absent: it polls its built-in
    queue URL. *)
Theorem start_without_queue_url
    {num : Type} `{Number num} (host : Host num) (binding : StaticFrom num)
    (w : world host) :
  env host "SQS_QUEUE_URL" = None ->
  Part001.start host binding w =
    (Exit 1, w,
     [ConsoleLog "Starting SQS consumer for queue: undefined";
      ConsoleError "SQS_QUEUE_URL environment variable is not set"])
  /\ Processor.start host binding w =
       (Ret tt, w,
        [ConsoleLog "Starting SQS consumer for queue: undefined";
         ConsoleLog ("DLQ configured at: " ++ Processor.dlqUrl host);
         ConsoleError "SQS_QUEUE_URL environment variable is not set"])
  /\ exists t,
       events_of (Part002.start host w) =
         ConsoleLog
           "Starting enhanced SQS consumer for queue: https://sqs.us-east-1.amazonaws.com/123456789012/pet-clinic-reports"
         :: ConsoleLog
              ("Running in " ++ or_default (env host "NODE_ENV") "production"
               ++ " environment")
         :: SqsReceive
              {| rp_QueueUrl :=
                   Some "https://sqs.us-east-1.amazonaws.com/123456789012/pet-clinic-reports";
                 MaxNumberOfMessages := 10;
                 WaitTimeSeconds := 20;
                 VisibilityTimeout := 300 |}
         :: t.
Proof.
  intro Hunset. split; [|split].
  - unfold Part001.start, Part001.main, Part001.pollQueue, Part001.queueUrl.
    rewrite Hunset. reflexivity.
  - unfold Processor.start, Processor.main, Processor.pollQueue, Processor.queueUrl.
    rewrite Hunset. reflexivity.
  - unfold Part002.start, Part002.main, Part002.pollQueue.
    rewrite Part002_queueUrl_not_empty.
    unfold Part002.queueUrl. rewrite Hunset. cbn [or_default].
    unfold events_of. run_monad.
    destruct (sqs_receive host _ w) as [[e|[[|m rest]|]] w1]; cbn [snd app];
      try (eexists; reflexivity).
    destruct (Part002.process_batch host (m :: rest) w1) as [[[[]|e|n] w2] t2];
      cbn [snd app]; eexists; reflexivity.
Qed.

Lemma start_without_queue_url_witness :
  env Demo.unconfigured "SQS_QUEUE_URL" = None
  /\ Processor.start Demo.unconfigured as_written 0 =
       (Ret tt, 0,
        [ConsoleLog "Starting SQS consumer for queue: undefined";
         ConsoleLog "DLQ configured at: undefined-dlq";
         ConsoleError "SQS_QUEUE_URL environment variable is not set"]).
Proof.
  assert (Hunset : env Demo.unconfigured "SQS_QUEUE_URL" = None) by reflexivity.
  split; [exact Hunset|].
  exact (proj1 (proj2 (start_without_queue_url Demo.unconfigured as_written 0 Hunset))).
Defined.

Section Targets.
Context {num : Type} `{Number num} (host : Host num).
Variable binding : StaticFrom num.

Lemma all_to_nil (q : option string) : all_to q [].
Proof. constructor. Qed.

Lemma all_to_app (q : option string) (a b : list Event) :
  all_to q a -> all_to q b -> all_to q (a ++ b).
Proof.
  unfold all_to. intros Ha Hb. rewrite targets_app. apply Forall_app. auto.
Qed.

Lemma Processor_processMessage_targets (message : Message) (isRetry : bool)
    (w : world host) :
  targets (events_of (Processor.processMessage host binding message isRetry w)) =
    if returned (res_of (Processor.validate_and_map host binding message w))
    then [target_of host isRetry]
    else [].
Proof.
  rewrite Processor_processMessage_run.
  destruct (Processor_validate_quiet host binding message w) as (_ & _ & Ht & Hne).
  destruct (Processor.validate_and_map host binding message w)
    as [[[[]|e|m] w1] t1];
    unfold events_of, res_of in *; cbn [fst snd returned] in *.
  - destruct (sqs_delete host _ w) as [[e|] w1'];
      cbn [snd]; rewrite targets_app, Ht; reflexivity.
  - rewrite targets_app, Ht. reflexivity.
  - exact Ht.
Qed.

Lemma Processor_reprocess_targets (message : Message) (w : world host) :
  all_to (Some (Processor.dlqUrl host))
    (events_of (Processor.reprocess host binding message w)).
Proof.
  unfold Processor.reprocess.
  apply try_catch_events; [apply all_to_app| |].
  - apply bind_events; [apply all_to_app| |].
    + intro w0. unfold all_to. rewrite Processor_processMessage_targets.
      destruct (returned _); repeat constructor.
    + intros _ w0. apply bind_events; [apply all_to_app| |].
      * intro w1. rewrite Processor_deleteMessage_run.
        destruct (sqs_delete host _ w1) as [[e|] w2]; repeat constructor.
      * intros _ w1. constructor.
  - intros e w0. constructor.
Qed.

(** Every request of a drain of the DLQ, the receive and the deletes, is
    addressed to the DLQ. *)
Lemma Processor_dlq_targets (w : world host) :
  all_to (Some (Processor.dlqUrl host))
    (events_of (Processor.processDeadLetterQueue host binding w)).
Proof.
  unfold Processor.processDeadLetterQueue.
  apply try_catch_events; [apply all_to_app| |].
  - apply bind_events; [apply all_to_app| |].
    + intro w0. unfold send_receive.
      destruct (sqs_receive host _ w0) as [[e|msgs] w1]; repeat constructor.
    + intros [[|m rest]|] w0; try constructor.
      apply bind_events; [apply all_to_app| |].
      * intro w1. constructor.
      * intros _ w1. apply for_of_events;
          [apply all_to_nil|apply all_to_app|apply Processor_reprocess_targets].
  - intros e w0. constructor.
Qed.

(** A drain of the DLQ always returns. *)
Lemma Processor_dlq_returns (w : world host) :
  res_of (Processor.processDeadLetterQueue host binding w) = Ret tt.
Proof.
  unfold Processor.processDeadLetterQueue.
  apply try_catch_returns; [|reflexivity].
  apply bind_no_exit.
  - intros w0 n. unfold send_receive.
    destruct (sqs_receive host _ w0) as [[e|msgs] w1]; discriminate.
  - intros [[|m rest]|] w0 n; try discriminate.
    apply bind_no_exit; [discriminate|].
    intros _ w1 n1. apply for_of_no_exit.
    intros x w2 n2. rewrite Processor_reprocess_returns. discriminate.
Qed.
End Targets.

(** C10. With neither [SQS_DLQ_URL] nor [SQS_QUEUE_URL] set, the DLQ URL is
    the string "undefined-dlq", a drain of the DLQ starts with a receive on
    that URL, and every request of the drain, receive or delete, is
    addressed to it. *)
Theorem dlq_url_is_undefined_dlq
    {num : Type} `{Number num} (host : Host num) (binding : StaticFrom num)
    (w : world host) :
  env host "SQS_DLQ_URL" = None ->
  env host "SQS_QUEUE_URL" = None ->
  Processor.dlqUrl host = "undefined-dlq"
  /\ (exists t,
        events_of (Processor.processDeadLetterQueue host binding w) =
          SqsReceive {| rp_QueueUrl := Some "undefined-dlq";
                        MaxNumberOfMessages := 10;
                        WaitTimeSeconds := 5;
                        VisibilityTimeout := 30 |} :: t)
  /\ Forall (fun q => q = Some "undefined-dlq")
       (targets (events_of (Processor.processDeadLetterQueue host binding w))).
Proof.
  intros Hdlq Hqueue.
  assert (Hurl : Processor.dlqUrl host = "undefined-dlq").
  { unfold Processor.dlqUrl. rewrite Hdlq, Hqueue. reflexivity. }
  split; [exact Hurl|]. split.
  - unfold Processor.processDeadLetterQueue. rewrite Hurl.
    apply receive_comes_first.
  - rewrite <- Hurl. apply Processor_dlq_targets.
Qed.

Lemma dlq_url_is_undefined_dlq_witness :
  let host := Demo.host (Demo.vars None None None) "undefined-dlq" []
                [Demo.msg "rh-9" Demo.rex] [] false in
  (env host "SQS_DLQ_URL" = None /\ env host "SQS_QUEUE_URL" = None)
  /\ Processor.dlqUrl host = "undefined-dlq"
  /\ targets (events_of (Processor.processDeadLetterQueue host Demo.returning 0))
     = [Some "undefined-dlq"; Some "undefined-dlq"; Some "undefined-dlq"]
  /\ Forall (fun q => q = Some "undefined-dlq")
       (targets (events_of (Processor.processDeadLetterQueue host Demo.returning 0))).
Proof.
  intro host.
  assert (Hdlq : env host "SQS_DLQ_URL" = None) by reflexivity.
  assert (Hqueue : env host "SQS_QUEUE_URL" = None) by reflexivity.
  split; [auto|].
  pose proof (dlq_url_is_undefined_dlq host Demo.returning 0 Hdlq Hqueue)
    as (Hurl & _ & Hall).
  split; [exact Hurl|]. split; [vm_compute; reflexivity|exact Hall].
Defined.

(** ** Failures stay with their message (claim C6) *)

Section ExitsBy.
Context {num : Type} (host : Host num).
Variable u : Event.

Lemma bind_exits_by {A B : Type} (c : M host A) (k : A -> M host B) :
  (forall w, exits_by u (c w)) ->
  (forall a w, exits_by u (k a w)) ->
  forall w, exits_by u (bind c k w).
Proof.
  intros Hc Hk w n. unfold bind. specialize (Hc w).
  destruct (c w) as [[[a|e|m] w1] t1]; unfold exits_by, res_of, events_of in *;
    cbn [fst snd] in *.
  - specialize (Hk a w1 n). destruct (k a w1) as [[r w2] t2]. cbn [fst snd] in *.
    intro E. apply in_or_app. right. auto.
  - discriminate.
  - intro E. exact (Hc m eq_refl).
Qed.

Lemma try_catch_exits_by {A : Type} (c : M host A) (handler : Error -> M host A) :
  (forall w, exits_by u (c w)) ->
  (forall e w, exits_by u (handler e w)) ->
  forall w, exits_by u (try_catch c handler w).
Proof.
  intros Hc Hh w n. unfold try_catch. specialize (Hc w).
  destruct (c w) as [[[a|e|m] w1] t1]; unfold exits_by, res_of, events_of in *;
    cbn [fst snd] in *.
  - discriminate.
  - specialize (Hh e w1 n). destruct (handler e w1) as [[r w2] t2].
    cbn [fst snd] in *. intro E. apply in_or_app. right. auto.
  - intro E. exact (Hc m eq_refl).
Qed.

Lemma for_of_exits_by {A : Type} (l : list A) (body : A -> M host unit) :
  (forall x w, exits_by u (body x w)) ->
  forall w, exits_by u (for_of l body w).
Proof.
  intro Hbody. induction l as [|x l IH]; intro w; [discriminate|].
  cbn [for_of]. apply bind_exits_by; auto.
Qed.

Lemma try_catch_no_throw (c : M host unit) (handler : Error -> M host unit) :
  (forall e w e', res_of (handler e w) <> Throw e') ->
  forall w e', res_of (try_catch c handler w) <> Throw e'.
Proof.
  intros Hh w e'. unfold try_catch.
  destruct (c w) as [[[[]|e|m] w1] t1]; unfold res_of in *; cbn [fst] in *;
    try discriminate.
  specialize (Hh e w1 e'). destruct (handler e w1) as [[r w2] t2]. exact Hh.
Qed.
End ExitsBy.

Section Part002Loop.
Context {num : Type} `{Number num} (host : Host num).

Lemma Part002_attempt_exits_by (message : Message) (w : world host) :
  exits_by (Uncaught TypeError_primitive) (Part002.attempt host message w).
Proof.
  intros n. rewrite Part002_attempt_run, Part002_processMessage_run.
  pose proof (Part002_validate_no_exit host message w) as Hne.
  destruct (Part002.validate_and_map host message w) as [[[r|e|m] w1] t1].
  - destruct (ToString (Part002.id r)) as [s|].
    + destruct (sqs_delete host _ w1) as [[e|] w2]; discriminate.
    + intros _. unfold events_of. cbn [snd]. apply in_or_app. right. now left.
  - discriminate.
  - exfalso. exact (Hne _ _ _ eq_refl).
Qed.

(** The loop over a batch in which [message] fails validation or mapping:
    the messages before it are processed, the failure is logged, and the
    messages after it are processed from the world the failing message
    found, which it left untouched.  The loop ends as the rest of the batch
    makes it end. *)
Lemma Part002_failure_is_local (before after : list Message) (message : Message)
    (w wb w' : world host) (e : Error) (tb t : list Event) :
  Part002.process_batch host before w = (Ret tt, wb, tb) ->
  Part002.validate_and_map host message wb = (Throw e, w', t) ->
  Part002.process_batch host (before ++ message :: after) w =
    let '(r, w2, t2) := Part002.process_batch host after wb in
    (r, w2,
     (tb ++ (t ++ [ConsoleError "Error processing message:";
                   ConsoleError
                     ("Failed to process message: Message processing failed: "
                      ++ error_message e)])
         ++ t2)%list).
Proof.
  intros Hbefore Hfail. unfold Part002.process_batch in *.
  rewrite for_of_app, Hbefore. cbn [for_of]. unfold bind.
  rewrite (Part002_attempt_after_failure host message wb w' e t Hfail).
  destruct (for_of after (Part002.attempt host) wb) as [[r w2] t2].
  reflexivity.
Qed.

(** A cycle of the poll loop never throws; when it returns, its last act
    was to set the timer of the next cycle; it ends the process only
    through the error thrown in the timer callback of
    [processReportData]. *)
Lemma Part002_pollQueue_goes_on (w : world host) :
  match Part002.pollQueue host w with
  | (Ret _, _, t) => exists t0, t = (t0 ++ [SetTimeout "pollQueue" 1000])%list
  | (Throw _, _, _) => False
  | (Exit _, _, t) => In (Uncaught TypeError_primitive) t
  end.
Proof.
  unfold Part002.pollQueue. rewrite Part002_queueUrl_not_empty.
  set (cycle := try_catch _ _).
  assert (Hthrow : forall e, res_of (cycle w) <> Throw e).
  { intro e. apply try_catch_no_throw. intros; discriminate. }
  assert (Hexit : exits_by (Uncaught TypeError_primitive) (cycle w)).
  { apply try_catch_exits_by; [|intros; discriminate].
    apply bind_exits_by.
    - intros w0 n. unfold send_receive.
      destruct (sqs_receive host _ w0) as [[e|msgs] w1]; discriminate.
    - intros [[|m rest]|] w0; try discriminate.
      apply bind_exits_by; [discriminate|].
      intros _ w1. apply for_of_exits_by. apply Part002_attempt_exits_by. }
  unfold bind. unfold exits_by, res_of, events_of in *.
  destruct (cycle w) as [[[[]|e|n] w1] t1]; cbn [fst snd] in *.
  - cbn. eexists. reflexivity.
  - exact (Hthrow e eq_refl).
  - exact (Hexit n eq_refl).
Qed.
End Part002Loop.

Section ConcurrentLoops.
Context {num : Type} `{Number num} (host : Host num).
Variable binding : StaticFrom num.

(** The calls [Promise.all] awaits in [Processor], for a batch in which
    [message] fails validation or mapping: the call for [message] rejects
    having sent nothing, and the calls for the messages after it are
    started in the world the messages before it left. *)
Lemma Processor_failure_is_local (before after : list Message) (message : Message)
    (w wb w' : world host) (e : Error) (t : list Event)
    (rs1 : list (Res unit * list Event)) :
  let task := fun m => Processor.processMessage host binding m false in
  start_all before task w = (rs1, wb) ->
  Processor.validate_and_map host binding message wb = (Throw e, w', t) ->
  start_all (before ++ message :: after) task w =
    let '(rs2, w2) := start_all after task wb in
    ((rs1 ++ (Throw (rethrown_by_processor e),
              (t ++ [ConsoleError "Error processing message:"])%list) :: rs2)%list,
     w2).
Proof.
  intros task Hbefore Hfail. subst task.
  pose proof (Processor_processMessage_never_exits host binding false) as Hne.
  rewrite (start_all_app host before (message :: after) _ w Hne), Hbefore.
  rewrite (start_all_cons host message after _ wb Hne).
  cbv beta. rewrite Processor_processMessage_run, Hfail.
  unfold world_of, res_of, events_of. cbn [fst snd].
  destruct (start_all after _ wb) as [rs2 w2]. reflexivity.
Qed.

Lemma concurrent_cycle_returns (params : ReceiveParams) (line : nat -> string)
    (idle : string) (task : Message -> M host unit) (w : world host) :
  never_exits task ->
  res_of
    (try_catch
       (data_Messages <- send_receive host params;;
        match data_Messages with
        | Some (m :: rest) =>
            console_log host (line (length (m :: rest)));;
            Promise_all_map (m :: rest) task
        | _ => console_log host idle
        end)
       (fun error => console_error host "Error receiving messages:") w) = Ret tt.
Proof.
  intro Hne. apply try_catch_returns; [|reflexivity].
  apply bind_no_exit.
  - intros w0 n. unfold send_receive.
    destruct (sqs_receive host params w0) as [[e|msgs] w1]; discriminate.
  - intros [[|m rest]|] w0 n; try discriminate.
    apply bind_no_exit; [discriminate|].
    intros _ w1 n1.
    destruct (Promise_all_map_run host (m :: rest) task w1 Hne)
      as (r & tasks & w2 & Hrun & _ & Hr).
    rewrite Hrun. apply Hr.
Qed.

(** With the queue URL set, a cycle of the poll loop of [Processor]
    returns, and its last act is to set the timer of the next cycle. *)
Lemma Processor_pollQueue_goes_on (w : world host) :
  not_set (Processor.queueUrl host) = false ->
  exists w2 t0,
    Processor.pollQueue host binding w =
      (Ret tt, w2, (t0 ++ [SetTimeout "pollQueue" 100])%list).
Proof.
  intro Hset. unfold Processor.pollQueue. rewrite Hset.
  pose proof (concurrent_cycle_returns
                {| rp_QueueUrl := Processor.queueUrl host;
                   MaxNumberOfMessages := 10;
                   WaitTimeSeconds := 20;
                   VisibilityTimeout := 30 |}
                (fun n => "Received " ++ decimal n ++ " messages")
                "No messages received"
                (fun message => Processor.processMessage host binding message false)
                w (Processor_processMessage_never_exits host binding false))
    as Hcycle.
  unfold bind at 1. unfold res_of in Hcycle.
  destruct (try_catch _ _ w) as [[r w1] t1]. cbn [fst] in Hcycle. subst r.
  unfold bind at 1. unfold bind at 1. unfold random_lt_tenth.
  destruct (Math_random_lt_tenth host w1) as [check w1'].
  destruct check.
  - pose proof (Processor_dlq_returns host binding w1') as Hdlq.
    unfold res_of in Hdlq.
    destruct (Processor.processDeadLetterQueue host binding w1') as [[r w2] t2].
    cbn [fst] in Hdlq. subst r. cbn.
    exists w2, (t1 ++ t2)%list. now rewrite <- app_assoc.
  - cbn. exists w1', t1. reflexivity.
Qed.

(** With the queue URL set, a cycle of the poll loop of [Part001] returns,
    and its last act is to set the timer of the next cycle. *)
Lemma Part001_pollQueue_goes_on (w : world host) :
  not_set (Part001.queueUrl host) = false ->
  exists w2 t0,
    Part001.pollQueue host binding w =
      (Ret tt, w2, (t0 ++ [SetTimeout "pollQueue" 100])%list).
Proof.
  intro Hset. unfold Part001.pollQueue. rewrite Hset.
  unfold bind at 1. cbn [ret].
  pose proof (concurrent_cycle_returns
                {| rp_QueueUrl := Part001.queueUrl host;
                   MaxNumberOfMessages := 10;
                   WaitTimeSeconds := 20;
                   VisibilityTimeout := 30 |}
                (fun n => "Received " ++ decimal n ++ " messages")
                "No messages received"
                (fun message => Part001.processMessage host binding message)
                w (Part001_processMessage_never_exits host binding))
    as Hcycle.
  unfold bind at 1. unfold res_of in Hcycle.
  destruct (try_catch _ _ w) as [[r w1] t1]. cbn [fst] in Hcycle. subst r.
  cbn. exists w1, t1. reflexivity.
Qed.
End ConcurrentLoops.

(** C6. A validation or mapping failure stays with its message, in the three
    consumers.
    - [Part002] (a loop with a try/catch per message): in a batch
      [before ++ message :: after] where [message] fails, the loop logs the
      failure and goes on with [after] from the very world [message] found;
      a cycle of the poll loop never throws, sets the timer of the next
      cycle whenever it returns, and ends the process only through the error
      thrown in the timer callback of [processReportData].
    - [Processor] ([Promise.all] over the calls): the call for [message]
      rejects having changed nothing, the calls for [after] are started all
      the same, and the cycle returns and sets the timer of the next cycle.
    - [Part001]: every call returns, the calls for [after] are started
      whatever the call for [message] did, and the cycle returns and sets
      the timer of the next cycle. *)
Theorem failure_stays_with_its_message
    {num : Type} `{Number num} (host : Host num) (binding : StaticFrom num)
    (before after : list Message) (message : Message) (w : world host) :
  (forall wb w' e tb t,
     Part002.process_batch host before w = (Ret tt, wb, tb) ->
     Part002.validate_and_map host message wb = (Throw e, w', t) ->
     Part002.process_batch host (before ++ message :: after) w =
       let '(r, w2, t2) := Part002.process_batch host after wb in
       (r, w2,
        (tb ++ (t ++ [ConsoleError "Error processing message:";
                      ConsoleError
                        ("Failed to process message: Message processing failed: "
                         ++ error_message e)])
            ++ t2)%list))
  /\ match Part002.pollQueue host w with
     | (Ret _, _, t) => exists t0, t = (t0 ++ [SetTimeout "pollQueue" 1000])%list
     | (Throw _, _, _) => False
     | (Exit _, _, t) => In (Uncaught TypeError_primitive) t
     end
  /\ (forall wb w' e t rs1,
        start_all before
          (fun m => Processor.processMessage host binding m false) w = (rs1, wb) ->
        Processor.validate_and_map host binding message wb = (Throw e, w', t) ->
        start_all (before ++ message :: after)
          (fun m => Processor.processMessage host binding m false) w =
          let '(rs2, w2) :=
            start_all after
              (fun m => Processor.processMessage host binding m false) wb in
          ((rs1 ++ (Throw (rethrown_by_processor e),
                    (t ++ [ConsoleError "Error processing message:"])%list)
                :: rs2)%list,
           w2))
  /\ (not_set (Processor.queueUrl host) = false ->
      exists w2 t0,
        Processor.pollQueue host binding w =
          (Ret tt, w2, (t0 ++ [SetTimeout "pollQueue" 100])%list))
  /\ res_of (Part001.processMessage host binding message w) = Ret tt
  /\ (forall wb rs1,
        start_all before (Part001.processMessage host binding) w = (rs1, wb) ->
        start_all (before ++ message :: after)
          (Part001.processMessage host binding) w =
          let '(rs2, w2) :=
            start_all after (Part001.processMessage host binding)
              (world_of (Part001.processMessage host binding message wb)) in
          ((rs1 ++ (Ret tt,
                    events_of (Part001.processMessage host binding message wb))
                :: rs2)%list,
           w2))
  /\ (not_set (Part001.queueUrl host) = false ->
      exists w2 t0,
        Part001.pollQueue host binding w =
          (Ret tt, w2, (t0 ++ [SetTimeout "pollQueue" 100])%list)).
Proof.
  split; [|split; [|split; [|split; [|split; [|split]]]]].
  - intros wb w' e tb t. apply Part002_failure_is_local.
  - apply Part002_pollQueue_goes_on.
  - intros wb w' e t rs1. apply Processor_failure_is_local.
  - apply Processor_pollQueue_goes_on.
  - apply Part001_processMessage_returns.
  - intros wb rs1 Hbefore.
    pose proof (Part001_processMessage_never_exits host binding) as Hne.
    rewrite (start_all_app host before (message :: after) _ w Hne), Hbefore.
    rewrite (start_all_cons host message after _ wb Hne).
    rewrite Part001_processMessage_returns.
    destruct (start_all after _ _) as [rs2 w2]. reflexivity.
  - apply Part001_pollQueue_goes_on.
Qed.

Lemma failure_stays_with_its_message_witness :
  let first := Demo.msg "rh-1" Demo.rex in
  let bad := Demo.msg "rh-2" (Demo.without_field "vetName" Demo.rex) in
  let last := Demo.msg "rh-3" Demo.rex in
  let host := Demo.configured [first; bad; last] [] false in
  let tb := events_of (Part002.process_batch host [first] 0) in
  let t := [ConsoleLog "Processing report message:";
            ConsoleError "Invalid message format - missing required fields"] in
  let tp := [ConsoleLog "Received message:";
             ConsoleLog "Invalid message format. Skipping processing."] in
  let rs1 := fst (start_all [first]
                    (fun m => Processor.processMessage host Demo.returning m false) 0) in
  (Part002.process_batch host [first] 0 = (Ret tt, 1, tb)
   /\ Part002.validate_and_map host bad 1 = (Throw invalid_format_002, 1, t)
   /\ start_all [first]
        (fun m => Processor.processMessage host Demo.returning m false) 0 = (rs1, 0)
   /\ Processor.validate_and_map host Demo.returning bad 0 =
        (Throw invalid_format_processor, 0, tp)
   /\ not_set (Processor.queueUrl host) = false
   /\ start_all [first] (Part001.processMessage host Demo.returning) 0 =
        (fst (start_all [first] (Part001.processMessage host Demo.returning) 0), 0)
   /\ not_set (Part001.queueUrl host) = false)
  /\ deletes (events_of (Part002.process_batch host [first; bad; last] 0)) =
       [delete_of (Some Demo.queue) first; delete_of (Some Demo.queue) last]
  /\ (exists w2 t0,
        Processor.pollQueue host Demo.returning 0 =
          (Ret tt, w2, (t0 ++ [SetTimeout "pollQueue" 100])%list))
  /\ (exists w2 t0,
        Part001.pollQueue host Demo.returning 0 =
          (Ret tt, w2, (t0 ++ [SetTimeout "pollQueue" 100])%list))
  /\ length (fst (start_all [first; bad; last]
                    (fun m => Processor.processMessage host Demo.returning m false) 0))
     = 3
  /\ length (fst (start_all [first; bad; last]
                    (Part001.processMessage host Demo.returning) 0))
     = 3.
Proof.
  intros first bad last host tb t tp rs1.
  assert (H1 : Part002.process_batch host [first] 0 = (Ret tt, 1, tb))
    by (vm_compute; reflexivity).
  assert (H2 : Part002.validate_and_map host bad 1 = (Throw invalid_format_002, 1, t))
    by (vm_compute; reflexivity).
  assert (H3 : start_all [first]
                 (fun m => Processor.processMessage host Demo.returning m false) 0
               = (rs1, 0))
    by (vm_compute; reflexivity).
  assert (H4 : Processor.validate_and_map host Demo.returning bad 0 =
                 (Throw invalid_format_processor, 0, tp))
    by (vm_compute; reflexivity).
  assert (H5 : not_set (Processor.queueUrl host) = false) by reflexivity.
  assert (H6 : start_all [first] (Part001.processMessage host Demo.returning) 0 =
                 (fst (start_all [first] (Part001.processMessage host Demo.returning) 0),
                  0))
    by (vm_compute; reflexivity).
  assert (H7 : not_set (Part001.queueUrl host) = false) by reflexivity.
  split; [auto 10|].
  pose proof (failure_stays_with_its_message host Demo.returning [first] [last] bad 0)
    as (P2 & _ & PP & PL & _ & P1 & P1L).
  split; [|split; [|split; [|split]]].
  - change [first; bad; last] with ([first] ++ bad :: [last])%list.
    rewrite (P2 1 1 invalid_format_002 tb t H1 H2). vm_compute. reflexivity.
  - exact (PL H5).
  - exact (P1L H7).
  - change [first; bad; last] with ([first] ++ bad :: [last])%list.
    rewrite (PP 0 0 invalid_format_processor tp rs1 H3 H4). vm_compute. reflexivity.
  - change [first; bad; last] with ([first] ++ bad :: [last])%list.
    rewrite (P1 0 _ H6). vm_compute. reflexivity.
Defined.

(** ** Further properties of the validators *)

Lemma string_length_append (a b : string) :
  String.length (a ++ b) = String.length a + String.length b.
Proof. induction a as [|c a IH]; cbn; [reflexivity|now rewrite IH]. Qed.

(** X1. A payload passes validation exactly when it is an object that has,
    for each of the thirteen required fields, an own property with a truthy
    value: null, booleans, numbers, strings and arrays are rejected whatever
    they hold. *)
Theorem only_complete_objects_are_valid
    {num : Type} `{Number num} (messageBody : JsVal num) :
  Part002.isValid messageBody = true <->
  exists props,
    messageBody = JObj props
    /\ forall field, In field requiredFields ->
         exists v, assoc field props = Some v /\ truthy v = true.
Proof.
  rewrite isValid_true_iff. split.
  - intro Hall.
    destruct messageBody as [| |b|n|s|l|props];
      try (specialize (Hall "petId" (or_introl eq_refl)); discriminate).
    exists props. split; [reflexivity|].
    intros field Hin. specialize (Hall field Hin). cbn [get] in Hall.
    destruct (assoc field props) as [v|]; [|discriminate].
    exists v. auto.
  - intros (props & -> & Hall) field Hin.
    destruct (Hall field Hin) as (v & Hv & Ht). cbn [get]. now rewrite Hv.
Qed.

(** X2. The two validations, the [every] over the field list of part_002 and
    the chain of [&&] of PetClinicReportProcessor.js, accept exactly the same
    payloads. *)
Theorem the_two_validations_agree
    {num : Type} `{Number num} (messageBody : JsVal num) :
  truthy (Processor.fields_present messageBody) = Part002.isValid messageBody.
Proof.
  unfold Processor.fields_present, Part002.isValid.
  rewrite truthy_fold_js_and.
  assert (Hmap : forall l,
            forallb truthy (map (get messageBody) l) =
            forallb (fun field => truthy (get messageBody field)) l).
  { induction l as [|field l IH]; [reflexivity|]. cbn. now rewrite IH. }
  rewrite Hmap.
  destruct (truthy messageBody) eqn:Hbody; cbn [andb].
  - induction requiredFields as [|field l IH]; [reflexivity|].
    cbn [forallb]. now rewrite truthy_js_and, Hbody, IH.
  - symmetry. apply not_true_is_false. intro Hall.
    rewrite forallb_forall in Hall. specialize (Hall "petId" (or_introl eq_refl)).
    rewrite truthy_js_and, Hbody in Hall. discriminate.
Qed.

(** X3. With [SQS_DLQ_URL] unset or empty, the DLQ URL is derived from the
    primary URL and can be neither empty nor equal to the primary URL: the
    two paths of [Processor] cannot address the same queue. *)
Theorem derived_dlq_url_is_another_queue
    {num : Type} (host : Host num) :
  not_set (env host "SQS_DLQ_URL") = true ->
  Processor.dlqUrl host = string_or_undefined (Processor.queueUrl host) ++ "-dlq"
  /\ Processor.dlqUrl host <> ""
  /\ Some (Processor.dlqUrl host) <> Processor.queueUrl host.
Proof.
  intro Hunset.
  assert (Hurl : Processor.dlqUrl host =
                 string_or_undefined (Processor.queueUrl host) ++ "-dlq").
  { unfold Processor.dlqUrl, Processor.queueUrl, or_default.
    destruct (env host "SQS_DLQ_URL") as [s|]; [|reflexivity].
    cbn in Hunset. now rewrite Hunset. }
  split; [exact Hurl|]. rewrite Hurl. split.
  - intro E. apply (f_equal String.length) in E.
    rewrite string_length_append in E. cbn in E. lia.
  - destruct (Processor.queueUrl host) as [q|]; [|discriminate].
    cbn. intro E. injection E as E. apply (f_equal String.length) in E.
    rewrite string_length_append in E. cbn in E. lia.
Qed.

Lemma derived_dlq_url_is_another_queue_witness :
  let host := Demo.configured [] [] false in
  not_set (env host "SQS_DLQ_URL") = true
  /\ Processor.dlqUrl host = "https://sqs.example/clinic-dlq"
  /\ Some (Processor.dlqUrl host) <> Processor.queueUrl host.
Proof.
  intro host.
  assert (Hunset : not_set (env host "SQS_DLQ_URL") = true) by reflexivity.
  split; [exact Hunset|].
  pose proof (derived_dlq_url_is_another_queue host Hunset) as (Hurl & _ & Hne).
  split; [exact Hurl|exact Hne].
Defined.

(** X4. The [environment] of a report is never empty: it is [NODE_ENV] when
    that is set to a non-empty string and "production" otherwise, an empty
    [NODE_ENV] included. *)
Theorem report_environment_is_never_empty
    {num : Type} `{Number num} (host : Host num) (message : Message)
    (w w' : world host) (r : Part002.Report num) (t : list Event) :
  Part002.validate_and_map host message w = (Ret r, w', t) ->
  Part002.environment r <> ""
  /\ (not_set (env host "NODE_ENV") = true -> Part002.environment r = "production")
  /\ (not_set (env host "NODE_ENV") = false ->
      env host "NODE_ENV" = Some (Part002.environment r)).
Proof.
  intro Hrun.
  destruct (Part002_validate_returns host message w _ _ _ Hrun)
    as (messageBody & on & vn & _ & _ & _ & _ & Hr & _ & _).
  subst r. cbn [Part002.environment expected_report].
  unfold or_default, not_set.
  destruct (env host "NODE_ENV") as [s|].
  - destruct (String.eqb s "") eqn:E.
    + repeat split; try discriminate; auto.
    + repeat split; try discriminate; auto.
      now apply String.eqb_neq.
  - repeat split; try discriminate; auto.
Qed.

Lemma report_environment_is_never_empty_witness :
  let host := Demo.host (Demo.vars (Some Demo.queue) None (Some "")) "dlq"
                [] [] [] false in
  let r := expected_report host (JObj Demo.rex) "Ana Silva" "Joe Doe"
             "2024-05-01T10:30:00.000Z" in
  (Part002.validate_and_map host (Demo.msg "rh-1" Demo.rex) 0 =
     (Ret r, 1,
      [ConsoleLog "Processing report message:";
       ConsoleLog "Successfully processed report:"])
   /\ not_set (env host "NODE_ENV") = true)
  /\ Part002.environment r = "production".
Proof.
  intros host r.
  assert (Hrun : Part002.validate_and_map host (Demo.msg "rh-1" Demo.rex) 0 =
                   (Ret r, 1,
                    [ConsoleLog "Processing report message:";
                     ConsoleLog "Successfully processed report:"]))
    by (vm_compute; reflexivity).
  assert (Hunset : not_set (env host "NODE_ENV") = true) by reflexivity.
  split; [auto|].
  exact (proj1 (proj2 (report_environment_is_never_empty host
                         (Demo.msg "rh-1" Demo.rex) 0 _ _ _ Hrun)) Hunset).
Defined.

(** ** Further properties of the loops *)

Section Flattening.
Context {num : Type} (host : Host num).

Lemma flat_map_if {A B : Type} (c : A -> bool) (d : A -> B) (l : list A) :
  flat_map (fun x => if c x then [d x] else []) l = map d (filter c l).
Proof.
  induction l as [|x l IH]; [reflexivity|].
  cbn. destruct (c x); cbn; now rewrite IH.
Qed.

Lemma for_of_deletes {A : Type} (f : A -> list DeleteParams)
    (body : A -> M host unit) :
  (forall x w, deletes (events_of (body x w)) = f x) ->
  forall l w,
    res_of (for_of l body w) = Ret tt ->
    deletes (events_of (for_of l body w)) = flat_map f l.
Proof.
  intros Hbody l. induction l as [|x l IH]; intros w Hret; [reflexivity|].
  cbn [for_of flat_map] in *. unfold bind in *. specialize (Hbody x w).
  destruct (body x w) as [[[[]|e|n] w1] t1]; unfold res_of, events_of in *;
    cbn [fst snd] in *; try discriminate.
  specialize (IH w1). destruct (for_of l body w1) as [[r w2] t2].
  unfold res_of, events_of in IH. cbn [fst snd] in *.
  rewrite deletes_app, Hbody, (IH Hret). reflexivity.
Qed.

Lemma for_of_events_in (Q : list Event -> Prop) {A : Type} (l : list A)
    (body : A -> M host unit) :
  Q [] ->
  (forall a b, Q a -> Q b -> Q (a ++ b)%list) ->
  (forall x, In x l -> forall w, Q (events_of (body x w))) ->
  forall w, Q (events_of (for_of l body w)).
Proof.
  intros Hnil Happ. induction l as [|x l IH]; intros Hbody w; [exact Hnil|].
  cbn [for_of]. apply bind_events; auto.
  - intro w0. apply Hbody. now left.
  - intros _ w0. apply IH. intros y Hy. apply Hbody. now right.
Qed.

Lemma concurrent_deletes (tasks : list (list Event)) :
  deletes [Concurrent tasks] = flat_map deletes tasks.
Proof. unfold deletes. cbn. now rewrite app_nil_r. Qed.

Lemma concurrent_targets (tasks : list (list Event)) :
  targets [Concurrent tasks] = flat_map targets tasks.
Proof. unfold targets. cbn. now rewrite app_nil_r. Qed.

Lemma start_all_deletes {A : Type} (f : A -> list DeleteParams)
    (task : A -> M host unit) :
  never_exits task ->
  (forall x w, deletes (events_of (task x w)) = f x) ->
  forall l w,
    flat_map deletes (map snd (fst (start_all l task w))) = flat_map f l.
Proof.
  intros Hne Htask l. induction l as [|x l IH]; intro w; [reflexivity|].
  rewrite start_all_cons by exact Hne.
  specialize (IH (world_of (task x w))).
  destruct (start_all l task (world_of (task x w))) as [rs w2].
  cbn [fst snd map flat_map] in *. now rewrite IH, Htask.
Qed.

(** The delete requests of the calls [Promise.all] awaits: those of each
    call, in the order of the array. *)
Lemma Promise_all_map_deletes {A : Type} (f : A -> list DeleteParams)
    (task : A -> M host unit) :
  never_exits task ->
  (forall x w, deletes (events_of (task x w)) = f x) ->
  forall l w, deletes (events_of (Promise_all_map l task w)) = flat_map f l.
Proof.
  intros Hne Htask l w. unfold Promise_all_map.
  pose proof (start_all_deletes f task Hne Htask l w) as Hall.
  destruct (start_all l task w) as [rs w1]. unfold events_of. cbn [fst snd] in *.
  now rewrite concurrent_deletes.
Qed.

Lemma Promise_all_map_targets {A : Type} (q : option string)
    (task : A -> M host unit) :
  never_exits task ->
  (forall x w, all_to q (events_of (task x w))) ->
  forall l w, all_to q (events_of (Promise_all_map l task w)).
Proof.
  intros Hne Htask l w. unfold Promise_all_map.
  assert (Hall : Forall (fun x => x = q)
                   (flat_map targets (map snd (fst (start_all l task w))))).
  { revert w. induction l as [|x l IH]; intro w; [constructor|].
    rewrite start_all_cons by exact Hne.
    specialize (IH (world_of (task x w))).
    destruct (start_all l task (world_of (task x w))) as [rs w2].
    cbn [fst snd map flat_map] in *. apply Forall_app. split; [apply Htask|exact IH]. }
  destruct (start_all l task w) as [rs w1]. unfold events_of, all_to.
  cbn [fst snd] in *. now rewrite concurrent_targets.
Qed.
End Flattening.

Section Part002Further.
Context {num : Type} `{Number num} (host : Host num).

Lemma Part002_validate_returned (message : Message) (w : world host) :
  returned (res_of (Part002.validate_and_map host message w)) = maps_002 host message.
Proof.
  unfold maps_002.
  destruct (JSON_parse host (Body message)) as [e|messageBody] eqn:Hparse.
  - unfold Part002.validate_and_map. unfold bind at 1. rewrite Hparse. reflexivity.
  - destruct (Part002.isValid messageBody) eqn:Hvalid.
    + rewrite (Part002_valid_validate host message messageBody w Hparse Hvalid).
      destruct (display_name (get messageBody "ownerName") _);
        [destruct (display_name (get messageBody "vetName") _)|]; reflexivity.
    + rewrite (Part002_invalid_validate host message messageBody w Hparse Hvalid).
      reflexivity.
Qed.

(** The delete requests of the loop body for one message. *)
Lemma Part002_attempt_deletes_of (message : Message) (w : world host) :
  deletes (events_of (Part002.attempt host message w)) =
    if completes_002 host message
    then [delete_of (Some (Part002.queueUrl host)) message]
    else [].
Proof.
  rewrite Part002_attempt_deletes, Part002_processMessage_deletes.
  pose proof (Part002_validate_returned message w) as Hret.
  unfold completes_002.
  destruct (Part002.validate_and_map host message w) as [[[r|e|n] w1] t1] eqn:Hrun;
    unfold res_of in Hret; cbn [fst returned] in Hret; rewrite <- Hret;
    try reflexivity.
  destruct (Part002_validate_returns host message w _ _ _ Hrun)
    as (messageBody & on & vn & Hparse & _ & _ & _ & Hr & _ & _).
  rewrite Hparse. subst r. cbn [Part002.id expected_report andb].
  destruct (ToString (get messageBody "petId")); reflexivity.
Qed.

Lemma Part002_attempt_targets (message : Message) (w : world host) :
  all_to (Some (Part002.queueUrl host)) (events_of (Part002.attempt host message w)).
Proof.
  unfold Part002.attempt, Part002.processMessage.
  apply try_catch_events; [apply all_to_app| |intros; constructor].
  apply try_catch_events; [apply all_to_app| |].
  - apply bind_events; [apply all_to_app| |].
    + intro w0. unfold all_to.
      destruct (Part002_validate_quiet host message w0) as (_ & Ht).
      rewrite Ht. constructor.
    + intros r w0. apply bind_events; [apply all_to_app| |].
      * intro w1. unfold Part002.processReportData.
        destruct (ToString (Part002.id r)); constructor.
      * intros _ w1. apply bind_events; [apply all_to_app| |].
        -- intro w2. rewrite Part002_deleteMessage_run.
           destruct (sqs_delete host _ w2) as [[e|] w3]; repeat constructor.
        -- intros _ w2. constructor.
  - intros e w0. apply bind_events; [apply all_to_app| |]; intros; constructor.
Qed.
End Part002Further.

(** X5. The delete requests of a batch in part_002, when the batch does not
    end the process: one for each message that was validated, mapped and
    printed, in the order of the batch, each for the message's own receipt
    handle on the queue the consumer polls, whether SQS accepts the request
    or rejects it; none for any other message. *)
Theorem batch_deletes_what_it_processed
    {num : Type} `{Number num} (host : Host num) (Messages : list Message)
    (w : world host) :
  res_of (Part002.process_batch host Messages w) = Ret tt ->
  deletes (events_of (Part002.process_batch host Messages w)) =
    map (delete_of (Some (Part002.queueUrl host)))
      (filter (completes_002 host) Messages).
Proof.
  intro Hret. unfold Part002.process_batch in *.
  rewrite (for_of_deletes host
             (fun m => if completes_002 host m
                       then [delete_of (Some (Part002.queueUrl host)) m] else [])
             (Part002.attempt host)
             (Part002_attempt_deletes_of host) Messages w Hret).
  apply flat_map_if.
Qed.

Lemma batch_deletes_what_it_processed_witness :
  let first := Demo.msg "rh-1" Demo.rex in
  let bad := Demo.msg "rh-2" (Demo.with_field "vetName" JNull Demo.rex) in
  let number := Demo.msg "rh-3" (Demo.with_field "ownerId" (JNum 7%Z) Demo.rex) in
  let host := Demo.host (Demo.vars (Some Demo.queue) None None) "dlq"
                [] [] ["rh-3"] false in
  res_of (Part002.process_batch host [first; bad; number] 0) = Ret tt
  /\ deletes (events_of (Part002.process_batch host [first; bad; number] 0)) =
       [delete_of (Some Demo.queue) first; delete_of (Some Demo.queue) number].
Proof.
  intros first bad number host.
  assert (Hret : res_of (Part002.process_batch host [first; bad; number] 0) = Ret tt)
    by (vm_compute; reflexivity).
  split; [exact Hret|].
  rewrite (batch_deletes_what_it_processed host [first; bad; number] 0 Hret).
  vm_compute. reflexivity.
Defined.

(** X6. Whatever a cycle of part_002 receives and however it ends, every
    request it sends, the receive and the deletes, is addressed to the one
    queue the consumer polls, and every delete request of a batch carries
    the receipt handle of a message of that batch. *)
Theorem cycle_stays_on_its_queue_and_batch
    {num : Type} `{Number num} (host : Host num) (Messages : list Message)
    (w : world host) :
  all_to (Some (Part002.queueUrl host)) (events_of (Part002.pollQueue host w))
  /\ Forall (fun p => In (dp_ReceiptHandle p) (map ReceiptHandle Messages))
       (deletes (events_of (Part002.process_batch host Messages w))).
Proof.
  split.
  - unfold Part002.pollQueue. rewrite Part002_queueUrl_not_empty.
    apply bind_events; [apply all_to_app| |intros; constructor].
    apply try_catch_events; [apply all_to_app| |intros; constructor].
    apply bind_events; [apply all_to_app| |].
    + intro w0. unfold send_receive.
      destruct (sqs_receive host _ w0) as [[e|msgs] w1]; repeat constructor.
    + intros [[|m rest]|] w0; try constructor.
      apply bind_events; [apply all_to_app|intros; constructor|].
      intros _ w1. unfold Part002.process_batch. apply for_of_events;
        [constructor|apply all_to_app|apply Part002_attempt_targets].
  - unfold Part002.process_batch.
    apply (for_of_events_in host
             (fun t => Forall (fun p => In (dp_ReceiptHandle p)
                                          (map ReceiptHandle Messages))
                         (deletes t))).
    + constructor.
    + intros a b Ha Hb. rewrite deletes_app. apply Forall_app. auto.
    + intros m Hin w0. rewrite Part002_attempt_deletes_of.
      destruct (completes_002 host m); constructor; [|constructor].
      cbn. now apply in_map.
Qed.

(** X7. A message of part_002 that passes validation and maps, but whose
    [petId] does not convert to a string (an object with an own property
    named toString), ends the process with status 1: the error is thrown in
    the timer callback of [processReportData].  No delete request is made
    for it, and the messages after it in the batch are not processed. *)
Theorem unprintable_id_ends_the_process
    {num : Type} `{Number num} (host : Host num)
    (before after : list Message) (message : Message)
    (w wb w1 : world host) (r : Part002.Report num) (tb t : list Event) :
  Part002.process_batch host before w = (Ret tt, wb, tb) ->
  Part002.validate_and_map host message wb = (Ret r, w1, t) ->
  ToString (Part002.id r) = None ->
  Part002.process_batch host (before ++ message :: after) w =
    (Exit 1, w1, (tb ++ t ++ [Uncaught TypeError_primitive])%list)
  /\ deletes (events_of (Part002.processMessage host message wb)) = [].
Proof.
  intros Hbefore Hrun Hid. split.
  - unfold Part002.process_batch in *. rewrite for_of_app, Hbefore.
    cbn [for_of]. unfold bind.
    rewrite Part002_attempt_run, Part002_processMessage_run, Hrun, Hid.
    reflexivity.
  - rewrite Part002_processMessage_deletes, Hrun, Hid. reflexivity.
Qed.

Lemma unprintable_id_ends_the_process_witness :
  let first := Demo.msg "rh-1" Demo.rex in
  let odd := Demo.msg "rh-2"
               (Demo.with_field "petId" (JObj [("toString", JNum 1%Z)]) Demo.rex) in
  let last := Demo.msg "rh-3" Demo.rex in
  let host := Demo.configured [first; odd; last] [] false in
  let tb := events_of (Part002.process_batch host [first] 0) in
  let run := Part002.validate_and_map host odd 1 in
  (Part002.process_batch host [first] 0 = (Ret tt, 1, tb)
   /\ (exists r, run = (Ret r, 2, events_of run) /\ ToString (Part002.id r) = None))
  /\ res_of (Part002.process_batch host [first; odd; last] 0) = Exit 1
  /\ deletes (events_of (Part002.process_batch host [first; odd; last] 0)) =
       [delete_of (Some Demo.queue) first].
Proof.
  intros first odd last host tb run.
  assert (Hbefore : Part002.process_batch host [first] 0 = (Ret tt, 1, tb))
    by (vm_compute; reflexivity).
  destruct run as [[[r|e|n] w1] t] eqn:Hrun;
    try (exfalso; vm_compute in Hrun; discriminate).
  assert (Hw : w1 = 2) by (vm_compute in Hrun; congruence).
  subst w1.
  assert (Hid : ToString (Part002.id r) = None).
  { vm_compute in Hrun. injection Hrun as Hr _. subst r. reflexivity. }
  split.
  - split; [exact Hbefore|]. exists r. split; [reflexivity|exact Hid].
  - change [first; odd; last] with ([first] ++ odd :: [last])%list.
    rewrite (proj1 (unprintable_id_ends_the_process host [first] [last] odd 0 1 2
                      r tb t Hbefore Hrun Hid)).
    split; [reflexivity|].
    unfold events_of. cbn [snd]. rewrite !deletes_app.
    vm_compute in Hrun. injection Hrun as _ Ht. subst t.
    vm_compute. reflexivity.
Defined.

(** X8. A delete that SQS rejects is not tried again.  In part_002 the
    message's call makes its one delete request, logs the rejection twice,
    and throws an error that carries the message of the SQS error; the loop
    logs it a third time and moves on to the next message: the loop body
    returns. *)
Theorem rejected_delete_is_logged_not_retried
    {num : Type} `{Number num} (host : Host num) (message : Message)
    (w w1 w2 : world host) (r : Part002.Report num) (t : list Event)
    (s : string) (e : Error) :
  let p := delete_of (Some (Part002.queueUrl host)) message in
  Part002.validate_and_map host message w = (Ret r, w1, t) ->
  ToString (Part002.id r) = Some s ->
  sqs_delete host p w1 = (Some e, w2) ->
  Part002.attempt host message w =
    (Ret tt, w2,
     (t ++ [ConsoleLog ("Report " ++ s ++ " processed in "
                        ++ Part002.environment r ++ " environment");
            SqsDelete p;
            ConsoleError "Error deleting message:";
            ConsoleError "Error processing message:";
            ConsoleError ("Failed to process message: Message processing failed: "
                          ++ error_message e)])%list).
Proof.
  intros p Hrun Hid Hreject.
  rewrite Part002_attempt_run, Part002_processMessage_run, Hrun, Hid.
  fold p. rewrite Hreject. cbn [rethrown_by_002 error_message].
  rewrite <- app_assoc. reflexivity.
Qed.

Lemma rejected_delete_is_logged_not_retried_witness :
  let host := Demo.host (Demo.vars (Some Demo.queue) None None) "dlq"
                [] [] ["rh-1"] false in
  let message := Demo.msg "rh-1" Demo.rex in
  let r := expected_report host (JObj Demo.rex) "Ana Silva" "Joe Doe"
             "2024-05-01T10:30:00.000Z" in
  let t := [ConsoleLog "Processing report message:";
            ConsoleLog "Successfully processed report:"] in
  let e := mkError "ReceiptHandleIsInvalid" "The receipt handle has expired" in
  (Part002.validate_and_map host message 0 = (Ret r, 1, t)
   /\ ToString (Part002.id r) = Some "p-17"
   /\ sqs_delete host (delete_of (Some (Part002.queueUrl host)) message) 1
      = (Some e, 1))
  /\ res_of (Part002.attempt host message 0) = Ret tt
  /\ deletes (events_of (Part002.attempt host message 0)) =
       [delete_of (Some Demo.queue) message].
Proof.
  intros host message r t e.
  assert (Hrun : Part002.validate_and_map host message 0 = (Ret r, 1, t))
    by (vm_compute; reflexivity).
  assert (Hid : ToString (Part002.id r) = Some "p-17") by reflexivity.
  assert (Hreject : sqs_delete host
                      (delete_of (Some (Part002.queueUrl host)) message) 1
                    = (Some e, 1))
    by (vm_compute; reflexivity).
  split; [auto|].
  rewrite (rejected_delete_is_logged_not_retried host message 0 1 1 r t "p-17" e
             Hrun Hid Hreject).
  split; vm_compute; reflexivity.
Defined.

Section ProcessorFurther.
Context {num : Type} `{Number num} (host : Host num).
Variable binding : StaticFrom num.

Lemma Processor_validate_returned (message : Message) (w : world host) :
  returned (res_of (Processor.validate_and_map host binding message w)) =
    maps_processor host binding message.
Proof.
  rewrite Processor_validate_run. unfold maps_processor.
  destruct (JSON_parse host (Body message)) as [e|messageBody]; [reflexivity|].
  rewrite fields_present_isValid.
  destruct (Part002.isValid messageBody); [|reflexivity].
  destruct binding as [f|]; [|reflexivity].
  destruct (f JUndefined); reflexivity.
Qed.

Lemma Processor_processMessage_all_to (message : Message) (isRetry : bool)
    (w : world host) :
  all_to (target_of host isRetry)
    (events_of (Processor.processMessage host binding message isRetry w)).
Proof.
  unfold all_to. rewrite Processor_processMessage_targets.
  destruct (returned _); repeat constructor.
Qed.

Lemma Processor_concurrent_deletes (Messages : list Message) (w : world host) :
  deletes (events_of
             (Promise_all_map Messages
                (fun message => Processor.processMessage host binding message false)
                w)) =
    map (delete_of (Processor.queueUrl host))
      (filter (maps_processor host binding) Messages).
Proof.
  rewrite (Promise_all_map_deletes host
             (fun m => if maps_processor host binding m
                       then [delete_of (Processor.queueUrl host) m] else [])).
  - apply flat_map_if.
  - apply Processor_processMessage_never_exits.
  - intros m w0. rewrite Processor_processMessage_deletes,
      Processor_validate_returned. reflexivity.
Qed.
End ProcessorFurther.

(** X9. The delete requests of the calls a cycle of PetClinicReportProcessor.js
    starts for a received batch: one for each message whose block returned,
    in the order of the batch, for the message's own receipt handle on the
    primary queue; none for a message that failed. *)
Theorem concurrent_batch_deletes_what_it_mapped
    {num : Type} `{Number num} (host : Host num) (binding : StaticFrom num)
    (Messages : list Message) (w : world host) :
  deletes (events_of
             (Promise_all_map Messages
                (fun message => Processor.processMessage host binding message false)
                w)) =
    map (delete_of (Processor.queueUrl host))
      (filter (maps_processor host binding) Messages).
Proof.
  pose proof (Processor_processMessage_never_exits host binding false) as Hne.
  unfold Promise_all_map, events_of.
  assert (Hall : forall l w0,
            flat_map deletes
              (map snd (fst (start_all l
                 (fun message => Processor.processMessage host binding message false)
                 w0))) =
            map (delete_of (Processor.queueUrl host))
              (filter (maps_processor host binding) l)).
  { induction l as [|m l IH]; intro w0; [reflexivity|].
    rewrite start_all_cons by exact Hne. specialize (IH
      (world_of (Processor.processMessage host binding m false w0))).
    destruct (start_all l _ _) as [rs w2]. cbn [fst snd map flat_map filter] in *.
    rewrite IH, Processor_processMessage_deletes, Processor_validate_returned.
    destruct (maps_processor host binding m); reflexivity. }
  specialize (Hall Messages w).
  destruct (start_all Messages _ w) as [rs w1]. cbn [fst snd] in *.
  now rewrite concurrent_deletes.
Qed.

(** X10. As the files are written, no message is ever deleted by
    PetClinicReportProcessor.js or by part_001: a cycle of the poll loop, the
    drain of the DLQ included, makes no delete request, whatever the queues
    hold and whatever SQS answers.  Every received message stays on its
    queue. *)
Theorem nothing_is_deleted_as_written
    {num : Type} `{Number num} (host : Host num) (w : world host) :
  deletes (events_of (Processor.pollQueue host as_written w)) = []
  /\ deletes (events_of (Processor.processDeadLetterQueue host as_written w)) = []
  /\ deletes (events_of (Part001.pollQueue host as_written w)) = [].
Proof.
  set (Q := fun t : list Event => deletes t = []).
  assert (Qapp : forall a b, Q a -> Q b -> Q (a ++ b)%list).
  { unfold Q. intros a b Ha Hb. now rewrite deletes_app, Ha, Hb. }
  assert (Hreceive : forall p w0, Q (events_of (send_receive host p w0))).
  { intros p w0. unfold send_receive.
    destruct (sqs_receive host p w0) as [[e|msgs] w1]; reflexivity. }
  assert (Hdlq : forall w0,
             Q (events_of (Processor.processDeadLetterQueue host as_written w0))).
  { intro w0. unfold Processor.processDeadLetterQueue.
    apply try_catch_events; [exact Qapp| |intros; reflexivity].
    apply bind_events; [exact Qapp|apply Hreceive|].
    intros [[|m rest]|] w1; try reflexivity.
    apply bind_events; [exact Qapp|intros; reflexivity|].
    intros _ w2. apply for_of_events; [reflexivity|exact Qapp|].
    intros x w3. unfold Q. rewrite Processor_reprocess_deletes.
    rewrite Processor_validate_returned. unfold maps_processor, as_written.
    destruct (JSON_parse host (Body x)); [reflexivity|].
    now rewrite andb_false_r. }
  split; [|split].
  - unfold Processor.pollQueue.
    destruct (not_set (Processor.queueUrl host)); [reflexivity|].
    apply (bind_events host Q Qapp).
    + apply try_catch_events; [exact Qapp| |intros; reflexivity].
      apply bind_events; [exact Qapp|apply Hreceive|].
      intros [[|m rest]|] w1; try reflexivity.
      apply bind_events; [exact Qapp|intros; reflexivity|].
      intros _ w2. unfold Q.
      rewrite Processor_concurrent_deletes.
      assert (Hnone : filter (maps_processor host as_written) (m :: rest) = []).
      { induction (m :: rest) as [|x l IH]; [reflexivity|].
        cbn [filter]. unfold maps_processor at 1, as_written.
        destruct (JSON_parse host (Body x)); [exact IH|].
        rewrite andb_false_r. exact IH. }
      now rewrite Hnone.
    + intros _ w1. apply bind_events; [exact Qapp| |intros; reflexivity].
      apply bind_events; [exact Qapp| |].
      * intro w2. unfold random_lt_tenth.
        destruct (Math_random_lt_tenth host w2). reflexivity.
      * intros [|] w2; [apply Hdlq|reflexivity].
  - apply Hdlq.
  - unfold Part001.pollQueue.
    apply (bind_events host Q Qapp).
    + intro w0. destruct (not_set (Part001.queueUrl host)); reflexivity.
    + intros _ w0. apply bind_events; [exact Qapp| |intros; reflexivity].
      apply try_catch_events; [exact Qapp| |intros; reflexivity].
      apply bind_events; [exact Qapp|apply Hreceive|].
      intros [[|m rest]|] w1; try reflexivity.
      apply bind_events; [exact Qapp|intros; reflexivity|].
      intros _ w2. unfold Q.
      rewrite (Promise_all_map_deletes host (fun _ => [])).
      * induction (m :: rest); [reflexivity|exact IHl].
      * apply Part001_processMessage_never_exits.
      * intros x w3. rewrite Part001_processMessage_run. reflexivity.
Qed.

(** X11. A cycle that receives nothing (the receive is rejected, or its
    answer holds no message) does nothing with any message: in part_002 and
    part_001 it sends the receive, prints one line (the error, or the idle
    line) and sets the timer of the next cycle; a drain of the DLQ in
    PetClinicReportProcessor.js sends the receive and at most prints the
    error. *)
Theorem idle_cycle_only_receives
    {num : Type} `{Number num} (host : Host num) (binding : StaticFrom num)
    (w : world host) :
  let p002 := {| rp_QueueUrl := Some (Part002.queueUrl host);
                 MaxNumberOfMessages := 10; WaitTimeSeconds := 20;
                 VisibilityTimeout := 300 |} in
  let p001 := {| rp_QueueUrl := Part001.queueUrl host;
                 MaxNumberOfMessages := 10; WaitTimeSeconds := 20;
                 VisibilityTimeout := 30 |} in
  let pdlq := {| rp_QueueUrl := Some (Processor.dlqUrl host);
                 MaxNumberOfMessages := 10; WaitTimeSeconds := 5;
                 VisibilityTimeout := 30 |} in
  (nothing_received host p002 w ->
   Part002.pollQueue host w =
     (Ret tt, snd (sqs_receive host p002 w),
      [SqsReceive p002;
       match fst (sqs_receive host p002 w) with
       | inl _ => ConsoleError "Error receiving messages from queue:"
       | inr _ => ConsoleLog "No messages available in queue"
       end;
       SetTimeout "pollQueue" 1000]))
  /\ (not_set (Part001.queueUrl host) = false ->
      nothing_received host p001 w ->
      Part001.pollQueue host binding w =
        (Ret tt, snd (sqs_receive host p001 w),
         [SqsReceive p001;
          match fst (sqs_receive host p001 w) with
          | inl _ => ConsoleError "Error receiving messages:"
          | inr _ => ConsoleLog "No messages received"
          end;
          SetTimeout "pollQueue" 100]))
  /\ (nothing_received host pdlq w ->
      Processor.processDeadLetterQueue host binding w =
        (Ret tt, snd (sqs_receive host pdlq w),
         SqsReceive pdlq ::
         match fst (sqs_receive host pdlq w) with
         | inl _ => [ConsoleError "Error processing DLQ:"]
         | inr _ => []
         end)).
Proof.
  intros p002 p001 pdlq. unfold nothing_received. split; [|split].
  - intro Hnone. unfold Part002.pollQueue. rewrite Part002_queueUrl_not_empty.
    fold p002. run_monad.
    destruct (sqs_receive host p002 w) as [[e|[[|m rest]|]] w1]; cbn in *;
      try reflexivity.
    contradiction.
  - intros Hset Hnone. unfold Part001.pollQueue. rewrite Hset.
    fold p001. run_monad.
    destruct (sqs_receive host p001 w) as [[e|[[|m rest]|]] w1]; cbn in *;
      try reflexivity.
    contradiction.
  - intro Hnone. unfold Processor.processDeadLetterQueue.
    fold pdlq. run_monad.
    destruct (sqs_receive host pdlq w) as [[e|[[|m rest]|]] w1]; cbn in *;
      try reflexivity.
    contradiction.
Qed.

Lemma idle_cycle_only_receives_witness :
  let host := Demo.configured [] [] false in
  let p002 := {| rp_QueueUrl := Some (Part002.queueUrl host);
                 MaxNumberOfMessages := 10; WaitTimeSeconds := 20;
                 VisibilityTimeout := 300 |} in
  let p001 := {| rp_QueueUrl := Part001.queueUrl host;
                 MaxNumberOfMessages := 10; WaitTimeSeconds := 20;
                 VisibilityTimeout := 30 |} in
  let pdlq := {| rp_QueueUrl := Some (Processor.dlqUrl host);
                 MaxNumberOfMessages := 10; WaitTimeSeconds := 5;
                 VisibilityTimeout := 30 |} in
  (nothing_received host p002 0
   /\ not_set (Part001.queueUrl host) = false
   /\ nothing_received host p001 0
   /\ nothing_received host pdlq 0)
  /\ events_of (Part002.pollQueue host 0) =
       [SqsReceive p002; ConsoleLog "No messages available in queue";
        SetTimeout "pollQueue" 1000]
  /\ events_of (Part001.pollQueue host as_written 0) =
       [SqsReceive p001; ConsoleLog "No messages received";
        SetTimeout "pollQueue" 100]
  /\ events_of (Processor.processDeadLetterQueue host as_written 0) =
       [SqsReceive pdlq].
Proof.
  intros host p002 p001 pdlq.
  assert (H2 : nothing_received host p002 0) by exact I.
  assert (Hset : not_set (Part001.queueUrl host) = false) by reflexivity.
  assert (H1 : nothing_received host p001 0) by exact I.
  assert (Hd : nothing_received host pdlq 0) by exact I.
  split; [auto|].
  pose proof (idle_cycle_only_receives host as_written 0) as (P2 & P1 & PD).
  rewrite (P2 H2), (P1 Hset H1), (PD Hd). repeat split.
Defined.

Section Starts.
Context {num : Type} `{Number num} (host : Host num).
Variable binding : StaticFrom num.

Lemma Processor_pollQueue_returns (w : world host) :
  res_of (Processor.pollQueue host binding w) = Ret tt.
Proof.
  destruct (not_set (Processor.queueUrl host)) eqn:Hset.
  - unfold Processor.pollQueue. rewrite Hset. reflexivity.
  - destruct (Processor_pollQueue_goes_on host binding w Hset) as (w2 & t0 & Hrun).
    now rewrite Hrun.
Qed.

Lemma Part002_pollQueue_never_throws (w : world host) (e : Error) :
  res_of (Part002.pollQueue host w) <> Throw e.
Proof.
  pose proof (Part002_pollQueue_goes_on host w) as Hgo.
  destruct (Part002.pollQueue host w) as [[[[]|e'|n] w1] t1];
    try discriminate. contradiction.
Qed.
End Starts.

(** X12. No version of the consumer ever reaches the handler of
    [main().catch], the one place that prints "Fatal error" and calls
    [process.exit(1)]: [main] never rejects, so the start of the script is
    [main].  PetClinicReportProcessor.js therefore never ends the process
    itself: its start always returns.  part_001 ends the process exactly
    when the queue URL is not set, from [pollQueue].  part_002 can only be
    ended by an uncaught error. *)
Theorem fatal_error_handler_is_never_reached
    {num : Type} `{Number num} (host : Host num) (binding : StaticFrom num)
    (w : world host) :
  Processor.start host binding w = Processor.main host binding w
  /\ res_of (Processor.start host binding w) = Ret tt
  /\ Part001.start host binding w = Part001.main host binding w
  /\ res_of (Part001.start host binding w) =
       (if not_set (Part001.queueUrl host) then Exit 1 else Ret tt)
  /\ Part002.start host w = Part002.main host w
  /\ forall e, res_of (Part002.start host w) <> Throw e.
Proof.
  assert (HP : res_of (Processor.main host binding w) = Ret tt).
  { unfold Processor.main. unfold bind at 1. cbn [console_log emit].
    unfold bind at 1. cbn [console_log emit].
    pose proof (Processor_pollQueue_returns host binding w) as Hp.
    unfold res_of in *.
    destruct (Processor.pollQueue host binding w) as [[r w1] t1].
    cbn [fst] in *. now subst r. }
  assert (H1 : res_of (Part001.main host binding w) =
               (if not_set (Part001.queueUrl host) then Exit 1 else Ret tt)).
  { unfold Part001.main. unfold bind at 1. cbn [console_log emit].
    destruct (not_set (Part001.queueUrl host)) eqn:Hset.
    - unfold Part001.pollQueue. rewrite Hset. reflexivity.
    - destruct (Part001_pollQueue_goes_on host binding w Hset) as (w2 & t0 & Hrun).
      rewrite Hrun. reflexivity. }
  assert (H2 : forall e, res_of (Part002.main host w) <> Throw e).
  { intro e. unfold Part002.main. unfold bind at 1. cbn [console_log emit].
    unfold bind at 1. cbn [console_log emit].
    pose proof (Part002_pollQueue_never_throws host w) as Hp.
    unfold res_of in *.
    destruct (Part002.pollQueue host w) as [[r w1] t1].
    cbn [fst] in *. apply Hp. }
  assert (Hstart : forall (c : M host unit) (h : Error -> M host unit),
             (forall e, res_of (c w) <> Throw e) -> try_catch c h w = c w).
  { intros c h Hc. unfold try_catch. unfold res_of in Hc.
    destruct (c w) as [[[[]|e|n] w1] t1]; try reflexivity.
    exfalso. exact (Hc e eq_refl). }
  assert (EP : Processor.start host binding w = Processor.main host binding w).
  { apply Hstart. intro e. rewrite HP. discriminate. }
  assert (E1 : Part001.start host binding w = Part001.main host binding w).
  { apply Hstart. intro e. rewrite H1.
    destruct (not_set (Part001.queueUrl host)); discriminate. }
  assert (E2 : Part002.start host w = Part002.main host w).
  { apply Hstart. exact H2. }
  repeat split; auto.
  - now rewrite EP.
  - now rewrite E1.
  - intro e. rewrite E2. apply H2.
Qed.

(** X13. A cycle of PetClinicReportProcessor.js in which the random draw does
    not call for the DLQ addresses every request, the receive and the
    deletes of the batch, to the primary queue: the poll loop itself never
    touches the DLQ. *)
Theorem poll_loop_leaves_the_dlq_alone
    {num : Type} `{Number num} (host : Host num) (binding : StaticFrom num)
    (w : world host) :
  (forall w0, fst (Math_random_lt_tenth host w0) = false) ->
  all_to (Processor.queueUrl host) (events_of (Processor.pollQueue host binding w)).
Proof.
  intro Hdraw. unfold Processor.pollQueue.
  destruct (not_set (Processor.queueUrl host)); [constructor|].
  apply bind_events; [apply all_to_app| |].
  - apply try_catch_events; [apply all_to_app| |intros; constructor].
    apply bind_events; [apply all_to_app| |].
    + intro w0. unfold send_receive.
      destruct (sqs_receive host _ w0) as [[e|msgs] w1]; repeat constructor.
    + intros [[|m rest]|] w0; try constructor.
      apply bind_events; [apply all_to_app|intros; constructor|].
      intros _ w1. apply Promise_all_map_targets.
      * apply Processor_processMessage_never_exits.
      * intros x w2.
        apply (Processor_processMessage_all_to host binding x false w2).
  - intros _ w0. apply bind_events; [apply all_to_app| |intros; constructor].
    intro w1. unfold bind, random_lt_tenth. specialize (Hdraw w1).
    destruct (Math_random_lt_tenth host w1) as [check w2]. cbn in Hdraw.
    subst check. constructor.
Qed.

Lemma poll_loop_leaves_the_dlq_alone_witness :
  let first := Demo.msg "rh-1" Demo.rex in
  let host := Demo.configured [first] [Demo.msg "rh-9" Demo.rex] false in
  (forall w0, fst (Math_random_lt_tenth host w0) = false)
  /\ targets (events_of (Processor.pollQueue host Demo.returning 0)) =
       [Some Demo.queue; Some Demo.queue]
  /\ all_to (Some Demo.queue) (events_of (Processor.pollQueue host Demo.returning 0)).
Proof.
  intros first host.
  assert (Hdraw : forall w0, fst (Math_random_lt_tenth host w0) = false)
    by (intro w0; reflexivity).
  split; [exact Hdraw|]. split; [vm_compute; reflexivity|].
  exact (poll_loop_leaves_the_dlq_alone host Demo.returning 0 Hdraw).
Defined.

(** X14. A drain of the DLQ in PetClinicReportProcessor.js addresses every
    request, the receive and the deletes, to the DLQ, whatever
    [PetClinicReport.from] does and whatever SQS answers: the drain never
    touches the primary queue; and it always returns, so a failure in the
    drain cannot stop the poll loop that called it. *)
Theorem dlq_drain_stays_on_the_dlq
    {num : Type} `{Number num} (host : Host num) (binding : StaticFrom num)
    (w : world host) :
  all_to (Some (Processor.dlqUrl host))
    (events_of (Processor.processDeadLetterQueue host binding w))
  /\ res_of (Processor.processDeadLetterQueue host binding w) = Ret tt.
Proof.
  split; [apply Processor_dlq_targets|apply Processor_dlq_returns].
Qed.

(** ** The Jest command of TestRunnerTool *)

Lemma special_backslash (c : Ascii.ascii) :
  TestRunnerTool.special c = false -> Ascii.eqb c (Ascii.ascii_of_nat 92) = false.
Proof.
  unfold TestRunnerTool.special. cbn [existsb]. intro Hs.
  rewrite !orb_false_iff in Hs. decompose [and] Hs. assumption.
Qed.

Lemma string_append_assoc (a b c : string) : (a ++ b) ++ c = a ++ (b ++ c).
Proof. induction a as [|x a IH]; cbn; [reflexivity|now rewrite IH]. Qed.

Lemma escapePattern_app (a b : string) :
  TestRunnerTool.escapePattern (a ++ b) =
  TestRunnerTool.escapePattern a ++ TestRunnerTool.escapePattern b.
Proof.
  induction a as [|c a IH]; [reflexivity|].
  cbn [append TestRunnerTool.escapePattern].
  destruct (TestRunnerTool.special c); cbn [append]; now rewrite IH.
Qed.

(** X15. Escaping a test pattern loses nothing: reading the escaped pattern
    back, each backslash standing for the character after it, gives the
    pattern again.  Two different patterns never give the same escaped
    pattern. *)
Theorem escaped_pattern_reads_back (testPattern : string) :
  unescapePattern (TestRunnerTool.escapePattern testPattern) = testPattern.
Proof.
  induction testPattern as [|c rest IH]; [reflexivity|].
  cbn [TestRunnerTool.escapePattern].
  destruct (TestRunnerTool.special c) eqn:Hs.
  - cbn [unescapePattern]. rewrite Ascii.eqb_refl. now rewrite IH.
  - cbn [unescapePattern]. rewrite (special_backslash c Hs). now rewrite IH.
Qed.

(** X16. The double quote is not one of the escaped characters: a test
    pattern that holds one closes the quoted argument of the command, and
    what follows it in the pattern stands outside the quotes in the command
    line the tool runs. *)
Theorem double_quote_in_pattern_closes_the_argument (a b : string) :
  TestRunnerTool.jestCommand (a ++ double_quote ++ b) false =
    "npx jest --testPathPattern=" ++ double_quote
    ++ TestRunnerTool.escapePattern a ++ double_quote
    ++ TestRunnerTool.escapePattern b ++ double_quote.
Proof.
  unfold TestRunnerTool.jestCommand.
  assert (Hne : String.eqb (a ++ double_quote ++ b) "" = false).
  { apply String.eqb_neq. intro E. apply (f_equal String.length) in E.
    rewrite !string_length_append in E. cbn in E. lia. }
  rewrite Hne, !escapePattern_app.
  assert (Hq : TestRunnerTool.escapePattern double_quote = double_quote)
    by reflexivity.
  rewrite Hq.
  rewrite !string_append_assoc. reflexivity.
Qed.

(** ** The local SQS tool *)

(** X17. Every action starts with the Docker check: the first command
    [execute] runs is [docker --version], and when that fails no other
    command is run and the answer is the error about Docker, whatever the
    action. *)
Theorem docker_check_gates_every_action
    {num : Type} `{Number num} (tool : SQSLocalTool.ToolHost num)
    (params : SQSLocalTool.Params num) (w : SQSLocalTool.shell tool) :
  (exists rest,
     snd (SQSLocalTool.execute tool params w) = "docker --version" :: rest)
  /\ (forall e w1,
        SQSLocalTool.exec tool "docker --version" w = (inl e, w1) ->
        SQSLocalTool.execute tool params w =
          (inr (SQSLocalTool.plain "error"
                  "Docker is not installed or not running. Please install Docker to use this tool."),
           w1, ["docker --version"])).
Proof.
  split.
  - unfold SQSLocalTool.execute.
    cbv [SQSLocalTool.t_bind SQSLocalTool.t_try SQSLocalTool.t_ret
         SQSLocalTool.execCommand].
    destruct (SQSLocalTool.exec tool "docker --version" w) as [[e|v] w1].
    + eexists. reflexivity.
    + destruct (SQSLocalTool.dispatch tool params w1) as [[r w2] c2].
      eexists. reflexivity.
  - intros e w1 Hfail. unfold SQSLocalTool.execute.
    cbv [SQSLocalTool.t_bind SQSLocalTool.t_try SQSLocalTool.t_ret
         SQSLocalTool.execCommand].
    rewrite Hfail. reflexivity.
Qed.

Lemma docker_check_gates_every_action_witness :
  let tool := DemoTool.tool [] in
  let params := {| SQSLocalTool.action := "start";
                   SQSLocalTool.queueName := None;
                   SQSLocalTool.port := SQSLocalTool.DefaultPort |} in
  SQSLocalTool.exec tool "docker --version" tt =
    (inl (mkError "Error" "Command failed: docker --version"), tt)
  /\ SQSLocalTool.execute tool params tt =
       (inr (SQSLocalTool.plain "error"
               "Docker is not installed or not running. Please install Docker to use this tool."),
        tt, ["docker --version"]).
Proof.
  intros tool params.
  assert (Hfail : SQSLocalTool.exec tool "docker --version" tt =
                    (inl (mkError "Error" "Command failed: docker --version"), tt))
    by reflexivity.
  split; [exact Hfail|].
  exact (proj2 (docker_check_gates_every_action tool params tt) _ _ Hfail).
Defined.

(** X18. [execute] never rejects: whatever the parameters and whatever the
    shell, the parser and the commands do, it resolves with an object whose
    status is "success" or "error". *)
Theorem execute_always_answers
    {num : Type} `{Number num} (tool : SQSLocalTool.ToolHost num)
    (params : SQSLocalTool.Params num) (w : SQSLocalTool.shell tool) :
  exists r,
    fst (fst (SQSLocalTool.execute tool params w)) = inr r
    /\ (SQSLocalTool.status r = "success" \/ SQSLocalTool.status r = "error").
Proof.
  destruct params as [action [queueName|] port]; run_tool;
    tool_cases; cbn; eexists; (split; [reflexivity|cbn; auto]).
Qed.

(** X19. Starting is safe to repeat and replaces a stopped container in
    order.  When the container is up, [start] runs nothing after the status
    query: no [docker rm], no [docker run].  When a container exists but is
    not up, [start] removes it before it runs the new one, and when the
    removal fails the new container is not run. *)
Theorem start_respects_the_existing_container
    {num : Type} `{Number num} (tool : SQSLocalTool.ToolHost num)
    (q : option string) (port : SQSLocalTool.Port num)
    (w w1 w2 : SQSLocalTool.shell tool) (version stdout : string) :
  let params := {| SQSLocalTool.action := "start"; SQSLocalTool.queueName := q;
                   SQSLocalTool.port := port |} in
  let rm := "docker rm " ++ SQSLocalTool.containerName in
  SQSLocalTool.exec tool "docker --version" w = (inr version, w1) ->
  SQSLocalTool.exec tool SQSLocalTool.ps_all w1 = (inr stdout, w2) ->
  SQSLocalTool.trim tool stdout <> "" ->
  (String.prefix "Up" stdout = true ->
   SQSLocalTool.execute tool params w =
     (inr (SQSLocalTool.started "Local SQS is already running" port), w2,
      ["docker --version"; SQSLocalTool.ps_all]))
  /\ (String.prefix "Up" stdout = false ->
      (forall out w3 out' w4,
         SQSLocalTool.exec tool rm w2 = (inr out, w3) ->
         SQSLocalTool.exec tool (SQSLocalTool.docker_run port) w3 = (inr out', w4) ->
         SQSLocalTool.execute tool params w =
           (inr (SQSLocalTool.started "Local SQS started successfully" port), w4,
            ["docker --version"; SQSLocalTool.ps_all; rm;
             SQSLocalTool.docker_run port]))
      /\ (forall e w3,
            SQSLocalTool.exec tool rm w2 = (inl e, w3) ->
            SQSLocalTool.execute tool params w =
              (inr (SQSLocalTool.failed "Failed to start local SQS" e), w3,
               ["docker --version"; SQSLocalTool.ps_all; rm]))).
Proof.
  intros params rm Hdocker Hps Hexists.
  apply String.eqb_neq in Hexists.
  split; [|intro Hdown; split].
  - intro Hup. subst params. run_tool. cbn [String.eqb Ascii.eqb Bool.eqb].
    rewrite Hdocker, Hps, Hexists, Hup. reflexivity.
  - intros out w3 out' w4 Hrm Hrun. subst params. run_tool.
    cbn [String.eqb Ascii.eqb Bool.eqb].
    rewrite Hdocker, Hps, Hexists, Hdown. cbn [negb andb].
    fold rm. rewrite Hrm, Hrun. reflexivity.
  - intros e w3 Hrm. subst params. run_tool.
    cbn [String.eqb Ascii.eqb Bool.eqb].
    rewrite Hdocker, Hps, Hexists, Hdown. cbn [negb andb].
    fold rm. rewrite Hrm. reflexivity.
Qed.

Lemma start_respects_the_existing_container_witness :
  let up := "Up 2 hours" ++ DemoTool.newline in
  let tool := DemoTool.tool [DemoTool.docker_ok; (SQSLocalTool.ps_all, inr up)] in
  let params := {| SQSLocalTool.action := "start";
                   SQSLocalTool.queueName := None;
                   SQSLocalTool.port := SQSLocalTool.GivenPort 9400%Z |} in
  (SQSLocalTool.exec tool "docker --version" tt =
     (inr ("Docker version 24.0.7" ++ DemoTool.newline), tt)
   /\ SQSLocalTool.exec tool SQSLocalTool.ps_all tt = (inr up, tt)
   /\ SQSLocalTool.trim tool up <> ""
   /\ String.prefix "Up" up = true)
  /\ SQSLocalTool.execute tool params tt =
       (inr (SQSLocalTool.started "Local SQS is already running"
               (SQSLocalTool.GivenPort 9400%Z)),
        tt, ["docker --version"; SQSLocalTool.ps_all]).
Proof.
  intros up tool params.
  assert (Hdocker : SQSLocalTool.exec tool "docker --version" tt =
                      (inr ("Docker version 24.0.7" ++ DemoTool.newline), tt))
    by reflexivity.
  assert (Hps : SQSLocalTool.exec tool SQSLocalTool.ps_all tt = (inr up, tt))
    by (vm_compute; reflexivity).
  assert (Hexists : SQSLocalTool.trim tool up <> "")
    by (vm_compute; discriminate).
  assert (Hup : String.prefix "Up" up = true) by reflexivity.
  split; [auto|].
  exact (proj1 (start_respects_the_existing_container tool None
                  (SQSLocalTool.GivenPort 9400%Z) tt tt tt _ up
                  Hdocker Hps Hexists) Hup).
Defined.

(** X20. [stop] does not remove what it could not stop: when [docker stop]
    fails, [docker rm] is not run, and the answer is the error, carrying the
    message of the failure. *)
Theorem failed_stop_skips_the_removal
    {num : Type} `{Number num} (tool : SQSLocalTool.ToolHost num)
    (q : option string) (port : SQSLocalTool.Port num)
    (w w1 w2 : SQSLocalTool.shell tool) (version : string) (e : Error) :
  let params := {| SQSLocalTool.action := "stop"; SQSLocalTool.queueName := q;
                   SQSLocalTool.port := port |} in
  let stop := "docker stop " ++ SQSLocalTool.containerName in
  SQSLocalTool.exec tool "docker --version" w = (inr version, w1) ->
  SQSLocalTool.exec tool stop w1 = (inl e, w2) ->
  SQSLocalTool.execute tool params w =
    (inr (SQSLocalTool.failed "Failed to stop local SQS" e), w2,
     ["docker --version"; stop]).
Proof.
  intros params stop Hdocker Hstop. subst params. run_tool.
  cbn [String.eqb Ascii.eqb Bool.eqb].
  fold stop. rewrite Hdocker, Hstop. reflexivity.
Qed.

Lemma failed_stop_skips_the_removal_witness :
  let tool := DemoTool.tool [DemoTool.docker_ok] in
  let params := {| SQSLocalTool.action := "stop";
                   SQSLocalTool.queueName := None;
                   SQSLocalTool.port := SQSLocalTool.DefaultPort |} in
  let e := mkError "Error" "Command failed: docker stop pet-clinic-sqs-local" in
  (SQSLocalTool.exec tool "docker --version" tt =
     (inr ("Docker version 24.0.7" ++ DemoTool.newline), tt)
   /\ SQSLocalTool.exec tool ("docker stop " ++ SQSLocalTool.containerName) tt
      = (inl e, tt))
  /\ SQSLocalTool.execute tool params tt =
       (inr (SQSLocalTool.failed "Failed to stop local SQS" e), tt,
        ["docker --version"; "docker stop pet-clinic-sqs-local"]).
Proof.
  intros tool params e.
  assert (Hdocker : SQSLocalTool.exec tool "docker --version" tt =
                      (inr ("Docker version 24.0.7" ++ DemoTool.newline), tt))
    by reflexivity.
  assert (Hstop : SQSLocalTool.exec tool
                    ("docker stop " ++ SQSLocalTool.containerName) tt = (inl e, tt))
    by (vm_compute; reflexivity).
  split; [auto|].
  exact (failed_stop_skips_the_removal tool None SQSLocalTool.DefaultPort
           tt tt tt _ e Hdocker Hstop).
Defined.

(** X21. A request the tool cannot serve runs nothing beyond the Docker
    check: an action that is none of start, stop, status, list and purge is
    answered "Invalid action", and a purge without a queue name (absent or
    empty) is answered "queueName is required for purge action". *)
Theorem unservable_request_runs_nothing
    {num : Type} `{Number num} (tool : SQSLocalTool.ToolHost num)
    (params : SQSLocalTool.Params num)
    (w w1 : SQSLocalTool.shell tool) (version : string) :
  SQSLocalTool.exec tool "docker --version" w = (inr version, w1) ->
  (~ In (SQSLocalTool.action params) ["start"; "stop"; "status"; "list"; "purge"] ->
   SQSLocalTool.execute tool params w =
     (inr (SQSLocalTool.plain "error"
             ("Invalid action: " ++ SQSLocalTool.action params)),
      w1, ["docker --version"]))
  /\ (SQSLocalTool.action params = "purge" ->
      not_set (SQSLocalTool.queueName params) = true ->
      SQSLocalTool.execute tool params w =
        (inr (SQSLocalTool.plain "error" "queueName is required for purge action"),
         w1, ["docker --version"])).
Proof.
  intro Hdocker. destruct params as [action queueName port]. cbn [SQSLocalTool.action
    SQSLocalTool.queueName]. split.
  - intro Hnone. run_tool. rewrite Hdocker.
    assert (Hne : forall a, In a ["start"; "stop"; "status"; "list"; "purge"] ->
                            String.eqb action a = false).
    { intros a Hin. apply String.eqb_neq. intro E. subst a. exact (Hnone Hin). }
    rewrite (Hne "start"), (Hne "stop"), (Hne "status"), (Hne "list"),
      (Hne "purge") by (cbn; tauto).
    reflexivity.
  - intros Hpurge Hunset. subst action. run_tool. rewrite Hdocker.
    cbn [String.eqb Ascii.eqb Bool.eqb].
    destruct queueName as [name|]; [|reflexivity].
    cbn in Hunset. rewrite Hunset. reflexivity.
Qed.

Lemma unservable_request_runs_nothing_witness :
  let tool := DemoTool.tool [DemoTool.docker_ok] in
  let restart := {| SQSLocalTool.action := "restart";
                    SQSLocalTool.queueName := None;
                    SQSLocalTool.port := SQSLocalTool.DefaultPort |} in
  let purge := {| SQSLocalTool.action := "purge";
                  SQSLocalTool.queueName := Some "";
                  SQSLocalTool.port := SQSLocalTool.DefaultPort |} in
  (SQSLocalTool.exec tool "docker --version" tt =
     (inr ("Docker version 24.0.7" ++ DemoTool.newline), tt)
   /\ ~ In (SQSLocalTool.action restart) ["start"; "stop"; "status"; "list"; "purge"]
   /\ SQSLocalTool.action purge = "purge"
   /\ not_set (SQSLocalTool.queueName purge) = true)
  /\ SQSLocalTool.execute tool restart tt =
       (inr (SQSLocalTool.plain "error" "Invalid action: restart"), tt,
        ["docker --version"])
  /\ SQSLocalTool.execute tool purge tt =
       (inr (SQSLocalTool.plain "error" "queueName is required for purge action"),
        tt, ["docker --version"]).
Proof.
  intros tool restart purge.
  assert (Hdocker : SQSLocalTool.exec tool "docker --version" tt =
                      (inr ("Docker version 24.0.7" ++ DemoTool.newline), tt))
    by reflexivity.
  assert (Hnone : ~ In (SQSLocalTool.action restart)
                      ["start"; "stop"; "status"; "list"; "purge"]).
  { cbn. intros [E|[E|[E|[E|[E|[]]]]]]; discriminate. }
  assert (Hpurge : SQSLocalTool.action purge = "purge") by reflexivity.
  assert (Hunset : not_set (SQSLocalTool.queueName purge) = true) by reflexivity.
  split; [auto|]. split.
  - exact (proj1 (unservable_request_runs_nothing tool restart tt tt _ Hdocker) Hnone).
  - exact (proj2 (unservable_request_runs_nothing tool purge tt tt _ Hdocker)
             Hpurge Hunset).
Defined.

(** X22. [list] and [purge] do not call the AWS CLI when the container is
    not running: when the status query prints nothing, they run no further
    command and answer "Local SQS is not running". *)
Theorem list_and_purge_need_the_container
    {num : Type} `{Number num} (tool : SQSLocalTool.ToolHost num)
    (q : option string) (name : string) (port : SQSLocalTool.Port num)
    (w w1 w2 : SQSLocalTool.shell tool) (version stdout : string) :
  SQSLocalTool.exec tool "docker --version" w = (inr version, w1) ->
  SQSLocalTool.exec tool SQSLocalTool.ps_running w1 = (inr stdout, w2) ->
  SQSLocalTool.trim tool stdout = "" ->
  name <> "" ->
  SQSLocalTool.execute tool
    {| SQSLocalTool.action := "list"; SQSLocalTool.queueName := q;
       SQSLocalTool.port := port |} w =
    (inr (SQSLocalTool.plain "error" "Local SQS is not running"), w2,
     ["docker --version"; SQSLocalTool.ps_running])
  /\ SQSLocalTool.execute tool
       {| SQSLocalTool.action := "purge"; SQSLocalTool.queueName := Some name;
          SQSLocalTool.port := port |} w =
       (inr (SQSLocalTool.plain "error" "Local SQS is not running"), w2,
        ["docker --version"; SQSLocalTool.ps_running]).
Proof.
  intros Hdocker Hps Hnone Hname. apply String.eqb_neq in Hname.
  split; run_tool; cbn [String.eqb Ascii.eqb Bool.eqb].
  - rewrite Hdocker. change (SQSLocalTool.exec tool _ w1)
      with (SQSLocalTool.exec tool SQSLocalTool.ps_running w1).
    rewrite Hps, Hnone. reflexivity.
  - rewrite Hdocker, Hname. change (SQSLocalTool.exec tool _ w1)
      with (SQSLocalTool.exec tool SQSLocalTool.ps_running w1).
    rewrite Hps, Hnone. reflexivity.
Qed.

Lemma list_and_purge_need_the_container_witness :
  let tool := DemoTool.tool [DemoTool.docker_ok;
                             (SQSLocalTool.ps_running, inr DemoTool.newline)] in
  (SQSLocalTool.exec tool "docker --version" tt =
     (inr ("Docker version 24.0.7" ++ DemoTool.newline), tt)
   /\ SQSLocalTool.exec tool SQSLocalTool.ps_running tt = (inr DemoTool.newline, tt)
   /\ SQSLocalTool.trim tool DemoTool.newline = ""
   /\ "reports" <> "")
  /\ snd (SQSLocalTool.execute tool
            {| SQSLocalTool.action := "purge";
               SQSLocalTool.queueName := Some "reports";
               SQSLocalTool.port := SQSLocalTool.DefaultPort |} tt) =
       ["docker --version"; SQSLocalTool.ps_running].
Proof.
  intro tool.
  assert (Hdocker : SQSLocalTool.exec tool "docker --version" tt =
                      (inr ("Docker version 24.0.7" ++ DemoTool.newline), tt))
    by reflexivity.
  assert (Hps : SQSLocalTool.exec tool SQSLocalTool.ps_running tt =
                  (inr DemoTool.newline, tt))
    by (vm_compute; reflexivity).
  assert (Hnone : SQSLocalTool.trim tool DemoTool.newline = "") by reflexivity.
  assert (Hname : "reports" <> "") by discriminate.
  split; [auto|].
  rewrite (proj2 (list_and_purge_need_the_container tool None "reports"
                    SQSLocalTool.DefaultPort tt tt tt _ _
                    Hdocker Hps Hnone Hname)).
  reflexivity.
Defined.

(** X23. What [list] makes of the output of the AWS CLI, the container
    running.  Output that does not parse is answered "Failed to list
    queues" with the parser's message.  Output that parses to a value
    without a truthy [QueueUrls] (and that is not null) is answered with an
    empty list of queues. *)
Theorem list_reads_the_cli_output
    {num : Type} `{Number num} (tool : SQSLocalTool.ToolHost num)
    (q : option string) (port : SQSLocalTool.Port num)
    (w w1 w2 w3 : SQSLocalTool.shell tool) (version status stdout : string) :
  let params := {| SQSLocalTool.action := "list"; SQSLocalTool.queueName := q;
                   SQSLocalTool.port := port |} in
  let aws := "aws sqs list-queues --endpoint-url http://localhost:9324" in
  SQSLocalTool.exec tool "docker --version" w = (inr version, w1) ->
  SQSLocalTool.exec tool SQSLocalTool.ps_running w1 = (inr status, w2) ->
  SQSLocalTool.trim tool status <> "" ->
  SQSLocalTool.exec tool aws w2 = (inr stdout, w3) ->
  (forall e,
     SQSLocalTool.parse tool stdout = inl e ->
     SQSLocalTool.execute tool params w =
       (inr (SQSLocalTool.failed "Failed to list queues" e), w3,
        ["docker --version"; SQSLocalTool.ps_running; aws]))
  /\ (forall data,
        SQSLocalTool.parse tool stdout = inr data ->
        data <> JNull -> data <> JUndefined ->
        truthy (get data "QueueUrls") = false ->
        exists r,
          SQSLocalTool.execute tool params w =
            (inr r, w3, ["docker --version"; SQSLocalTool.ps_running; aws])
          /\ SQSLocalTool.status r = "success"
          /\ SQSLocalTool.queues r = Some (JArr [])).
Proof.
  intros params aws Hdocker Hps Hup Haws. apply String.eqb_neq in Hup.
  split.
  - intros e Hparse. subst params. run_tool. cbn [String.eqb Ascii.eqb Bool.eqb].
    rewrite Hdocker.
    change (SQSLocalTool.exec tool _ w1)
      with (SQSLocalTool.exec tool SQSLocalTool.ps_running w1).
    rewrite Hps, Hup. fold aws. rewrite Haws, Hparse. reflexivity.
  - intros data Hparse Hnull Hundef Hfalsy. subst params. run_tool.
    cbn [String.eqb Ascii.eqb Bool.eqb].
    rewrite Hdocker.
    change (SQSLocalTool.exec tool _ w1)
      with (SQSLocalTool.exec tool SQSLocalTool.ps_running w1).
    rewrite Hps, Hup. fold aws. rewrite Haws, Hparse.
    assert (Hread : SQSLocalTool.read_QueueUrls data = inr (get data "QueueUrls")).
    { destruct data; try reflexivity; congruence. }
    rewrite Hread, Hfalsy. eexists. split; [reflexivity|]. split; reflexivity.
Qed.

Lemma list_reads_the_cli_output_witness :
  let up := "Up 5 minutes" ++ DemoTool.newline in
  let aws := "aws sqs list-queues --endpoint-url http://localhost:9324" in
  let tool := DemoTool.tool [DemoTool.docker_ok;
                             (SQSLocalTool.ps_running, inr up);
                             (aws, inr "{}")] in
  let params := {| SQSLocalTool.action := "list";
                   SQSLocalTool.queueName := None;
                   SQSLocalTool.port := SQSLocalTool.DefaultPort |} in
  (SQSLocalTool.exec tool "docker --version" tt =
     (inr ("Docker version 24.0.7" ++ DemoTool.newline), tt)
   /\ SQSLocalTool.exec tool SQSLocalTool.ps_running tt = (inr up, tt)
   /\ SQSLocalTool.trim tool up <> ""
   /\ SQSLocalTool.exec tool aws tt = (inr "{}", tt)
   /\ SQSLocalTool.parse tool "{}" = inr (JObj [])
   /\ truthy (get (JObj ([] : list (string * JsVal Z))) "QueueUrls") = false)
  /\ exists r,
       SQSLocalTool.execute tool params tt =
         (inr r, tt, ["docker --version"; SQSLocalTool.ps_running; aws])
       /\ SQSLocalTool.status r = "success"
       /\ SQSLocalTool.queues r = Some (JArr []).
Proof.
  intros up aws tool params.
  assert (Hdocker : SQSLocalTool.exec tool "docker --version" tt =
                      (inr ("Docker version 24.0.7" ++ DemoTool.newline), tt))
    by reflexivity.
  assert (Hps : SQSLocalTool.exec tool SQSLocalTool.ps_running tt = (inr up, tt))
    by (vm_compute; reflexivity).
  assert (Hup : SQSLocalTool.trim tool up <> "") by (vm_compute; discriminate).
  assert (Haws : SQSLocalTool.exec tool aws tt = (inr "{}", tt))
    by (vm_compute; reflexivity).
  assert (Hparse : SQSLocalTool.parse tool "{}" = inr (JObj [])) by reflexivity.
  assert (Hfalsy : truthy (get (JObj ([] : list (string * JsVal Z))) "QueueUrls")
                   = false) by reflexivity.
  split; [auto 7|].
  exact (proj2 (list_reads_the_cli_output tool None SQSLocalTool.DefaultPort
                  tt tt tt tt _ up "{}" Hdocker Hps Hup Haws)
           (JObj []) Hparse ltac:(discriminate) ltac:(discriminate) Hfalsy).
Defined.
